(** * Evaluator dashboard: review-queue reconciliation

    A shallow embedding of [src/pages/EvaluatorDashboard.tsx]: the permission
    check run on mount, the two react-query builders (pending plans and
    reviewed plans), the memoized statistics, the review mutation and the
    organization-name getter.  Presentation markup is left out.

    The page handles untyped ([any]) JSON records, so records are embedded as
    JavaScript values with the language's own truthiness, property access and
    exceptions; the remote services are an environment of oracles, and every
    observable effect (request, console output, navigation, cache
    invalidation, timer) is appended to a trace. *)

From Stdlib Require Import ZArith String List Bool Lia.
From stdpp Require Import base option list gmap strings pretty.

Set Warnings "-register-all".
Local Open Scope Z_scope.
Local Open Scope string_scope.

(** ** JavaScript values *)

Module Js.

(** The values the page handles: JSON data as it is received, and the
    built-in objects that a property read with a computed key can reach
    through [Object.prototype].  Numbers are the integers that record
    identifiers, HTTP codes and epoch milliseconds are (all far below 2^53,
    where [String(n)] is the decimal numeral); an object is the finite map of
    its own properties, and its prototype is [Object.prototype].  A built-in
    is named by the key under which [Object.prototype] holds it:
    [constructor] is the function [Object], [__proto__] is [Object.prototype]
    itself, the other keys are its methods. *)
Inductive JsVal : Type :=
| JUndefined
| JNull
| JBool (b : bool)
| JNum (n : Z)
| JStr (s : string)
| JArr (elems : list JsVal)
| JObj (props : gmap string JsVal)
| JBuiltin (key : string).

Abbreviation Obj := (gmap string JsVal).

(** What a rejected promise or a [throw] carries: a [TypeError] raised by the
    language, or a failed HTTP exchange with [error.response?.status] and
    [error.message]. *)
Inductive JsError : Type :=
| TypeError (msg : string)
| HttpError (status : option Z) (message : string).

Definition error_message (e : JsError) : string :=
  match e with
  | TypeError m => m
  | HttpError _ m => m
  end.

Definition error_status (e : JsError) : option Z :=
  match e with
  | TypeError _ => None
  | HttpError st _ => st
  end.

(** Completion of an expression that may throw. *)
Inductive Exc (A : Type) : Type :=
| Ok (a : A)
| Throw (e : JsError).
Arguments Ok {A} a.
Arguments Throw {A} e.

#[global] Instance Exc_ret : MRet Exc := fun _ a => Ok a.
#[global] Instance Exc_bind : MBind Exc := fun _ _ f m =>
  match m with
  | Ok a => f a
  | Throw e => Throw e
  end.

(** [ToBoolean]. *)
Definition truthy (v : JsVal) : bool :=
  match v with
  | JUndefined | JNull => false
  | JBool b => b
  | JNum n => negb (Z.eqb n 0)
  | JStr s => negb (String.eqb s EmptyString)
  | JArr _ | JObj _ | JBuiltin _ => true
  end.

(** [a || b] on values. *)
Definition or_else (a b : JsVal) : JsVal := if truthy a then a else b.

(** [String(v)], which is also what a template literal interpolates.  For an
    object it is the result of the inherited [Object.prototype.toString]: an
    object that shadows [toString] or [valueOf] with a property of its own is
    not part of the model. *)
Fixpoint to_string (v : JsVal) : string :=
  match v with
  | JUndefined => "undefined"
  | JNull => "null"
  | JBool true => "true"
  | JBool false => "false"
  | JNum n => pretty n
  | JStr s => s
  | JArr l =>
      (fix join (l : list JsVal) : string :=
         match l with
         | [] => EmptyString
         | x :: rest =>
             let sx := match x with
                       | JUndefined | JNull => EmptyString
                       | _ => to_string x
                       end in
             match rest with
             | [] => sx
             | _ => sx +:+ "," +:+ join rest
             end
         end) l
  | JObj _ => "[object Object]"
  | JBuiltin key =>
      if String.eqb key "__proto__" then "[object Object]"
      else if String.eqb key "constructor" then "function Object() { [native code] }"
      else "function " +:+ key +:+ "() { [native code] }"
  end.

(** [ids.join(',')] on an array of numbers. *)
Fixpoint join_numbers (ids : list Z) : string :=
  match ids with
  | [] => EmptyString
  | [n] => pretty n
  | n :: rest => pretty n +:+ "," +:+ join_numbers rest
  end.

(** [v.k] for a property the page reads by name ([status], [reviews], [id],
    [organization], [evaluator], [results], [data], [name], [length], ...):
    a [TypeError] on [null] and [undefined]; on an object the own property or
    [undefined]; [length] of arrays and strings.  None of these names is a
    property of a prototype other than [length]; index properties of arrays
    and strings and the properties of built-ins are never read by the page. *)
Definition get (v : JsVal) (k : string) : Exc JsVal :=
  match v with
  | JUndefined | JNull =>
      Throw (TypeError ("Cannot read properties of " +:+ to_string v
                        +:+ " (reading '" +:+ k +:+ "')"))
  | JObj o => Ok (default JUndefined (o !! k))
  | JArr l => Ok (if String.eqb k "length" then JNum (Z.of_nat (length l)) else JUndefined)
  | JStr s => Ok (if String.eqb k "length" then JNum (Z.of_nat (String.length s)) else JUndefined)
  | JBool _ | JNum _ | JBuiltin _ => Ok JUndefined
  end.

(** [v?.k]. *)
Definition opt_get (v : JsVal) (k : string) : JsVal :=
  match get v k with
  | Ok x => x
  | Throw _ => JUndefined
  end.

(** [o.k] on a value known to be an object, for a property read by name. *)
Definition field (o : Obj) (k : string) : JsVal := default JUndefined (o !! k).

(** The properties every object inherits from [Object.prototype]. *)
Definition object_prototype_keys : list string :=
  [ "constructor"; "__defineGetter__"; "__defineSetter__"; "hasOwnProperty";
    "__lookupGetter__"; "__lookupSetter__"; "isPrototypeOf";
    "propertyIsEnumerable"; "toString"; "valueOf"; "__proto__";
    "toLocaleString" ].

Definition inherited (k : string) : bool :=
  existsb (String.eqb k) object_prototype_keys.

(** [o[k]] for a computed key [k], on an object whose prototype is
    [Object.prototype]: the own property, and without one what the prototype
    holds under [k]. *)
Definition index (o : Obj) (k : string) : JsVal :=
  match o !! k with
  | Some v => v
  | None => if inherited k then JBuiltin k else JUndefined
  end.

(** [o[k] = v] for a computed key [k], on an object whose prototype is
    [Object.prototype]: an own property is written or created, except that
    the key [__proto__] of an object without such an own property reaches
    the setter of [Object.prototype], which creates no property.  With an
    object or [null] for [v] that setter replaces the prototype of [o]; the
    model has no place for a replaced prototype and leaves [o] as it is. *)
Definition assign (o : Obj) (k : string) (v : JsVal) : Obj :=
  match o !! k with
  | None => if String.eqb k "__proto__" then o else <[k := v]> o
  | Some _ => <[k := v]> o
  end.

(** [v === s] for a string literal [s]. *)
Definition is_str (v : JsVal) (s : string) : bool :=
  match v with
  | JStr t => String.eqb t s
  | _ => false
  end.

Definition is_array (v : JsVal) : bool :=
  match v with
  | JArr _ => true
  | _ => false
  end.

(** [SameValueZero], the comparison of [Array.prototype.includes], [Map] and
    [Set].  Objects and arrays compare by reference, and two values parsed
    from a response are never the same reference. *)
Definition same_value_zero (a b : JsVal) : bool :=
  match a, b with
  | JUndefined, JUndefined => true
  | JNull, JNull => true
  | JBool x, JBool y => Bool.eqb x y
  | JNum x, JNum y => Z.eqb x y
  | JStr x, JStr y => String.eqb x y
  | JBuiltin x, JBuiltin y => String.eqb x y
  | _, _ => false
  end.

(** [ids.includes(v)] for an array of numbers. *)
Definition includes (ids : list Z) (v : JsVal) : bool :=
  existsb (fun n => same_value_zero (JNum n) v) ids.

(** A call of an array method on [v], written [callee] in the source: the
    elements, or a [TypeError] because a value that is not an array has no
    such method.  The text of a [TypeError] is the engine's and changes with
    the build; no property below depends on it. *)
Definition array_method (v : JsVal) (callee : string) : Exc (list JsVal) :=
  match v with
  | JArr l => Ok l
  | _ => Throw (TypeError (callee +:+ " is not a function"))
  end.

(** The characters of a string, as iterating it yields them. *)
Definition chars (s : string) : list JsVal :=
  map (fun c => JStr (String c EmptyString)) (list_ascii_of_string s).

(** [...v] inside an array literal: arrays and strings are iterable, nothing
    else that JSON can hold is. *)
Definition spread_iter (v : JsVal) : Exc (list JsVal) :=
  match v with
  | JArr l => Ok l
  | JStr s => Ok (chars s)
  | _ => Throw (TypeError (to_string v +:+ " is not iterable"))
  end.

(** [{...v}]: the own enumerable properties of [v]. *)
Definition spread_obj (v : JsVal) : Obj :=
  match v with
  | JObj o => o
  | JArr l => list_to_map (imap (fun i x => (pretty i, x)) l)
  | JStr s => list_to_map (imap (fun i x => (pretty i, x)) (chars s))
  | _ => ∅
  end.

Section Callbacks.
Context {A : Type}.

(** [l.filter(f)]: every element is visited, in order. *)
Fixpoint filterE (f : A -> Exc bool) (l : list A) : Exc (list A) :=
  match l with
  | [] => Ok []
  | x :: rest =>
      b ← f x;
      rest' ← filterE f rest;
      Ok (if b : bool then x :: rest' else rest')
  end.

(** [l.some(f)]: stops at the first element [f] accepts. *)
Fixpoint someE (f : A -> Exc bool) (l : list A) : Exc bool :=
  match l with
  | [] => Ok false
  | x :: rest =>
      b ← f x;
      if b : bool then Ok true else someE f rest
  end.

(** [l.find(f)]: the first element [f] accepts, [None] for [undefined]. *)
Fixpoint findE (f : A -> Exc bool) (l : list A) : Exc (option A) :=
  match l with
  | [] => Ok None
  | x :: rest =>
      b ← f x;
      if b : bool then Ok (Some x) else findE f rest
  end.

(** [l.map(f)]. *)
Fixpoint mapE {B : Type} (f : A -> Exc B) (l : list A) : Exc (list B) :=
  match l with
  | [] => Ok []
  | x :: rest =>
      y ← f x;
      rest' ← mapE f rest;
      Ok (y :: rest')
  end.

(** [l.forEach(f)] where [f] updates a captured accumulator. *)
Fixpoint forEachE {S : Type} (f : S -> A -> Exc S) (l : list A) (acc : S) : Exc S :=
  match l with
  | [] => Ok acc
  | x :: rest =>
      acc' ← f acc x;
      forEachE f rest acc'
  end.
End Callbacks.

(** A [Map] in insertion order. *)
Definition JsMap (V : Type) : Type := list (JsVal * V).

Definition map_has {V} (m : JsMap V) (k : JsVal) : bool :=
  existsb (fun e => same_value_zero e.1 k) m.

Definition map_set {V} (m : JsMap V) (k : JsVal) (v : V) : JsMap V :=
  if map_has m k
  then map (fun e => if same_value_zero e.1 k then (e.1, v) else e) m
  else (m ++ [(k, v)])%list.

Definition map_values {V} (m : JsMap V) : list V := map snd m.

(** A [Set] in insertion order. *)
Definition JsSet : Type := list JsVal.

Definition set_add (s : JsSet) (k : JsVal) : JsSet :=
  if existsb (fun x => same_value_zero x k) s then s else (s ++ [k])%list.

Definition set_size (s : JsSet) : nat := length s.

End Js.

(** ** The component: state, collaborators and effects *)

(** The identity payload of [auth.getCurrentUser()]. *)
Module Auth.

(** One entry of [authData.userOrganizations]: a role-record binding the
    caller to an organization with a role. *)
Record UserOrganization : Type := {
  id : Z;
  organization : Z;
  role : string
}.

Record AuthData : Type := {
  isAuthenticated : bool;
  userOrganizations : option (list UserOrganization)
}.

End Auth.

Module Dashboard.
Import Js.

(** [params] of [api.get('/plans/', { params })]. *)
Record PlansQuery : Type := {
  status : string;
  organization : string;
  limit : Z
}.

(** The union type ['APPROVED' | 'REJECTED'] of a review. *)
Inductive ReviewStatus : Type := APPROVED | REJECTED.

Definition status_name (s : ReviewStatus) : string :=
  match s with
  | APPROVED => "APPROVED"
  | REJECTED => "REJECTED"
  end.

(** [reviewPayload], the body of the review request. *)
Record ReviewPayload : Type := {
  payload_status : ReviewStatus;
  payload_feedback : string
}.

(** The argument of the mutation; [feedback] may be missing at run time. *)
Record ReviewData : Type := {
  planId : JsVal;
  review_status : ReviewStatus;
  feedback : option string
}.

Inductive Tab : Type := pending | reviewed.

(** The [useState] cells of the component. *)
Record State : Type := {
  selectedPlan : option Obj;
  showReviewModal : bool;
  error : option string;
  success : option string;
  activeTab : Tab;
  userOrgIds : list Z;
  isAuthChecked : bool;
  isEvaluatorOnly : bool;
  currentEvaluatorIds : list Z;
  organizationsMap : Obj;
  isInitialLoad : bool
}.

(** The state the component mounts with. *)
Definition initial_state : State := {|
  selectedPlan := None;
  showReviewModal := false;
  error := None;
  success := None;
  activeTab := pending;
  userOrgIds := [];
  isAuthChecked := false;
  isEvaluatorOnly := false;
  currentEvaluatorIds := [];
  organizationsMap := ∅;
  isInitialLoad := true
|}.

(** Callbacks handed to [setTimeout]. *)
Inductive TimerAction : Type :=
| ClearSuccess   (* () => setSuccess(null) *)
| ClearError.    (* () => setError(null) *)

(** Observable effects, in the order the component performs them. *)
Inductive Event : Type :=
| AuthGetCurrentUser
| OrganizationsGetAll
| ApiGet (url : string) (params : PlansQuery)
| ApiPost (url : string) (payload : ReviewPayload)
| ConsoleError (label : string) (error : JsError)
| ConsoleWarn (label : string) (error : JsError)
| ConsoleLog (label : string)
| Navigate (path : string)
| InvalidateQueries (queryKey : string)
| SetTimeout (action : TimerAction) (delay : Z).

(** The collaborators of the page.  A remote call either resolves with a value
    or rejects.  [api_get] and [api_post] give [response.data] of the response
    object; [isEvaluator] is imported from [types/user], which is not part of
    the page.  The options of [useQuery] ([enabled], [staleTime], [retry])
    decide when a [queryFn] runs, not what it computes, and are left out. *)
Record Env : Type := {
  auth_getCurrentUser : Exc Auth.AuthData;
  isEvaluator : option (list Auth.UserOrganization) -> bool;
  organizations_getAll : Exc JsVal;
  api_get : string -> PlansQuery -> Exc JsVal;
  api_post : string -> ReviewPayload -> Exc JsVal;
  getTime : Z;   (* new Date().getTime() *)
  second_settles_first : bool
    (* of two requests under way, whether the second is the first to settle *)
}.

Record World : Type := {
  state : State;
  trace : list Event
}.

(** Computations of the page: they read and write the state, extend the trace
    and may throw. *)
Definition M (A : Type) : Type := World -> Exc A * World.

#[global] Instance M_ret : MRet M := fun _ a w => (Ok a, w).
#[global] Instance M_bind : MBind M := fun _ _ f m w =>
  match m w with
  | (Ok a, w') => f a w'
  | (Throw e, w') => (Throw e, w')
  end.

Definition lift {A} (r : Exc A) : M A := fun w => (r, w).

Definition throw {A} (e : JsError) : M A := lift (Throw e).

Definition emit (e : Event) : M unit := fun w =>
  (Ok tt, {| state := state w; trace := (trace w ++ [e])%list |}).

Definition read : M State := fun w => (Ok (state w), w).

Definition modify (f : State -> State) : M unit := fun w =>
  (Ok tt, {| state := f (state w); trace := trace w |}).

(** [await call] on a collaborator: the request goes out, then the promise
    settles. *)
Definition await {A} (e : Event) (r : Exc A) : M A := emit e;; lift r.

(** [try { body } catch (error) { handler }]. *)
Definition try_catch {A} (body : M A) (handler : JsError -> M A) : M A := fun w =>
  match body w with
  | (Ok a, w') => (Ok a, w')
  | (Throw e, w') => handler e w'
  end.

(** [try { body } finally { fin }]. *)
Definition try_finally {A} (body : M A) (fin : M unit) : M A := fun w =>
  match body w with
  | (r, w') =>
      match fin w' with
      | (Ok _, w'') => (r, w'')
      | (Throw e, w'') => (Throw e, w'')
      end
  end.

Definition console_error (label : string) (error : JsError) : M unit :=
  emit (ConsoleError label error).
Definition console_warn (label : string) (error : JsError) : M unit :=
  emit (ConsoleWarn label error).
Definition console_log (label : string) : M unit := emit (ConsoleLog label).
Definition navigate (path : string) : M unit := emit (Navigate path).
Definition invalidateQueries (queryKey : string) : M unit := emit (InvalidateQueries queryKey).
Definition setTimeout (action : TimerAction) (delay : Z) : M unit := emit (SetTimeout action delay).

Definition with_selectedPlan (v : option Obj) (s : State) : State :=
  {| selectedPlan := v; showReviewModal := showReviewModal s; error := error s;
     success := success s; activeTab := activeTab s; userOrgIds := userOrgIds s;
     isAuthChecked := isAuthChecked s; isEvaluatorOnly := isEvaluatorOnly s;
     currentEvaluatorIds := currentEvaluatorIds s;
     organizationsMap := organizationsMap s; isInitialLoad := isInitialLoad s |}.

Definition with_showReviewModal (v : bool) (s : State) : State :=
  {| selectedPlan := selectedPlan s; showReviewModal := v; error := error s;
     success := success s; activeTab := activeTab s; userOrgIds := userOrgIds s;
     isAuthChecked := isAuthChecked s; isEvaluatorOnly := isEvaluatorOnly s;
     currentEvaluatorIds := currentEvaluatorIds s;
     organizationsMap := organizationsMap s; isInitialLoad := isInitialLoad s |}.

Definition with_error (v : option string) (s : State) : State :=
  {| selectedPlan := selectedPlan s; showReviewModal := showReviewModal s; error := v;
     success := success s; activeTab := activeTab s; userOrgIds := userOrgIds s;
     isAuthChecked := isAuthChecked s; isEvaluatorOnly := isEvaluatorOnly s;
     currentEvaluatorIds := currentEvaluatorIds s;
     organizationsMap := organizationsMap s; isInitialLoad := isInitialLoad s |}.

Definition with_success (v : option string) (s : State) : State :=
  {| selectedPlan := selectedPlan s; showReviewModal := showReviewModal s; error := error s;
     success := v; activeTab := activeTab s; userOrgIds := userOrgIds s;
     isAuthChecked := isAuthChecked s; isEvaluatorOnly := isEvaluatorOnly s;
     currentEvaluatorIds := currentEvaluatorIds s;
     organizationsMap := organizationsMap s; isInitialLoad := isInitialLoad s |}.

Definition with_userOrgIds (v : list Z) (s : State) : State :=
  {| selectedPlan := selectedPlan s; showReviewModal := showReviewModal s; error := error s;
     success := success s; activeTab := activeTab s; userOrgIds := v;
     isAuthChecked := isAuthChecked s; isEvaluatorOnly := isEvaluatorOnly s;
     currentEvaluatorIds := currentEvaluatorIds s;
     organizationsMap := organizationsMap s; isInitialLoad := isInitialLoad s |}.

Definition with_isAuthChecked (v : bool) (s : State) : State :=
  {| selectedPlan := selectedPlan s; showReviewModal := showReviewModal s; error := error s;
     success := success s; activeTab := activeTab s; userOrgIds := userOrgIds s;
     isAuthChecked := v; isEvaluatorOnly := isEvaluatorOnly s;
     currentEvaluatorIds := currentEvaluatorIds s;
     organizationsMap := organizationsMap s; isInitialLoad := isInitialLoad s |}.

Definition with_isEvaluatorOnly (v : bool) (s : State) : State :=
  {| selectedPlan := selectedPlan s; showReviewModal := showReviewModal s; error := error s;
     success := success s; activeTab := activeTab s; userOrgIds := userOrgIds s;
     isAuthChecked := isAuthChecked s; isEvaluatorOnly := v;
     currentEvaluatorIds := currentEvaluatorIds s;
     organizationsMap := organizationsMap s; isInitialLoad := isInitialLoad s |}.

Definition with_currentEvaluatorIds (v : list Z) (s : State) : State :=
  {| selectedPlan := selectedPlan s; showReviewModal := showReviewModal s; error := error s;
     success := success s; activeTab := activeTab s; userOrgIds := userOrgIds s;
     isAuthChecked := isAuthChecked s; isEvaluatorOnly := isEvaluatorOnly s;
     currentEvaluatorIds := v;
     organizationsMap := organizationsMap s; isInitialLoad := isInitialLoad s |}.

Definition with_organizationsMap (v : Obj) (s : State) : State :=
  {| selectedPlan := selectedPlan s; showReviewModal := showReviewModal s; error := error s;
     success := success s; activeTab := activeTab s; userOrgIds := userOrgIds s;
     isAuthChecked := isAuthChecked s; isEvaluatorOnly := isEvaluatorOnly s;
     currentEvaluatorIds := currentEvaluatorIds s;
     organizationsMap := v; isInitialLoad := isInitialLoad s |}.

Definition with_isInitialLoad (v : bool) (s : State) : State :=
  {| selectedPlan := selectedPlan s; showReviewModal := showReviewModal s; error := error s;
     success := success s; activeTab := activeTab s; userOrgIds := userOrgIds s;
     isAuthChecked := isAuthChecked s; isEvaluatorOnly := isEvaluatorOnly s;
     currentEvaluatorIds := currentEvaluatorIds s;
     organizationsMap := organizationsMap s; isInitialLoad := v |}.

Definition setSelectedPlan (v : option Obj) : M unit := modify (with_selectedPlan v).
Definition setShowReviewModal (v : bool) : M unit := modify (with_showReviewModal v).
Definition setError (v : option string) : M unit := modify (with_error v).
Definition setSuccess (v : option string) : M unit := modify (with_success v).
Definition setUserOrgIds (v : list Z) : M unit := modify (with_userOrgIds v).
Definition setIsAuthChecked (v : bool) : M unit := modify (with_isAuthChecked v).
Definition setIsEvaluatorOnly (v : bool) : M unit := modify (with_isEvaluatorOnly v).
Definition setCurrentEvaluatorIds (v : list Z) : M unit := modify (with_currentEvaluatorIds v).
Definition setOrganizationsMap (v : Obj) : M unit := modify (with_organizationsMap v).
Definition setIsInitialLoad (v : bool) : M unit := modify (with_isInitialLoad v).

(** A timer that fires runs its callback on the state of that moment. *)
Definition fire (a : TimerAction) (s : State) : State :=
  match a with
  | ClearSuccess => with_success None s
  | ClearError => with_error None s
  end.

(** ** Permission check on mount *)

(** The body of [orgsResponse.data.forEach]: for an organization with a
    truthy [id], [orgMap[String(org.id)] = org.name]. *)
Definition add_org (orgMap : Obj) (org : JsVal) : Exc Obj :=
  if truthy (opt_get org "id") then
    org_id ← get org "id";
    org_name ← get org "name";
    Ok (assign orgMap (to_string org_id) org_name)
  else Ok orgMap.

(** The inner [try] of [checkPermissions]: pre-fetch of the organization
    names; a failure is logged as a warning and goes no further. *)
Definition prefetch_organizations (env : Env) : M unit :=
  try_catch
    (orgsResponse ← await OrganizationsGetAll (organizations_getAll env);
     let data := opt_get orgsResponse "data" in
     if truthy data && is_array data then
       orgs ← lift (array_method data "orgsResponse.data.forEach");
       orgMap ← lift (forEachE add_org orgs ∅);
       setOrganizationsMap orgMap
     else mret tt)
    (fun orgError => console_warn "Failed to pre-fetch organizations:" orgError).

(** [isOnlyEvaluator], computed from the roles of the caller. *)
Definition isOnlyEvaluator (roles : list string) : bool :=
  existsb (String.eqb "EVALUATOR") roles
  && negb (existsb (String.eqb "ADMIN") roles)
  && negb (existsb (String.eqb "PLANNER") roles).

Definition checkPermissions (env : Env) : M unit :=
  try_finally
    (try_catch
       (authData ← await AuthGetCurrentUser (auth_getCurrentUser env);
        if negb (Auth.isAuthenticated authData) then
          navigate "/login"
        else if negb (isEvaluator env (Auth.userOrganizations authData)) then
          setError (Some "You do not have permission to access the evaluator dashboard");;
          setIsInitialLoad false
        else
          match Auth.userOrganizations authData with
          | Some ((_ :: _) as orgs) =>
              setUserOrgIds (map Auth.organization orgs);;
              setCurrentEvaluatorIds
                (map Auth.id
                   (filter (fun org => Auth.role org = "EVALUATOR") orgs));;
              setIsEvaluatorOnly (isOnlyEvaluator (map Auth.role orgs));;
              prefetch_organizations env
          | _ => mret tt
          end;;
          setIsAuthChecked true)
       (fun error =>
          console_error "Failed to check permissions:" error;;
          setError (Some "Failed to verify your permissions")))
    (setIsInitialLoad false).

(** ** The two builders *)

(** [response.data?.results || response.data || []]. *)
Definition plans_of (data : JsVal) : JsVal :=
  or_else (or_else (opt_get data "results") data) (JArr []).

(** [review => currentEvaluatorIds.includes(review.evaluator)]. *)
Definition reviewed_by (currentEvaluatorIds : list Z) (review : JsVal) : Exc bool :=
  evaluator ← get review "evaluator";
  Ok (includes currentEvaluatorIds evaluator).

(** The callback of [plans.filter]: the plan is SUBMITTED and carries no
    review of the current evaluator. *)
Definition pending_filter (currentEvaluatorIds : list Z) (plan : JsVal) : Exc bool :=
  plan_status ← get plan "status";
  if negb (is_str plan_status "SUBMITTED") then Ok false
  else
    reviews ← get plan "reviews";
    if truthy reviews && is_array reviews then
      rs ← array_method reviews "plan.reviews.some";
      hit ← someE (reviewed_by currentEvaluatorIds) rs;
      Ok (negb hit)
    else Ok true.

(** [organizationsMap[String(org)] || `Organization ${org}`]. *)
Definition organizationName_of (organizationsMap : Obj) (org : JsVal) : JsVal :=
  or_else (index organizationsMap (to_string org))
          (JStr ("Organization " +:+ to_string org)).

(** The callback of [filteredPlans.map]:
    [{ ...plan, organizationName: ... }]. *)
Definition plansWithNames_entry (organizationsMap : Obj) (plan : JsVal) : Exc Obj :=
  org ← get plan "organization";
  Ok (<["organizationName" := organizationName_of organizationsMap org]> (spread_obj plan)).

Definition plans_query (st : string) (orgIds : list Z) : PlansQuery :=
  {| status := st; organization := join_numbers orgIds; limit := 50 |}.

(** [queryFn] of the pending-plans query; the result is the [data] array of
    the object it returns. *)
Definition pendingPlans_queryFn (env : Env) : M (list Obj) :=
  s ← read;
  if (length (userOrgIds s) =? 0)%nat || (length (currentEvaluatorIds s) =? 0)%nat
  then mret []
  else
    try_catch
      (let q := plans_query "SUBMITTED" (userOrgIds s) in
       data ← await (ApiGet "/plans/" q) (api_get env "/plans/" q);
       plans ← lift (array_method (plans_of data) "plans.filter");
       filteredPlans ← lift (filterE (pending_filter (currentEvaluatorIds s)) plans);
       lift (mapE (plansWithNames_entry (organizationsMap s)) filteredPlans))
      (fun error => console_error "Error fetching pending reviews:" error;; mret []).

(** [Promise.all] of two requests that are already under way: it rejects as
    soon as one of them does, so that when both reject it rejects with the
    error of the one that settles first, which is the network's choice. *)
Definition promise_all {A} (second_first : bool) (a b : Exc A) : Exc (A * A) :=
  match a, b with
  | Ok x, Ok y => Ok (x, y)
  | Throw e, Ok _ => Throw e
  | Ok _, Throw e => Throw e
  | Throw e1, Throw e2 => Throw (if second_first then e2 else e1)
  end.

(** The callback of [allPlans.forEach]: a plan with a review of the current
    evaluator is entered under its id unless the id is already there. *)
Definition reviewed_step (currentEvaluatorIds : list Z) (organizationsMap : Obj)
    (uniquePlansMap : JsMap Obj) (plan : JsVal) : Exc (JsMap Obj) :=
  reviews ← get plan "reviews";
  if truthy reviews && is_array reviews then
    rs ← array_method reviews "plan.reviews.find";
    found ← findE (reviewed_by currentEvaluatorIds) rs;
    let currentEvaluatorReview := default JUndefined found in
    if truthy currentEvaluatorReview then
      plan_id ← get plan "id";
      if negb (map_has uniquePlansMap plan_id) then
        org ← get plan "organization";
        Ok (map_set uniquePlansMap plan_id
              (<["currentEvaluatorReview" := currentEvaluatorReview]>
                 (<["organizationName" := organizationName_of organizationsMap org]>
                    (spread_obj plan))))
      else Ok uniquePlansMap
    else Ok uniquePlansMap
  else Ok uniquePlansMap.

(** [queryFn] of the reviewed-plans query. *)
Definition reviewedPlans_queryFn (env : Env) : M (list Obj) :=
  s ← read;
  if (length (userOrgIds s) =? 0)%nat || (length (currentEvaluatorIds s) =? 0)%nat
  then mret []
  else
    try_catch
      (let qa := plans_query "APPROVED" (userOrgIds s) in
       let qr := plans_query "REJECTED" (userOrgIds s) in
       emit (ApiGet "/plans/" qa);;
       emit (ApiGet "/plans/" qr);;
       res ← lift (promise_all (second_settles_first env)
                     (api_get env "/plans/" qa) (api_get env "/plans/" qr));
       approved ← lift (spread_iter (plans_of res.1));
       rejected ← lift (spread_iter (plans_of res.2));
       let allPlans := (approved ++ rejected)%list in
       uniquePlansMap ← lift (forEachE
                                 (reviewed_step (currentEvaluatorIds s) (organizationsMap s))
                                 allPlans []);
       mret (map_values uniquePlansMap))
      (fun error => console_error "Error fetching reviewed plans:" error;; mret []).

(** ** Statistics *)

Record Statistics : Type := {
  pendingCount : nat;
  reviewedCount : nat;
  approvedCount : nat;
  rejectedCount : nat
}.

(** The body of [pendingPlans?.data?.forEach]. *)
Definition count_pending (uniquePendingPlans : JsSet) (p : Obj) : JsSet :=
  if is_str (field p "status") "SUBMITTED"
  then set_add uniquePendingPlans (field p "id")
  else uniquePendingPlans.

(** The body of [reviewedPlans?.data?.forEach], on the three sets
    (reviewed, approved, rejected). *)
Definition count_reviewed (sets : JsSet * JsSet * JsSet) (p : Obj) : JsSet * JsSet * JsSet :=
  let '(uniqueReviewedPlans, uniqueApprovedPlans, uniqueRejectedPlans) := sets in
  if is_str (field p "status") "APPROVED" || is_str (field p "status") "REJECTED" then
    let uniqueReviewedPlans := set_add uniqueReviewedPlans (field p "id") in
    if is_str (field p "status") "APPROVED" then
      (uniqueReviewedPlans, set_add uniqueApprovedPlans (field p "id"), uniqueRejectedPlans)
    else if is_str (field p "status") "REJECTED" then
      (uniqueReviewedPlans, uniqueApprovedPlans, set_add uniqueRejectedPlans (field p "id"))
    else (uniqueReviewedPlans, uniqueApprovedPlans, uniqueRejectedPlans)
  else sets.

(** The memoized [statistics]; an argument is [None] while the query has no
    data yet. *)
Definition statistics (pendingPlans reviewedPlans : option (list Obj)) : Statistics :=
  let uniquePendingPlans := fold_left count_pending (default [] pendingPlans) [] in
  let '(uniqueReviewedPlans, uniqueApprovedPlans, uniqueRejectedPlans) :=
    fold_left count_reviewed (default [] reviewedPlans) ([], [], []) in
  {| pendingCount := set_size uniquePendingPlans;
     reviewedCount := set_size uniqueReviewedPlans;
     approvedCount := set_size uniqueApprovedPlans;
     rejectedCount := set_size uniqueRejectedPlans |}.

(** ** Review mutation *)

(** [mutationFn]: one POST to the endpoint of the decision; a failure is
    logged and thrown again. *)
Definition mutationFn (env : Env) (reviewData : ReviewData) : M JsVal :=
  try_catch
    (let reviewPayload :=
       {| payload_status := review_status reviewData;
          payload_feedback := default EmptyString (feedback reviewData) |} in
     let timestamp := getTime env in
     match review_status reviewData with
     | APPROVED =>
         let url := "/plans/" +:+ to_string (planId reviewData)
                    +:+ "/approve/?_=" +:+ pretty timestamp in
         await (ApiPost url reviewPayload) (api_post env url reviewPayload)
     | REJECTED =>
         let url := "/plans/" +:+ to_string (planId reviewData)
                    +:+ "/reject/?_=" +:+ pretty timestamp in
         await (ApiPost url reviewPayload) (api_post env url reviewPayload)
     end)
    (fun error => console_error "Review submission failed:" error;; throw error).

Definition onSuccess : M unit :=
  invalidateQueries "evaluator-pending-plans";;
  invalidateQueries "evaluator-reviewed-plans";;
  setShowReviewModal false;;
  setSelectedPlan None;;
  setSuccess (Some "Plan review submitted successfully");;
  setTimeout ClearSuccess 3000.

Definition onError (error : JsError) : M unit :=
  console_error "Review mutation error:" error;;
  setError (Some (if String.eqb (error_message error) EmptyString
                  then "Failed to submit review"
                  else error_message error));;
  setTimeout ClearError 5000.

(** [reviewMutation.mutateAsync]: react-query runs [mutationFn], then
    [onSuccess] or [onError], and settles the promise the same way. *)
Definition reviewMutation_mutateAsync (env : Env) (reviewData : ReviewData) : M JsVal :=
  try_catch
    (response ← mutationFn env reviewData;
     onSuccess;;
     mret response)
    (fun error => onError error;; throw error).

Definition handleReviewPlan (plan : Obj) : M unit :=
  if negb (truthy (field plan "id")) then
    setError (Some "Invalid plan data for review")
  else
    console_log "Opening review modal for plan:";;
    setSelectedPlan (Some plan);;
    setShowReviewModal true.

Definition handleReviewSubmit (env : Env) (data_status : ReviewStatus)
    (data_feedback : option string) : M unit :=
  s ← read;
  match selectedPlan s with
  | None => mret tt
  | Some plan =>
      console_log "Submitting review for plan:";;
      try_catch
        (reviewMutation_mutateAsync env
           {| planId := field plan "id";
              review_status := data_status;
              feedback := data_feedback |};;
         mret tt)
        (fun error =>
           console_error "Failed to submit review:" error;;
           let errorMessage :=
             match error_status error with
             | Some 403 => "Permission denied. You may not have evaluator permissions."
             | Some 404 => "Plan not found or no longer available for review."
             | Some 400 => "Invalid review data. Please check your input."
             | _ => if String.eqb (error_message error) EmptyString
                    then "Failed to submit review"
                    else error_message error
             end in
           setError (Some errorMessage);;
           setTimeout ClearError 5000)
  end.

(** ** Organization name of a listed plan *)

Definition getOrganizationName (organizationsMap : Obj) (plan : Obj) : JsVal :=
  if truthy (field plan "organizationName")
     && negb (is_str (field plan "organizationName") "Unknown Organization")
  then field plan "organizationName"
  else if truthy (field plan "organization_name")
  then field plan "organization_name"
  else
    let orgId := to_string (field plan "organization") in
    if truthy (index organizationsMap orgId)
    then index organizationsMap orgId
    else JStr ("Organization " +:+ to_string (field plan "organization")).

(** [data] of a [useQuery] result: what [queryFn] resolved with, [None]
    ([undefined]) when there is none. *)
Definition useQuery_data {A} (r : Exc A * World) : option A :=
  match r.1 with
  | Ok a => Some a
  | Throw _ => None
  end.

End Dashboard.

(** ** Vocabulary of the specification *)

Module Spec.
Import Js Dashboard.

(** The Decision Records of a submission: the elements of [reviews] when it
    is an array; an absent collection has none. *)
Definition decision_records (o : Obj) : list JsVal :=
  match field o "reviews" with
  | JArr l => l
  | _ => []
  end.

(** The Decision Record carries one of the caller's reviewer ids. *)
Definition decided_by (reviewerRecordIds : list Z) (r : JsVal) : bool :=
  includes reviewerRecordIds (opt_get r "evaluator").


Definition is_object (v : JsVal) : bool :=
  match v with
  | JObj _ => true
  | _ => false
  end.

Definition is_primitive (v : JsVal) : bool :=
  match v with
  | JArr _ | JObj _ | JBuiltin _ => false
  | _ => true
  end.

(** The store's contract for a Submission: its Decision Records are records. *)
Definition decisions_are_records (o : Obj) : bool :=
  forallb is_object (decision_records o).


Definition has_status (o : Obj) (s : string) : Prop := field o "status" = JStr s.


(** The entry the pending-set builder makes of a fetched record. *)
Definition pending_entry (organizationsMap : Obj) (o : Obj) : Obj :=
  <["organizationName" := organizationName_of organizationsMap (field o "organization")]> o.

(** The entry the decided-set builder makes of a fetched record and the
    Decision Record it is attributed to. *)
Definition decided_entry (organizationsMap : Obj) (o : Obj) (r : JsVal) : Obj :=
  <["currentEvaluatorReview" := r]> (pending_entry organizationsMap o).

(** Pairwise distinct as keys of a [Map] or members of a [Set]. *)
Fixpoint distinct_keys (ks : list JsVal) : Prop :=
  match ks with
  | [] => True
  | k :: rest => existsb (fun x => same_value_zero x k) rest = false /\ distinct_keys rest
  end.

(** The identifiers of a list of entries. *)
Definition ids_of (l : list Obj) : list JsVal := map (fun e => field e "id") l.

(** The number of entries with a given status. *)
Definition with_status (st : string) (l : list Obj) : nat :=
  length (List.filter (fun e => is_str (field e "status") st) l).

(** The records a response body delivers. *)
Definition fetched_records (body : JsVal) : list JsVal :=
  match plans_of body with
  | JArr l => l
  | _ => []
  end.



(** Every field of the fetched record [o] is a field of the entry [e], with
    the same value. *)
Definition fields_preserved (o e : Obj) : Prop :=
  forall k v, o !! k = Some v -> e !! k = Some v.

(** The frame property in the words of the claim, for the pending-set
    builder: every entry of the output keeps every field of a record of the
    response. *)
Definition frame_as_stated (env : Env) (w : World) : Prop :=
  forall out e,
    (pendingPlans_queryFn env w).1 = Ok out -> In e out ->
    exists data o,
      api_get env "/plans/" (plans_query "SUBMITTED" (userOrgIds (state w))) = Ok data /\
      In (JObj o) (fetched_records data) /\
      fields_preserved o e.

(** A response body of one of the two envelope shapes, holding the list [l]. *)
Definition envelope_of (body : JsVal) (l : list JsVal) : Prop :=
  body = JArr l \/ exists o, body = JObj o /\ o !! "results" = Some (JArr l).

(** What an array literal can spread. *)
Definition iterable (v : JsVal) : bool :=
  match v with
  | JArr _ | JStr _ => true
  | _ => false
  end.

(** The tolerance of other shapes in the words of the claim, for the
    decided-set builder: a store whose approved response is of neither shape
    gives the output of a store whose approved response is the empty list. *)
Definition other_shape_as_stated : Prop :=
  forall env env' w other,
    userOrgIds (state w) <> [] ->
    currentEvaluatorIds (state w) <> [] ->
    api_get env "/plans/" (plans_query "APPROVED" (userOrgIds (state w))) = Ok other ->
    (forall l, ~ envelope_of other l) ->
    api_get env' "/plans/" (plans_query "APPROVED" (userOrgIds (state w))) = Ok (JArr []) ->
    api_get env' "/plans/" (plans_query "REJECTED" (userOrgIds (state w))) =
      api_get env "/plans/" (plans_query "REJECTED" (userOrgIds (state w))) ->
    (reviewedPlans_queryFn env w).1 = (reviewedPlans_queryFn env' w).1.

(** The outcome-specific endpoint of a decision, with its cache-busting
    parameter. *)
Definition review_url (plan_id : JsVal) (outcome : ReviewStatus) (timestamp : Z) : string :=
  "/plans/" +:+ to_string plan_id
  +:+ match outcome with
      | APPROVED => "/approve/?_="
      | REJECTED => "/reject/?_="
      end
  +:+ pretty timestamp.

(** The body [{status: outcome, feedback}], an absent feedback being the
    empty string. *)
Definition review_body (reviewData : ReviewData) : ReviewPayload :=
  {| payload_status := review_status reviewData;
     payload_feedback := match feedback reviewData with
                         | Some text => text
                         | None => EmptyString
                         end |}.

(** Events that are calls to a remote collaborator. *)
Definition is_remote_call (e : Event) : bool :=
  match e with
  | AuthGetCurrentUser | OrganizationsGetAll | ApiGet _ _ | ApiPost _ _ => true
  | _ => false
  end.

(** The world after further events. *)
Definition logged (w : World) (es : list Event) : World :=
  {| state := state w; trace := (trace w ++ es)%list |}.

(** The guard both builders start with. *)
Definition nothing_to_fetch (s : State) : bool :=
  (length (userOrgIds s) =? 0)%nat || (length (currentEvaluatorIds s) =? 0)%nat.

(** What the [try] block of the pending-set builder computes from the
    response. *)
Definition pending_try (env : Env) (s : State) : Exc (list Obj) :=
  data ← api_get env "/plans/" (plans_query "SUBMITTED" (userOrgIds s));
  plans ← array_method (plans_of data) "plans.filter";
  filteredPlans ← filterE (pending_filter (currentEvaluatorIds s)) plans;
  mapE (plansWithNames_entry (organizationsMap s)) filteredPlans.

(** What the [try] block of the decided-set builder computes from the two
    responses. *)
Definition reviewed_try (env : Env) (s : State) : Exc (list Obj) :=
  res ← promise_all (second_settles_first env)
                    (api_get env "/plans/" (plans_query "APPROVED" (userOrgIds s)))
                    (api_get env "/plans/" (plans_query "REJECTED" (userOrgIds s)));
  approved ← spread_iter (plans_of res.1);
  rejected ← spread_iter (plans_of res.2);
  uniquePlansMap ← forEachE
                     (reviewed_step (currentEvaluatorIds s) (organizationsMap s))
                     (approved ++ rejected)%list [];
  Ok (map_values uniquePlansMap).

End Spec.

(** ** Concrete stores and callers *)

Module Examples.
Import Js Dashboard.

Definition record (fields : list (string * JsVal)) : Obj := list_to_map fields.

(** A Decision Record of reviewer record [reviewer]. *)
Definition decision (reviewer : Z) (outcome feedback : string) : JsVal :=
  JObj (record [("evaluator", JNum reviewer); ("status", JStr outcome);
                ("feedback", JStr feedback)]).

(** A Submission of organization [org]. *)
Definition plan (plan_id org : Z) (st : string) (reviews : list JsVal) : Obj :=
  record [("id", JNum plan_id); ("organization", JNum org); ("status", JStr st);
          ("reviews", JArr reviews)].

(** The caller of the scenarios: reviewer record 7, organizations 2 and 3,
    and a name cache that knows organization 2. *)
Definition caller : State :=
  with_organizationsMap (record [("2", JStr "Acme")])
    (with_currentEvaluatorIds [7] (with_userOrgIds [2; 3] initial_state)).

Definition start : World := {| state := caller; trace := [] |}.

(** A component that has not resolved its identity yet. *)
Definition idle : World := {| state := initial_state; trace := [] |}.

(** A store that answers each status query with a fixed outcome. *)
Definition store (submitted approved rejected : Exc JsVal) : Env :=
  {| auth_getCurrentUser := Throw (HttpError (Some 401) "Unauthorized");
     isEvaluator := fun _ => true;
     organizations_getAll := Throw (HttpError (Some 500) "Server Error");
     api_get := fun _ q =>
       if String.eqb (status q) "SUBMITTED" then submitted
       else if String.eqb (status q) "APPROVED" then approved
       else rejected;
     api_post := fun _ _ => Ok JNull;
     getTime := 1700000000000;
     second_settles_first := false |}.

Definition bodies (l : list Obj) : JsVal := JArr (map JObj l).

(** Scenarios of the pending set: one submission decided by reviewer 9 only,
    one decided by reviewer 7, one without Decision Records. *)
Definition pending_plans : list Obj :=
  [ plan 1 2 "SUBMITTED" [decision 9 "APPROVED" EmptyString];
    plan 2 3 "SUBMITTED" [decision 7 "APPROVED" EmptyString];
    record [("id", JNum 3); ("organization", JNum 3); ("status", JStr "SUBMITTED")] ].

Definition pending_store : Env :=
  store (Ok (bodies pending_plans)) (Ok (JArr [])) (Ok (JArr [])).

(** The scenario of the decided set: submission 5 comes back from the
    approved fetch and, as a stale duplicate, from the rejected fetch;
    submission 6 was decided by reviewer 8 and then by reviewer 7. *)
Definition approved_plans : list Obj :=
  [ plan 5 2 "APPROVED" [decision 7 "APPROVED" "ok"] ].

Definition rejected_plans : list Obj :=
  [ plan 5 2 "REJECTED" [decision 7 "REJECTED" "stale"];
    plan 6 3 "REJECTED" [decision 8 "APPROVED" "fine"; decision 7 "REJECTED" "redo"] ].

Definition decided_store : Env :=
  store (Ok (JArr [])) (Ok (bodies approved_plans))
        (Ok (JObj (record [("count", JNum 2); ("results", bodies rejected_plans)]))).

(** A store that does not honour the status filter: the approved fetch
    returns a resubmitted plan that reviewer 7 rejected in an earlier round. *)
Definition unfiltered_plans : list Obj :=
  [ plan 1 2 "SUBMITTED" [decision 7 "REJECTED" "redo"] ].

Definition unfiltered_store : Env :=
  store (Ok (bodies unfiltered_plans)) (Ok (bodies unfiltered_plans)) (Ok (JArr [])).

(** A submission that already carries a field named [organizationName]. *)
Definition named_plan : Obj :=
  record [("id", JNum 4); ("organization", JNum 2); ("status", JStr "SUBMITTED");
          ("organizationName", JStr "Health Bureau")].

Definition named_store : Env :=
  store (Ok (bodies [named_plan])) (Ok (JArr [])) (Ok (JArr [])).

(** A store whose approved response is an error object, of neither envelope
    shape, next to a regular rejected response. *)
Definition error_body : JsVal := JObj (record [("detail", JStr "Not found.")]).

Definition odd_store : Env :=
  store (Ok error_body) (Ok error_body) (Ok (bodies rejected_plans)).

Definition plain_store : Env :=
  store (Ok (JArr [])) (Ok (JArr [])) (Ok (bodies rejected_plans)).

(** The stores of the scenarios, with the other envelope shape. *)
Definition wrapped_pending_store : Env :=
  store (Ok (JObj (record [("count", JNum 3); ("results", bodies pending_plans)])))
        (Ok (JArr [])) (Ok (JArr [])).

Definition bare_decided_store : Env :=
  store (Ok (JArr [])) (Ok (bodies approved_plans)) (Ok (bodies rejected_plans)).

(** A caller who holds the evaluator role next to a role that is neither
    ADMIN nor PLANNER. *)
Definition two_roles : list Auth.UserOrganization :=
  [ {| Auth.id := 7; Auth.organization := 2; Auth.role := "EVALUATOR" |};
    {| Auth.id := 8; Auth.organization := 3; Auth.role := "TEAM_DESK" |} ].

Definition two_roles_env : Env :=
  {| auth_getCurrentUser :=
       Ok {| Auth.isAuthenticated := true; Auth.userOrganizations := Some two_roles |};
     isEvaluator := fun _ => true;
     organizations_getAll := Ok (JObj (record [("data", JArr [])]));
     api_get := fun _ _ => Ok (JArr []);
     api_post := fun _ _ => Ok JNull;
     getTime := 1700000000000;
     second_settles_first := false |}.

(** Two entries of one identifier with different statuses, which no run of
    the decided-set builder produces. *)
Definition clashing_entries : list Obj :=
  [ plan 1 2 "APPROVED" []; plan 1 2 "REJECTED" [] ].

(** The submission store is down for the pending and the rejected query. *)
Definition failing_store : Env :=
  store (Throw (HttpError (Some 500) "Server Error")) (Ok (JArr []))
        (Throw (HttpError (Some 502) "Bad Gateway")).

(** A signed-in evaluator of organization 2 whose catalog service is down. *)
Definition evaluator_7 : Auth.AuthData :=
  {| Auth.isAuthenticated := true;
     Auth.userOrganizations :=
       Some [ {| Auth.id := 7; Auth.organization := 2; Auth.role := "EVALUATOR" |} ] |}.


(** The decision of the scenario: submission 3 is rejected, "needs work". *)
Definition reject_3 : ReviewData :=
  {| planId := JNum 3; review_status := REJECTED; feedback := Some "needs work" |}.

End Examples.

(** ** The rest of the component: handlers, query switches, render gate *)

Module Interaction.
Import Js Dashboard.

Definition with_activeTab (v : Tab) (s : State) : State :=
  {| selectedPlan := selectedPlan s; showReviewModal := showReviewModal s; error := error s;
     success := success s; activeTab := v; userOrgIds := userOrgIds s;
     isAuthChecked := isAuthChecked s; isEvaluatorOnly := isEvaluatorOnly s;
     currentEvaluatorIds := currentEvaluatorIds s;
     organizationsMap := organizationsMap s; isInitialLoad := isInitialLoad s |}.

Definition setActiveTab (v : Tab) : M unit := modify (with_activeTab v).

(** [handleViewPlan], called with a row of either table. *)
Definition handleViewPlan (plan : Obj) : M unit :=
  if negb (truthy (field plan "id")) then
    setError (Some "Invalid plan data for viewing")
  else
    console_log "Navigating to plan view:";;
    setError None;;
    navigate ("/plans/" +:+ to_string (field plan "id")).

(** [onCancel] of the review form. *)
Definition onCancel : M unit :=
  setShowReviewModal false;;
  setSelectedPlan None.

Definition tab_eqb (a b : Tab) : bool :=
  match a, b with
  | pending, pending | reviewed, reviewed => true
  | _, _ => false
  end.

(** [enabled] of the pending-plans query. *)
Definition pendingPlans_enabled (s : State) : bool :=
  isAuthChecked s
  && (0 <? length (userOrgIds s))%nat
  && (0 <? length (currentEvaluatorIds s))%nat.

(** [enabled] of the reviewed-plans query. *)
Definition reviewedPlans_enabled (s : State) : bool :=
  isAuthChecked s
  && tab_eqb (activeTab s) reviewed
  && (0 <? length (userOrgIds s))%nat
  && (0 <? length (currentEvaluatorIds s))%nat.

(** [s.includes(sub)]. *)
Fixpoint includes_string (s sub : string) : bool :=
  String.prefix sub s
  || match s with
     | EmptyString => false
     | String _ rest => includes_string rest sub
     end.

(** What the component returns: the loading screen until the permission check
    has passed, the access-denied panel for an error that mentions
    'permission', the dashboard otherwise. *)
Inductive Screen : Type :=
| LoadingScreen
| AccessDenied (message : string)
| DashboardScreen.

Definition render (s : State) : Screen :=
  if negb (isAuthChecked s) then LoadingScreen
  else
    match error s with
    | Some message =>
        if includes_string message "permission" then AccessDenied message
        else DashboardScreen
    | None => DashboardScreen
    end.

Definition is_dashboard (v : Screen) : bool :=
  match v with
  | DashboardScreen => true
  | _ => false
  end.

(** The plan of the review modal, shown under
    [showReviewModal && selectedPlan]. *)
Definition modal (s : State) : option Obj :=
  if showReviewModal s then selectedPlan s else None.

(** What can happen to a mounted component: the effect of the mount, a run of
    a query, a click, a submission or cancellation of the review form, a
    timer that fires. *)
Inductive Action : Type :=
| Mount
| PendingQuery
| ReviewedQuery
| Refresh
| SelectTab (tab : Tab)
| ViewPlan (plan : Obj)
| ReviewPlan (plan : Obj)
| SubmitReview (data_status : ReviewStatus) (data_feedback : option string)
| CancelReview
| TimerFires (action : TimerAction).

(** An action can happen when what triggers it is there: react-query runs a
    query that is enabled; buttons and rows belong to the dashboard, the
    Refresh and Review buttons to its pending tab; the review form is inside
    the modal. *)
Definition available (s : State) (a : Action) : bool :=
  match a with
  | Mount => true
  | PendingQuery => pendingPlans_enabled s
  | ReviewedQuery => reviewedPlans_enabled s
  | Refresh => is_dashboard (render s) && tab_eqb (activeTab s) pending
  | SelectTab _ => is_dashboard (render s)
  | ViewPlan _ => is_dashboard (render s)
  | ReviewPlan _ => is_dashboard (render s) && tab_eqb (activeTab s) pending
  | SubmitReview _ _ | CancelReview =>
      is_dashboard (render s)
      && match modal s with
         | Some _ => true
         | None => false
         end
  | TimerFires _ => true
  end.

Definition perform (env : Env) (a : Action) : M unit :=
  s ← read;
  if available s a then
    match a with
    | Mount => checkPermissions env
    | PendingQuery | Refresh => pendingPlans_queryFn env;; mret tt
    | ReviewedQuery => reviewedPlans_queryFn env;; mret tt
    | SelectTab tab => setActiveTab tab
    | ViewPlan plan => handleViewPlan plan
    | ReviewPlan plan => handleReviewPlan plan
    | SubmitReview data_status data_feedback =>
        handleReviewSubmit env data_status data_feedback
    | CancelReview => onCancel
    | TimerFires action => modify (fire action)
    end
  else mret tt.

(** A session: actions in sequence, each against the collaborators as they
    are at that moment.  A handler runs to its end before the next action
    starts: what happens while a handler waits for a response is not
    interleaved with it.  Timers and the mount effect may occur at any time,
    which allows more sessions than the browser does. *)
Fixpoint session (steps : list (Env * Action)) : M unit :=
  match steps with
  | [] => mret tt
  | (env, a) :: rest => perform env a;; session rest
  end.

End Interaction.

(** ** Vocabulary of the further properties *)

Module Facts.
Import Js Dashboard Spec Interaction.

(** The identity service accepts the caller: it answers, the caller is
    authenticated, and [isEvaluator] accepts the caller's role-records. *)
Definition accepted (env : Env) : bool :=
  match auth_getCurrentUser env with
  | Ok authData =>
      Auth.isAuthenticated authData
      && isEvaluator env (Auth.userOrganizations authData)
  | Throw _ => false
  end.

(** The role-records of the caller. *)
Definition role_records (env : Env) : list Auth.UserOrganization :=
  match auth_getCurrentUser env with
  | Ok authData => default [] (Auth.userOrganizations authData)
  | Throw _ => []
  end.

(** What [add_org] does to the map, for any catalog entry. *)
Definition cache_org (orgMap : Obj) (org : JsVal) : Obj :=
  if truthy (opt_get org "id")
  then assign orgMap (to_string (opt_get org "id")) (opt_get org "name")
  else orgMap.

(** The entries of the catalog response, when [orgsResponse?.data] is an
    array. *)
Definition catalog (orgsResponse : JsVal) : option (list JsVal) :=
  match opt_get orgsResponse "data" with
  | JArr l => Some l
  | _ => None
  end.

(** The catalog entry a cache key stands for: the last entry with a truthy id
    whose string form is the key; none for the key [__proto__], under which
    an assignment creates no property. *)
Definition catalog_entry (l : list JsVal) (key : string) : option JsVal :=
  if String.eqb key "__proto__" then None
  else List.find (fun org => truthy (opt_get org "id")
                             && String.eqb (to_string (opt_get org "id")) key)
                 (rev l).

(** A value that the setter of [__proto__] would install as a prototype. *)
Definition replaces_prototype (v : JsVal) : bool :=
  match v with
  | JNull | JArr _ | JObj _ | JBuiltin _ => true
  | _ => false
  end.

(** The catalog entries of the catalog interface [{ id, name }]: an id that
    is entered is a number, a string or a boolean, and the entry of the id
    [__proto__], if there is one, does not carry an object or [null] for a
    name. *)
Definition catalog_record (org : JsVal) : bool :=
  negb (truthy (opt_get org "id"))
  || is_primitive (opt_get org "id")
     && (negb (String.eqb (to_string (opt_get org "id")) "__proto__")
         || negb (replaces_prototype (opt_get org "name"))).

(** The world after the inner [try] of [checkPermissions]. *)
Definition after_prefetch (env : Env) (w : World) : World :=
  match organizations_getAll env with
  | Throw e =>
      logged w [OrganizationsGetAll;
                ConsoleWarn "Failed to pre-fetch organizations:" e]
  | Ok orgsResponse =>
      match catalog orgsResponse with
      | Some l =>
          {| state := with_organizationsMap (fold_left cache_org l ∅) (state w);
             trace := (trace w ++ [OrganizationsGetAll])%list |}
      | None => logged w [OrganizationsGetAll]
      end
  end.

(** The state after the identity of an accepted caller has been taken in. *)
Definition with_identity (orgs : list Auth.UserOrganization) (s : State) : State :=
  with_isEvaluatorOnly (isOnlyEvaluator (map Auth.role orgs))
    (with_currentEvaluatorIds
       (map Auth.id (filter (fun org => Auth.role org = "EVALUATOR") orgs))
       (with_userOrgIds (map Auth.organization orgs) s)).

(** The world after [checkPermissions]. *)
Definition after_mount (env : Env) (w : World) : World :=
  match auth_getCurrentUser env with
  | Throw e =>
      {| state := with_isInitialLoad false
                    (with_error (Some "Failed to verify your permissions") (state w));
         trace := (trace w ++ [AuthGetCurrentUser;
                               ConsoleError "Failed to check permissions:" e])%list |}
  | Ok authData =>
      if negb (Auth.isAuthenticated authData) then
        {| state := with_isInitialLoad false (state w);
           trace := (trace w ++ [AuthGetCurrentUser; Navigate "/login"])%list |}
      else if negb (isEvaluator env (Auth.userOrganizations authData)) then
        {| state := with_isInitialLoad false
                      (with_error
                         (Some "You do not have permission to access the evaluator dashboard")
                         (state w));
           trace := (trace w ++ [AuthGetCurrentUser])%list |}
      else
        match Auth.userOrganizations authData with
        | Some ((_ :: _) as orgs) =>
            let w1 := after_prefetch env
                        {| state := with_identity orgs (state w);
                           trace := (trace w ++ [AuthGetCurrentUser])%list |} in
            {| state := with_isInitialLoad false (with_isAuthChecked true (state w1));
               trace := trace w1 |}
        | _ =>
            {| state := with_isInitialLoad false (with_isAuthChecked true (state w));
               trace := (trace w ++ [AuthGetCurrentUser])%list |}
        end
  end.

(** The notice [handleReviewSubmit] shows for a failed submission. *)
Definition failure_notice (e : JsError) : string :=
  match error_status e with
  | Some 403 => "Permission denied. You may not have evaluator permissions."
  | Some 404 => "Plan not found or no longer available for review."
  | Some 400 => "Invalid review data. Please check your input."
  | _ => if String.eqb (error_message e) EmptyString
         then "Failed to submit review"
         else error_message e
  end.

(** The argument [handleReviewSubmit] hands to the mutation. *)
Definition submission_of (plan : Obj) (data_status : ReviewStatus)
    (data_feedback : option string) : ReviewData :=
  {| planId := field plan "id";
     review_status := data_status;
     feedback := data_feedback |}.

(** The selection is sound: a selected plan has a truthy id, and the modal is
    switched on only while a plan is selected. *)
Definition selection_ok (s : State) : Prop :=
  (forall plan, selectedPlan s = Some plan -> truthy (field plan "id") = true) /\
  (showReviewModal s = true -> selectedPlan s <> None).

(** The test of the pending set on a record. *)
Definition awaits_decision (reviewerRecordIds : list Z) (o : Obj) : bool :=
  is_str (field o "status") "SUBMITTED"
  && negb (existsb (decided_by reviewerRecordIds) (decision_records o)).

(** Events that ask the submission store for plans or send it a decision. *)
Definition is_plan_request (e : Event) : bool :=
  match e with
  | ApiGet _ _ | ApiPost _ _ => true
  | _ => false
  end.

(** A decision is posted to the endpoint of a plan with a truthy id. *)
Definition post_ok (e : Event) : Prop :=
  match e with
  | ApiPost url payload =>
      exists plan_id timestamp,
        truthy plan_id = true /\
        url = review_url plan_id (payload_status payload) timestamp
  | _ => True
  end.

(** The plans a session opens for review. *)
Definition opened (steps : list (Env * Action)) (plan : Obj) : Prop :=
  exists env, In (env, ReviewPlan plan) steps.

(** A decision that is posted is the decision on one of [plans]: the request
    goes to the approve or the reject endpoint of that plan's id, which is
    truthy, and the endpoint is the one of the status in the body. *)
Definition decision_for (plans : Obj -> Prop) (e : Event) : Prop :=
  match e with
  | ApiPost url payload =>
      exists plan timestamp,
        plans plan /\
        truthy (field plan "id") = true /\
        url = review_url (field plan "id") (payload_status payload) timestamp
  | _ => True
  end.

(** A request of a builder: [GET /plans/] for one status, the caller's
    organizations and at most 50 plans. *)
Definition builder_request (s : State) (e : Event) : Prop :=
  exists st, e = ApiGet "/plans/" (plans_query st (userOrgIds s)).

(** A catalog with a regular entry, an entry whose id is 0, a [null], a
    renamed organization, an organization without a name and an entry whose
    id is the string [__proto__]. *)
Definition sample_catalog : list JsVal :=
  [ JObj (list_to_map [("id", JNum 2); ("name", JStr "Acme")]);
    JObj (list_to_map [("id", JNum 0); ("name", JStr "Zero")]);
    JNull;
    JObj (list_to_map [("id", JNum 2); ("name", JStr "Acme Health")]);
    JObj (list_to_map [("id", JNum 4); ("name", JStr EmptyString)]);
    JObj (list_to_map [("id", JStr "__proto__"); ("name", JStr "Proto")]) ].

(** A signed-in evaluator whose catalog service answers. *)
Definition catalog_up : Env :=
  {| auth_getCurrentUser := Ok Examples.evaluator_7;
     isEvaluator := fun _ => true;
     organizations_getAll :=
       Ok (JObj (list_to_map [("data", JArr sample_catalog)]));
     api_get := fun _ _ => Ok (JArr []);
     api_post := fun _ _ => Ok JNull;
     getTime := 1700000000000;
     second_settles_first := false |}.

(** A caller the identity service knows but who holds no evaluator role. *)
Definition planner_only : Env :=
  {| auth_getCurrentUser :=
       Ok {| Auth.isAuthenticated := true;
             Auth.userOrganizations :=
               Some [ {| Auth.id := 9; Auth.organization := 2; Auth.role := "PLANNER" |} ] |};
     isEvaluator := fun _ => false;
     organizations_getAll := Ok (JObj (list_to_map [("data", JArr sample_catalog)]));
     api_get := fun _ _ => Ok (JArr []);
     api_post := fun _ _ => Ok JNull;
     getTime := 1700000000000;
     second_settles_first := false |}.

(** A dashboard on which submission 3 of organization 2 is under review, and
    a store that refuses the decision. *)
Definition reviewing : World :=
  {| state := with_showReviewModal true
                (with_selectedPlan (Some (Examples.plan 3 2 "SUBMITTED" []))
                   (with_isAuthChecked true Examples.caller));
     trace := [] |}.

Definition refusing (code : Z) (message : string) : Env :=
  {| auth_getCurrentUser := Ok Examples.evaluator_7;
     isEvaluator := fun _ => true;
     organizations_getAll := Ok JNull;
     api_get := fun _ _ => Ok (JArr []);
     api_post := fun _ _ => Throw (HttpError (Some code) message);
     getTime := 1700000000000;
     second_settles_first := false |}.

(** A session: the evaluator's dashboard mounts, the pending query runs, the
    evaluator opens submission 3 and the store refuses the approval, the
    notice is cleared, and the second attempt goes through. *)
Definition working_session : list (Env * Action) :=
  [ (catalog_up, Mount);
    (Examples.pending_store, PendingQuery);
    (catalog_up, ReviewPlan (Examples.plan 3 2 "SUBMITTED" []));
    (refusing 403 "Forbidden", SubmitReview APPROVED None);
    (catalog_up, TimerFires ClearError);
    (catalog_up, SubmitReview APPROVED (Some "ok")) ].

(** A session of a caller without the evaluator role, who gets nowhere. *)
Definition refused_session : list (Env * Action) :=
  [ (planner_only, Mount);
    (planner_only, PendingQuery);
    (planner_only, Refresh);
    (planner_only, ReviewPlan (Examples.plan 3 2 "SUBMITTED" []));
    (planner_only, SubmitReview APPROVED None) ].

(** A store that returns submission 1 twice. *)
Definition repeating_store : Env :=
  Examples.store
    (Ok (Examples.bodies [ Examples.plan 1 2 "SUBMITTED" [];
                           Examples.plan 1 2 "SUBMITTED" [] ]))
    (Ok (JArr [])) (Ok (JArr [])).

(** The world a component mounts in. *)
Definition mounting : World := {| state := initial_state; trace := [] |}.

End Facts.

(** * Properties *)

Import Js Dashboard Spec.

(** ** Running the builders *)

(** Unfolds the effect primitives of a computation applied to a world. *)
Ltac run_M :=
  unfold console_error, console_warn, console_log, navigate, invalidateQueries,
    setTimeout, await, throw, setSelectedPlan, setShowReviewModal, setError,
    setSuccess, setUserOrgIds, setIsAuthChecked, setIsEvaluatorOnly,
    setCurrentEvaluatorIds, setOrganizationsMap, setIsInitialLoad;
  unfold try_catch, try_finally, emit, lift, read, modify, mbind, mret,
    M_bind, M_ret;
  simpl.

Lemma logged_logged w es es' : logged (logged w es) es' = logged w (es ++ es').
Proof. unfold logged; simpl. by rewrite <- app_assoc. Qed.

Lemma nothing_to_fetch_iff s :
  nothing_to_fetch s = true <-> userOrgIds s = [] \/ currentEvaluatorIds s = [].
Proof.
  unfold nothing_to_fetch. rewrite orb_true_iff, !Nat.eqb_eq.
  split; (intros [H|H]; [left|right]).
  - by apply length_zero_iff_nil.
  - by apply length_zero_iff_nil.
  - by rewrite H.
  - by rewrite H.
Qed.

(** The pending-set builder, as a function of the world it starts in. *)
Lemma pendingPlans_queryFn_run env w :
  pendingPlans_queryFn env w =
    if nothing_to_fetch (state w) then (Ok [], w)
    else
      let q := plans_query "SUBMITTED" (userOrgIds (state w)) in
      match pending_try env (state w) with
      | Ok out => (Ok out, logged w [ApiGet "/plans/" q])
      | Throw e =>
          (Ok [], logged w [ApiGet "/plans/" q;
                            ConsoleError "Error fetching pending reviews:" e])
      end.
Proof.
  unfold pendingPlans_queryFn, pending_try, nothing_to_fetch.
  unfold mbind at 1, M_bind, read; simpl.
  destruct (_ || _); [done|].
  unfold try_catch, await, lift, emit, console_error, logged,
    mbind, mret, M_bind, M_ret, Exc_bind; simpl.
  destruct (api_get env _ _) as [data|e]; simpl; [|by rewrite <- app_assoc].
  destruct (array_method _ _) as [plans|e]; simpl; [|by rewrite <- app_assoc].
  destruct (filterE _ _) as [fl|e]; simpl; [|by rewrite <- app_assoc].
  destruct (mapE _ _) as [out|e]; simpl; [done|by rewrite <- app_assoc].
Qed.

(** The decided-set builder, as a function of the world it starts in. *)
Lemma reviewedPlans_queryFn_run env w :
  reviewedPlans_queryFn env w =
    if nothing_to_fetch (state w) then (Ok [], w)
    else
      let qa := plans_query "APPROVED" (userOrgIds (state w)) in
      let qr := plans_query "REJECTED" (userOrgIds (state w)) in
      match reviewed_try env (state w) with
      | Ok out => (Ok out, logged w [ApiGet "/plans/" qa; ApiGet "/plans/" qr])
      | Throw e =>
          (Ok [], logged w [ApiGet "/plans/" qa; ApiGet "/plans/" qr;
                            ConsoleError "Error fetching reviewed plans:" e])
      end.
Proof.
  unfold reviewedPlans_queryFn, reviewed_try, nothing_to_fetch.
  unfold mbind at 1, M_bind, read; simpl.
  destruct (_ || _); [done|].
  unfold try_catch, lift, emit, console_error, mbind, mret, M_bind, M_ret, Exc_bind, logged; simpl.
  rewrite <- !app_assoc; simpl.
  destruct (promise_all _ _) as [res|e]; simpl; [|by rewrite <- app_assoc].
  destruct (spread_iter (plans_of res.1)) as [a|e]; simpl; [|by rewrite <- app_assoc].
  destruct (spread_iter (plans_of res.2)) as [r|e]; simpl; [|by rewrite <- app_assoc].
  destruct (forEachE _ _ _) as [m|e]; simpl; [done|by rewrite <- app_assoc].
Qed.

(** ** Facts about values and callbacks *)

Lemma is_str_true v s : is_str v s = true <-> v = JStr s.
Proof.
  destruct v; simpl; try (split; [discriminate|congruence]).
  rewrite String.eqb_eq. split; congruence.
Qed.

Lemma truthy_or_else a b : truthy a = true -> or_else a b = a.
Proof. unfold or_else. by intros ->. Qed.

Lemma falsy_or_else a b : truthy a = false -> or_else a b = b.
Proof. unfold or_else. by intros ->. Qed.

Section Pure_callbacks.
Context {A B : Type}.

(** A callback that never throws filters like the pure filter. *)
Lemma filterE_pure (f : B -> Exc bool) (g : A -> bool) (h : A -> B) l :
  (forall x, In x l -> f (h x) = Ok (g x)) ->
  filterE f (map h l) = Ok (map h (List.filter g l)).
Proof.
  induction l as [|x l IH]; intros Hf; simpl; [done|].
  rewrite (Hf x) by (by left). simpl.
  rewrite IH by (intros; apply Hf; by right). simpl.
  by destruct (g x).
Qed.

Lemma mapE_pure {C} (f : B -> Exc C) (g : A -> C) (h : A -> B) l :
  (forall x, In x l -> f (h x) = Ok (g x)) ->
  mapE f (map h l) = Ok (map g l).
Proof.
  induction l as [|x l IH]; intros Hf; simpl; [done|].
  rewrite (Hf x) by (by left). simpl.
  by rewrite IH by (intros; apply Hf; by right).
Qed.

Lemma someE_pure (f : A -> Exc bool) (g : A -> bool) l :
  (forall x, In x l -> f x = Ok (g x)) ->
  someE f l = Ok (existsb g l).
Proof.
  induction l as [|x l IH]; intros Hf; simpl; [done|].
  rewrite (Hf x) by (by left). simpl.
  destruct (g x); simpl; [done|].
  apply IH. intros; apply Hf; by right.
Qed.

End Pure_callbacks.

Lemma reviewed_by_record ids r :
  is_object r = true -> reviewed_by ids r = Ok (decided_by ids r).
Proof. by destruct r. Qed.

Lemma records_forall l :
  forallb is_object l = true -> forall r, In r l -> is_object r = true.
Proof. intros H. by apply forallb_forall. Qed.

(** On a well-formed submission the filter callback of the pending-set
    builder is the pure test of the invariant. *)
Lemma pending_filter_submission ids (o : Obj) :
  decisions_are_records o = true ->
  pending_filter ids (JObj o) =
    Ok (is_str (field o "status") "SUBMITTED"
        && negb (existsb (decided_by ids) (decision_records o))).
Proof.
  unfold decisions_are_records, decision_records, pending_filter. simpl.
  fold (field o "status"). fold (field o "reviews").
  intros Hrec. destruct (is_str _ _); simpl; [|done].
  destruct (field o "reviews") as [| |b|n|s|l|o'|f] eqn:E; simpl; try done.
  - by destruct b.
  - by destruct (negb _).
  - by destruct (negb _).
  - rewrite (someE_pure _ (decided_by ids)); [done|].
    intros r Hr. apply reviewed_by_record. by apply (records_forall l).
Qed.

Lemma plansWithNames_entry_obj orgMap (o : Obj) :
  plansWithNames_entry orgMap (JObj o) = Ok (pending_entry orgMap o).
Proof. done. Qed.

(** ** Pending set *)

Lemma pending_try_submissions env s data (plans : list Obj) :
  api_get env "/plans/" (plans_query "SUBMITTED" (userOrgIds s)) = Ok data ->
  plans_of data = JArr (map JObj plans) ->
  forallb decisions_are_records plans = true ->
  pending_try env s =
    Ok (map (pending_entry (organizationsMap s))
          (List.filter
             (fun o => is_str (field o "status") "SUBMITTED"
                       && negb (existsb (decided_by (currentEvaluatorIds s))
                                  (decision_records o)))
             plans)).
Proof.
  intros Hget Hplans Hwf. unfold pending_try.
  rewrite Hget; simpl. rewrite Hplans; simpl.
  rewrite (filterE_pure _
             (fun o => is_str (field o "status") "SUBMITTED"
                       && negb (existsb (decided_by (currentEvaluatorIds s))
                                  (decision_records o)))
             JObj); simpl.
  - apply mapE_pure. intros; apply plansWithNames_entry_obj.
  - intros o Ho. apply pending_filter_submission.
    by apply (proj1 (forallb_forall _ _) Hwf).
Qed.

(** The pending-set builder on a well-formed response. *)
Lemma pendingPlans_submissions env w data (plans : list Obj) :
  userOrgIds (state w) <> [] ->
  currentEvaluatorIds (state w) <> [] ->
  api_get env "/plans/" (plans_query "SUBMITTED" (userOrgIds (state w))) = Ok data ->
  plans_of data = JArr (map JObj plans) ->
  forallb decisions_are_records plans = true ->
  (pendingPlans_queryFn env w).1 =
    Ok (map (pending_entry (organizationsMap (state w)))
          (List.filter
             (fun o => is_str (field o "status") "SUBMITTED"
                       && negb (existsb (decided_by (currentEvaluatorIds (state w)))
                                  (decision_records o)))
             plans)).
Proof.
  intros Horgs Hids Hget Hplans Hwf.
  rewrite pendingPlans_queryFn_run.
  destruct (nothing_to_fetch (state w)) eqn:Hguard.
  { apply nothing_to_fetch_iff in Hguard. tauto. }
  simpl. by rewrite (pending_try_submissions _ _ _ _ Hget Hplans Hwf).
Qed.

(** The annotation leaves the status and the Decision Records of a record as
    they are. *)
Lemma pending_entry_other orgMap (o : Obj) k :
  k <> "organizationName" -> pending_entry orgMap o !! k = o !! k.
Proof. intros Hk. unfold pending_entry. by rewrite lookup_insert_ne. Qed.

Lemma pending_entry_field orgMap (o : Obj) k :
  k <> "organizationName" -> field (pending_entry orgMap o) k = field o k.
Proof. intros Hk. unfold field. by rewrite pending_entry_other. Qed.

Lemma pending_entry_decision_records orgMap o :
  decision_records (pending_entry orgMap o) = decision_records o.
Proof. unfold decision_records. by rewrite pending_entry_field. Qed.

Lemma no_decision_iff ids l :
  existsb (decided_by ids) l = false <->
  forall r, In r l -> decided_by ids r = false.
Proof.
  rewrite <- not_true_iff_false, existsb_exists. split.
  - intros H r Hr. apply not_true_iff_false. intros Hd. apply H. eauto.
  - intros H (r & Hr & Hd). rewrite (H r Hr) in Hd. discriminate.
Qed.

(** C1: for every submission the pending-set fetch returned, the submission
    is in the output of the pending-set builder if and only if its status is
    exactly SUBMITTED and none of its Decision Records carries one of the
    caller's reviewer ids; a submission without Decision Records (absent or
    empty collection) whose status is SUBMITTED is kept. *)
Theorem pending_set_invariant env w data (plans : list Obj) :
  userOrgIds (state w) <> [] ->
  currentEvaluatorIds (state w) <> [] ->
  api_get env "/plans/" (plans_query "SUBMITTED" (userOrgIds (state w))) = Ok data ->
  plans_of data = JArr (map JObj plans) ->
  forallb decisions_are_records plans = true ->
  exists out,
    (pendingPlans_queryFn env w).1 = Ok out /\
    forall o, In o plans ->
      (In (pending_entry (organizationsMap (state w)) o) out <->
       has_status o "SUBMITTED" /\
       forall r, In r (decision_records o) ->
                 decided_by (currentEvaluatorIds (state w)) r = false) /\
      (has_status o "SUBMITTED" ->
       o !! "reviews" = None \/ o !! "reviews" = Some (JArr []) ->
       In (pending_entry (organizationsMap (state w)) o) out).
Proof.
  intros Horgs Hids Hget Hplans Hwf.
  eexists. split.
  { by apply (pendingPlans_submissions env w data plans). }
  assert (Hiff : forall o, In o plans ->
    (In (pending_entry (organizationsMap (state w)) o)
        (map (pending_entry (organizationsMap (state w)))
           (List.filter
              (fun o => is_str (field o "status") "SUBMITTED"
                        && negb (existsb (decided_by (currentEvaluatorIds (state w)))
                                   (decision_records o))) plans)) <->
     has_status o "SUBMITTED" /\
     forall r, In r (decision_records o) ->
               decided_by (currentEvaluatorIds (state w)) r = false)).
  { intros o Ho. unfold has_status.
    rewrite in_map_iff. split.
    - intros (q & Heq & Hq). apply filter_In in Hq as [_ Hq].
      apply andb_true_iff in Hq as [Hst Hno].
      apply is_str_true in Hst. apply negb_true_iff in Hno.
      pose proof (proj1 (no_decision_iff _ _) Hno) as Hnone.
      rewrite <- (pending_entry_field (organizationsMap (state w)) o "status") by done.
      rewrite <- (pending_entry_decision_records (organizationsMap (state w)) o).
      rewrite <- Heq.
      rewrite pending_entry_field by done.
      by rewrite pending_entry_decision_records.
    - intros [Hst Hno]. exists o. split; [done|].
      apply filter_In. split; [done|].
      apply andb_true_iff. split.
      + by apply is_str_true.
      + apply negb_true_iff. by apply no_decision_iff. }
  intros o Ho. split; [by apply Hiff|].
  intros Hst Habsent. apply Hiff; [done|]. split; [done|].
  unfold decision_records, field.
  destruct Habsent as [-> | ->]; simpl; by intros r [].
Qed.

(** The scenarios of the pending set: reviewer 7 sees submission 1 (decided
    by reviewer 9 only) and submission 3 (no Decision Records), not
    submission 2. *)
Lemma pending_set_invariant_witness :
  exists out,
    (pendingPlans_queryFn Examples.pending_store Examples.start).1 = Ok out /\
    forall o, In o Examples.pending_plans ->
      (In (pending_entry (organizationsMap (state Examples.start)) o) out <->
       has_status o "SUBMITTED" /\
       forall r, In r (decision_records o) ->
                 decided_by (currentEvaluatorIds (state Examples.start)) r = false) /\
      (has_status o "SUBMITTED" ->
       o !! "reviews" = None \/ o !! "reviews" = Some (JArr []) ->
       In (pending_entry (organizationsMap (state Examples.start)) o) out).
Proof.
  apply (pending_set_invariant Examples.pending_store Examples.start
           (Examples.bodies Examples.pending_plans) Examples.pending_plans).
  - discriminate.
  - discriminate.
  - reflexivity.
  - reflexivity.
  - reflexivity.
Defined.

(** The three scenarios, computed: entries 1 and 3, named from the cache or by
    the placeholder, after one request. *)
Example pending_scenarios :
  let r := pendingPlans_queryFn Examples.pending_store Examples.start in
  (match r.1 with
   | Ok out => map (fun e => (field e "id", field e "organizationName")) out
   | Throw _ => []
   end,
   trace r.2) =
  ([(JNum 1, JStr "Acme"); (JNum 3, JStr "Organization 3")],
   [ApiGet "/plans/" {| status := "SUBMITTED"; organization := "2,3"; limit := 50 |}]).
Proof. vm_compute. reflexivity. Qed.

(** ** Guards and failures *)

(** C3: when [organizationIds] or [reviewerRecordIds] is empty, both builders
    return an empty result and leave the world as it is: no request goes
    out. *)
Theorem empty_inputs_fetch_nothing env w :
  userOrgIds (state w) = [] \/ currentEvaluatorIds (state w) = [] ->
  pendingPlans_queryFn env w = (Ok [], w) /\
  reviewedPlans_queryFn env w = (Ok [], w).
Proof.
  intros Hempty. apply nothing_to_fetch_iff in Hempty.
  rewrite pendingPlans_queryFn_run, reviewedPlans_queryFn_run.
  by rewrite Hempty.
Qed.

Lemma empty_inputs_fetch_nothing_witness :
  pendingPlans_queryFn Examples.pending_store Examples.idle = (Ok [], Examples.idle) /\
  reviewedPlans_queryFn Examples.pending_store Examples.idle = (Ok [], Examples.idle).
Proof.
  apply (empty_inputs_fetch_nothing Examples.pending_store Examples.idle).
  left. reflexivity.
Defined.

Lemma promise_all_rejects {A} second_first (a b : Exc A) e :
  a = Throw e \/ b = Throw e ->
  exists e', promise_all second_first a b = Throw e' /\ (a = Throw e' \/ b = Throw e').
Proof.
  intros [-> | ->].
  - destruct b as [y|e']; simpl; [by exists e; split; [|left]|].
    destruct second_first; [exists e'|exists e]; split; auto.
  - destruct a as [x|e']; simpl; [by exists e; split; [|right]|].
    destruct second_first; [exists e|exists e']; split; auto.
Qed.

(** C6: a builder never rejects; when a fetch of the pending-set builder
    fails, or either fetch of the decided-set builder, the builder logs the
    error and resolves with an empty result. *)
Theorem fetch_failure_is_swallowed env w :
  (exists out w', pendingPlans_queryFn env w = (Ok out, w')) /\
  (exists out w', reviewedPlans_queryFn env w = (Ok out, w')) /\
  (userOrgIds (state w) <> [] -> currentEvaluatorIds (state w) <> [] ->
   let q := plans_query "SUBMITTED" (userOrgIds (state w)) in
   forall e, api_get env "/plans/" q = Throw e ->
     pendingPlans_queryFn env w =
       (Ok [], logged w [ApiGet "/plans/" q;
                         ConsoleError "Error fetching pending reviews:" e])) /\
  (userOrgIds (state w) <> [] -> currentEvaluatorIds (state w) <> [] ->
   let qa := plans_query "APPROVED" (userOrgIds (state w)) in
   let qr := plans_query "REJECTED" (userOrgIds (state w)) in
   forall e, api_get env "/plans/" qa = Throw e \/ api_get env "/plans/" qr = Throw e ->
     exists e',
       (api_get env "/plans/" qa = Throw e' \/ api_get env "/plans/" qr = Throw e') /\
       reviewedPlans_queryFn env w =
         (Ok [], logged w [ApiGet "/plans/" qa; ApiGet "/plans/" qr;
                           ConsoleError "Error fetching reviewed plans:" e'])).
Proof.
  rewrite pendingPlans_queryFn_run, reviewedPlans_queryFn_run.
  repeat split.
  - destruct (nothing_to_fetch _); [eauto|]. simpl.
    destruct (pending_try _ _); eauto.
  - destruct (nothing_to_fetch _); [eauto|]. simpl.
    destruct (reviewed_try _ _); eauto.
  - intros Horgs Hids q e Hfail.
    destruct (nothing_to_fetch (state w)) eqn:Hguard.
    { apply nothing_to_fetch_iff in Hguard. tauto. }
    simpl. unfold pending_try. fold q. by rewrite Hfail.
  - intros Horgs Hids qa qr e Hfail.
    destruct (nothing_to_fetch (state w)) eqn:Hguard.
    { apply nothing_to_fetch_iff in Hguard. tauto. }
    destruct (promise_all_rejects (second_settles_first env) _ _ _ Hfail)
      as (e' & Hall & Hwhich).
    exists e'. split; [done|].
    simpl. unfold reviewed_try. fold qa qr. by rewrite Hall.
Qed.

Lemma fetch_failure_is_swallowed_witness :
  pendingPlans_queryFn Examples.failing_store Examples.start =
    (Ok [], logged Examples.start
              [ApiGet "/plans/" (plans_query "SUBMITTED" [2; 3]);
               ConsoleError "Error fetching pending reviews:"
                 (HttpError (Some 500) "Server Error")]) /\
  exists e',
    reviewedPlans_queryFn Examples.failing_store Examples.start =
      (Ok [], logged Examples.start
                [ApiGet "/plans/" (plans_query "APPROVED" [2; 3]);
                 ApiGet "/plans/" (plans_query "REJECTED" [2; 3]);
                 ConsoleError "Error fetching reviewed plans:" e']).
Proof.
  destruct (fetch_failure_is_swallowed Examples.failing_store Examples.start)
    as (_ & _ & Hpending & Hreviewed).
  split.
  - apply Hpending; [discriminate|discriminate|reflexivity].
  - destruct (Hreviewed ltac:(discriminate) ltac:(discriminate)
                (HttpError (Some 502) "Bad Gateway") (or_intror eq_refl))
      as (e' & _ & Hrun).
    exists e'. exact Hrun.
Defined.

(** ** Organization names *)



Lemma placeholder_truthy s : truthy (JStr ("Organization " +:+ s)) = true.
Proof. done. Qed.

Lemma placeholder_not_unknown s :
  is_str (JStr ("Organization " +:+ s)) "Unknown Organization" = false.
Proof. done. Qed.


Lemma pending_entry_name orgMap (o : Obj) :
  field (pending_entry orgMap o) "organizationName" =
  organizationName_of orgMap (field o "organization").
Proof. unfold pending_entry, field at 1. by rewrite lookup_insert_eq. Qed.

Lemma decided_entry_name orgMap (o : Obj) r :
  field (decided_entry orgMap o r) "organizationName" =
  organizationName_of orgMap (field o "organization").
Proof.
  unfold decided_entry, field at 1. rewrite lookup_insert_ne by done.
  apply pending_entry_name.
Qed.

(** A plan that carries a usable name of its own is shown under that name. *)
Lemma getOrganizationName_own orgMap (p : Obj) :
  truthy (field p "organizationName") = true ->
  is_str (field p "organizationName") "Unknown Organization" = false ->
  getOrganizationName orgMap p = field p "organizationName".
Proof. unfold getOrganizationName. by intros -> ->. Qed.


(** *** Decimal numerals are not names of built-in properties *)






(** ** Decision submission *)

(** The mutation, as a function of the world it starts in. *)
Lemma reviewMutation_mutateAsync_run env reviewData w :
  let url := review_url (planId reviewData) (review_status reviewData) (getTime env) in
  let body := review_body reviewData in
  reviewMutation_mutateAsync env reviewData w =
    match api_post env url body with
    | Ok response =>
        (Ok response,
         {| state := with_success (Some "Plan review submitted successfully")
                       (with_selectedPlan None
                          (with_showReviewModal false (state w)));
            trace := (trace w ++
                      [ApiPost url body;
                       InvalidateQueries "evaluator-pending-plans";
                       InvalidateQueries "evaluator-reviewed-plans";
                       SetTimeout ClearSuccess 3000])%list |})
    | Throw e =>
        (Throw e,
         {| state := with_error
                       (Some (if String.eqb (error_message e) EmptyString
                              then "Failed to submit review"
                              else error_message e))
                       (state w);
            trace := (trace w ++
                      [ApiPost url body;
                       ConsoleError "Review submission failed:" e;
                       ConsoleError "Review mutation error:" e;
                       SetTimeout ClearError 5000])%list |})
    end.
Proof.
  unfold reviewMutation_mutateAsync, mutationFn, onSuccess, onError,
    review_url, review_body.
  run_M.
  destruct reviewData as [pid [|] fb]; simpl;
    destruct fb as [text|]; simpl;
    destruct (api_post env _ _) as [response|e]; simpl;
    by rewrite <- !app_assoc.
Qed.

(** C5: submitting a decision issues exactly one remote call, a POST to the
    approve endpoint for APPROVED and to the reject endpoint for REJECTED,
    with the body [{status, feedback}] (feedback defaulting to the empty
    string) and the clock reading of the call as cache-busting parameter;
    when it succeeds, both builders' caches are invalidated, the modal is
    closed and the selection dropped, and a success notice is shown together
    with a 3000 ms timer that clears it. *)
Theorem review_submission env reviewData w :
  let url := review_url (planId reviewData) (review_status reviewData) (getTime env) in
  let body := review_body reviewData in
  let r := reviewMutation_mutateAsync env reviewData w in
  (exists es, trace r.2 = (trace w ++ es)%list /\
              List.filter is_remote_call es = [ApiPost url body]) /\
  (forall response,
     api_post env url body = Ok response ->
     r.1 = Ok response /\
     trace r.2 = (trace w ++
                  [ApiPost url body;
                   InvalidateQueries "evaluator-pending-plans";
                   InvalidateQueries "evaluator-reviewed-plans";
                   SetTimeout ClearSuccess 3000])%list /\
     showReviewModal (state r.2) = false /\
     selectedPlan (state r.2) = None /\
     success (state r.2) = Some "Plan review submitted successfully" /\
     success (fire ClearSuccess (state r.2)) = None).
Proof.
  intros url body r. subst r.
  rewrite reviewMutation_mutateAsync_run. fold url body.
  split.
  - destruct (api_post env url body); simpl; eexists; split; reflexivity.
  - intros response ->. simpl. repeat split.
Qed.

(** The scenario submit(3, Rejected, "needs work"). *)
Lemma review_submission_witness :
  let r := reviewMutation_mutateAsync Examples.pending_store Examples.reject_3
             Examples.start in
  r.1 = Ok JNull /\
  trace r.2 =
    [ApiPost "/plans/3/reject/?_=1700000000000"
       {| payload_status := REJECTED; payload_feedback := "needs work" |};
     InvalidateQueries "evaluator-pending-plans";
     InvalidateQueries "evaluator-reviewed-plans";
     SetTimeout ClearSuccess 3000] /\
  showReviewModal (state r.2) = false /\
  selectedPlan (state r.2) = None /\
  success (state r.2) = Some "Plan review submitted successfully" /\
  success (fire ClearSuccess (state r.2)) = None.
Proof.
  apply (review_submission Examples.pending_store Examples.reject_3 Examples.start).
  reflexivity.
Defined.

(** ** Keys of maps and sets *)

Lemma same_value_zero_sym a b : same_value_zero a b = same_value_zero b a.
Proof.
  destruct a, b; simpl; try done.
  - by destruct b, b0.
  - apply Z.eqb_sym.
  - apply String.eqb_sym.
  - apply String.eqb_sym.
Qed.



Lemma distinct_keys_snoc ks k :
  distinct_keys ks ->
  existsb (fun x => same_value_zero x k) ks = false ->
  distinct_keys (ks ++ [k]).
Proof.
  induction ks as [|a ks IH]; simpl; [done|].
  intros [Ha Hks] Hk. apply orb_false_iff in Hk as [Hak Hk].
  split; [|by apply IH].
  rewrite existsb_app, Ha. simpl.
  by rewrite same_value_zero_sym, Hak.
Qed.

Lemma set_add_fresh s k :
  existsb (fun x => same_value_zero x k) s = false -> set_add s k = (s ++ [k])%list.
Proof. unfold set_add. by intros ->. Qed.

Lemma existsb_false_In {A} (f : A -> bool) l :
  existsb f l = false <-> forall x, In x l -> f x = false.
Proof.
  rewrite <- not_true_iff_false, existsb_exists. split.
  - intros H x Hx. apply not_true_iff_false. intros Hf. apply H. eauto.
  - intros H (x & Hx & Hf). rewrite (H x Hx) in Hf. discriminate.
Qed.

Lemma map_has_keys {V} (m : JsMap V) k :
  map_has m k = existsb (fun x => same_value_zero x k) (map fst m).
Proof. unfold map_has. induction m as [|e m IH]; simpl; [done|]. by rewrite IH. Qed.

(** A set stays clear of the identifiers still to come when a distinct one is
    added. *)
Lemma fresh_after (s : JsSet) k (l : list Obj) :
  (forall q, In q l -> existsb (fun x => same_value_zero x (field q "id")) s = false) ->
  existsb (fun x => same_value_zero x k) (ids_of l) = false ->
  forall q, In q l ->
    existsb (fun x => same_value_zero x (field q "id")) (s ++ [k]) = false.
Proof.
  intros Hs Hk q Hq. rewrite existsb_app, (Hs q Hq). simpl.
  rewrite orb_false_r, same_value_zero_sym.
  apply (proj1 (existsb_false_In _ _) Hk).
  by apply (in_map (fun e : Obj => field e "id")).
Qed.

(** ** Statistics *)

Lemma status_exclusive v :
  is_str v "APPROVED" && is_str v "REJECTED" = false.
Proof.
  destruct (is_str v "APPROVED") eqn:E; [|done].
  apply is_str_true in E. by subst.
Qed.

(** Over entries with pairwise distinct identifiers, each of the three sets
    grows by one for every entry of its status. *)
Lemma count_reviewed_distinct (l : list Obj) :
  forall R A J : JsSet,
    distinct_keys (ids_of l) ->
    (forall q, In q l ->
       existsb (fun x => same_value_zero x (field q "id")) R = false) ->
    (forall q, In q l ->
       existsb (fun x => same_value_zero x (field q "id")) A = false) ->
    (forall q, In q l ->
       existsb (fun x => same_value_zero x (field q "id")) J = false) ->
    let '(R', A', J') := fold_left count_reviewed l (R, A, J) in
    (length R' = length R + (with_status "APPROVED" l + with_status "REJECTED" l) /\
     length A' = length A + with_status "APPROVED" l /\
     length J' = length J + with_status "REJECTED" l)%nat.
Proof.
  unfold with_status.
  induction l as [|p l IH]; intros R A J Hdist HR HA HJ; simpl.
  { repeat split; lia. }
  destruct Hdist as [Hp Hdist].
  pose proof (status_exclusive (field p "status")) as Hex.
  assert (HR' : forall q, In q l ->
            existsb (fun x => same_value_zero x (field q "id")) R = false)
    by (intros; apply HR; by right).
  assert (HA' : forall q, In q l ->
            existsb (fun x => same_value_zero x (field q "id")) A = false)
    by (intros; apply HA; by right).
  assert (HJ' : forall q, In q l ->
            existsb (fun x => same_value_zero x (field q "id")) J = false)
    by (intros; apply HJ; by right).
  destruct (is_str (field p "status") "APPROVED") eqn:Ea;
    destruct (is_str (field p "status") "REJECTED") eqn:Ej; simpl in *; try done.
  - rewrite !set_add_fresh by (first [apply HR | apply HA]; by left).
    specialize (IH (R ++ [field p "id"])%list (A ++ [field p "id"])%list J Hdist
                  (fresh_after R _ l HR' Hp) (fresh_after A _ l HA' Hp) HJ').
    destruct (fold_left _ _ _) as [[R' A'] J'].
    rewrite !length_app in IH. simpl in *. lia.
  - rewrite !set_add_fresh by (first [apply HR | apply HJ]; by left).
    specialize (IH (R ++ [field p "id"])%list A (J ++ [field p "id"])%list Hdist
                  (fresh_after R _ l HR' Hp) HA' (fresh_after J _ l HJ' Hp)).
    destruct (fold_left _ _ _) as [[R' A'] J'].
    rewrite !length_app in IH. simpl in *. lia.
  - specialize (IH R A J Hdist HR' HA' HJ').
    by destruct (fold_left _ _ _) as [[R' A'] J'].
Qed.

Lemma statistics_distinct pendingPlans (decided : list Obj) :
  distinct_keys (ids_of decided) ->
  let stats := statistics pendingPlans (Some decided) in
  (reviewedCount stats = approvedCount stats + rejectedCount stats)%nat /\
  approvedCount stats = with_status "APPROVED" decided /\
  rejectedCount stats = with_status "REJECTED" decided.
Proof.
  intros Hdist. unfold statistics. simpl.
  pose proof (count_reviewed_distinct decided [] [] [] Hdist
                ltac:(done) ltac:(done) ltac:(done)) as H.
  destruct (fold_left count_reviewed decided _) as [[R A] J].
  simpl in *. unfold set_size. lia.
Qed.

(** ** Decided set: what one step of the traversal does *)

Lemma findE_Some {A} (f : A -> Exc bool) l x :
  findE f l = Ok (Some x) -> In x l /\ f x = Ok true.
Proof.
  induction l as [|a l IH]; simpl; [done|].
  destruct (f a) as [[|]|e] eqn:Ef; simpl; try done.
  - intros [= ->]. by split; [left|].
  - intros H. destruct (IH H). by split; [right|].
Qed.

Lemma decided_entry_other orgMap (o : Obj) r k :
  k <> "organizationName" -> k <> "currentEvaluatorReview" ->
  decided_entry orgMap o r !! k = o !! k.
Proof.
  intros H1 H2. unfold decided_entry.
  rewrite lookup_insert_ne by done. by apply pending_entry_other.
Qed.

Lemma decided_entry_field orgMap (o : Obj) r k :
  k <> "organizationName" -> k <> "currentEvaluatorReview" ->
  field (decided_entry orgMap o r) k = field o k.
Proof. intros H1 H2. unfold field. by rewrite decided_entry_other. Qed.

Lemma decided_entry_review orgMap (o : Obj) r :
  decided_entry orgMap o r !! "currentEvaluatorReview" = Some r.
Proof. unfold decided_entry. apply lookup_insert_eq. Qed.

(** Whatever the plan is, a step that does not throw either leaves the map as
    it is, or appends, under a new key, the entry of a record and one of its
    Decision Records. *)
Lemma reviewed_step_cases ids orgMap (m m' : JsMap Obj) v :
  reviewed_step ids orgMap m v = Ok m' ->
  m' = m \/
  exists (o : Obj) r,
    v = JObj o /\ In r (decision_records o) /\
    reviewed_by ids r = Ok true /\
    map_has m (field o "id") = false /\
    m' = (m ++ [(field o "id", decided_entry orgMap o r)])%list.
Proof.
  unfold reviewed_step.
  destruct v as [| |b|n|s|l|o|f]; simpl; try done;
    try (intros [= <-]; by left).
  fold (field o "reviews"). fold (field o "id"). fold (field o "organization").
  destruct (field o "reviews") as [| |b|n|s|l|o'|f] eqn:Er; simpl;
    try (intros [= <-]; by left).
  - destruct b; simpl; intros [= <-]; by left.
  - destruct (negb (Z.eqb n 0)); simpl; intros [= <-]; by left.
  - destruct (negb (String.eqb s EmptyString)); simpl; intros [= <-]; by left.
  - destruct (findE (reviewed_by ids) l) as [[r|]|e] eqn:Ef; simpl;
      try done; try (intros [= <-]; by left).
    destruct (truthy r); simpl; [|intros [= <-]; by left].
    destruct (map_has m (field o "id")) eqn:Eh; simpl;
      [intros [= <-]; by left|].
    intros [= <-]. right. exists o, r.
    apply findE_Some in Ef as [Hin Hby].
    unfold decision_records. rewrite Er.
    unfold map_set. rewrite Eh. done.
Qed.

(** The traversal keeps the keys of the map pairwise distinct and equal to
    the identifiers of the entries. *)
Lemma reviewed_traversal_keys ids orgMap l :
  forall m m' : JsMap Obj,
    forEachE (reviewed_step ids orgMap) l m = Ok m' ->
    distinct_keys (map fst m) ->
    Forall (fun ke => field ke.2 "id" = ke.1) m ->
    distinct_keys (map fst m') /\ Forall (fun ke => field ke.2 "id" = ke.1) m'.
Proof.
  induction l as [|v l IH]; simpl; intros m m' Hrun Hdist Hids.
  { by injection Hrun as <-. }
  destruct (reviewed_step ids orgMap m v) as [m1|e] eqn:Hstep; simpl in Hrun; [|done].
  apply (IH m1 m' Hrun);
    apply reviewed_step_cases in Hstep
      as [-> | (o & r & -> & Hr & Hby & Hfresh & ->)]; try done.
  - rewrite map_app. simpl. apply distinct_keys_snoc; [done|].
    by rewrite <- map_has_keys.
  - apply Forall_app. split; [done|].
    constructor; [|done]. simpl. by apply decided_entry_field.
Qed.

(** The identifiers of the output of the decided-set builder are pairwise
    distinct, whatever the store answered. *)
Lemma reviewedPlans_distinct_ids env w out :
  (reviewedPlans_queryFn env w).1 = Ok out -> distinct_keys (ids_of out).
Proof.
  rewrite reviewedPlans_queryFn_run.
  destruct (nothing_to_fetch _); simpl; [by intros [= <-]|].
  destruct (reviewed_try env (state w)) as [out'|e] eqn:Htry; simpl;
    [|by intros [= <-]].
  intros [= ->]. unfold reviewed_try in Htry.
  destruct (promise_all _ _) as [res|e]; simpl in Htry; [|done].
  destruct (spread_iter (plans_of res.1)) as [a|e]; simpl in Htry; [|done].
  destruct (spread_iter (plans_of res.2)) as [r|e]; simpl in Htry; [|done].
  destruct (forEachE _ _ _) as [m|e] eqn:Hrun; simpl in Htry; [|done].
  injection Htry as <-.
  destruct (reviewed_traversal_keys _ _ _ _ _ Hrun) as [Hdist Hids];
    [exact I|constructor|].
  unfold ids_of, map_values. rewrite map_map.
  assert (Heq : map (fun x : JsVal * Obj => field x.2 "id") m = map fst m).
  { apply map_ext_in. intros ke Hke.
    by apply (proj1 (List.Forall_forall _ _) Hids). }
  by rewrite Heq.
Qed.

(** C4: on the outputs of the two builders the aggregator's counts satisfy
    reviewedCount = approvedCount + rejectedCount; the identifiers of the
    decided list being pairwise distinct, approvedCount and rejectedCount are
    the numbers of its APPROVED and of its REJECTED entries. *)
Theorem reviewed_is_approved_plus_rejected env_pending w_pending env_decided w_decided :
  let pendingPlans := useQuery_data (pendingPlans_queryFn env_pending w_pending) in
  let reviewedPlans := useQuery_data (reviewedPlans_queryFn env_decided w_decided) in
  let stats := statistics pendingPlans reviewedPlans in
  (reviewedCount stats = approvedCount stats + rejectedCount stats)%nat /\
  approvedCount stats = with_status "APPROVED" (default [] reviewedPlans) /\
  rejectedCount stats = with_status "REJECTED" (default [] reviewedPlans).
Proof.
  intros pendingPlans reviewedPlans. subst reviewedPlans.
  generalize pendingPlans. clear pendingPlans. intros pendingPlans.
  unfold useQuery_data.
  destruct (reviewedPlans_queryFn env_decided w_decided).1 as [out|e] eqn:Hrun; simpl.
  - apply statistics_distinct. by apply (reviewedPlans_distinct_ids env_decided w_decided).
  - done.
Qed.

(** The sum is a property of the builder's output, not of the aggregator
    alone: on a list that repeats an identifier under both statuses the three
    sets have one member each. *)
Example statistics_of_clashing_entries :
  statistics None (Some Examples.clashing_entries) =
    {| pendingCount := 0; reviewedCount := 1; approvedCount := 1; rejectedCount := 1 |}.
Proof. reflexivity. Qed.

(** ** Decided set on well-formed submissions *)















(** The scenario, computed: submission 5 once, with the feedback "ok" of the
    approved copy, then submission 6 with reviewer 7's feedback. *)
Example decided_scenario :
  let r := reviewedPlans_queryFn Examples.decided_store Examples.start in
  match r.1 with
  | Ok out =>
      map (fun e => (field e "id", field e "status",
                     opt_get (field e "currentEvaluatorReview") "feedback")) out
  | Throw _ => []
  end =
  [(JNum 5, JStr "APPROVED", JStr "ok"); (JNum 6, JStr "REJECTED", JStr "redo")].
Proof. vm_compute. reflexivity. Qed.

(** The status of an entry is the one the store sent: the builder reads the
    Decision Records of a fetched submission, not its status, and the
    statistics count an entry only when it is APPROVED or REJECTED.  With a
    store that answers the approved query with a SUBMITTED plan the caller
    had rejected, the plan is listed and not counted. *)
Example unfiltered_store_scenario :
  let r := reviewedPlans_queryFn Examples.unfiltered_store Examples.start in
  match r.1 with
  | Ok out =>
      (map (fun e => (field e "id", field e "status")) out,
       reviewedCount (statistics None (Some out)))
  | Throw _ => ([], 0%nat)
  end = ([(JNum 1, JStr "SUBMITTED")], 0%nat).
Proof. vm_compute. reflexivity. Qed.

(** ** What the builders keep of a fetched record *)

Lemma filterE_In {A} (f : A -> Exc bool) l fl :
  filterE f l = Ok fl -> forall x, In x fl -> In x l /\ f x = Ok true.
Proof.
  revert fl. induction l as [|a l IH]; simpl; intros fl.
  { intros [= <-] x []. }
  destruct (f a) as [b|e] eqn:Ef; simpl; [|done].
  destruct (filterE f l) as [fl'|e]; simpl; [|done].
  intros [= <-] x Hx. destruct b.
  - destruct Hx as [<-|Hx]; [by split; [left|]|].
    destruct (IH fl' eq_refl x Hx). by split; [right|].
  - destruct (IH fl' eq_refl x Hx). by split; [right|].
Qed.

Lemma mapE_In {A B} (f : A -> Exc B) l out :
  mapE f l = Ok out -> forall y, In y out -> exists x, In x l /\ f x = Ok y.
Proof.
  revert out. induction l as [|a l IH]; simpl; intros out.
  { intros [= <-] y []. }
  destruct (f a) as [b|e] eqn:Ef; simpl; [|done].
  destruct (mapE f l) as [out'|e]; simpl; [|done].
  intros [= <-] y [<-|Hy].
  - exists a. by split; [left|].
  - destruct (IH out' eq_refl y Hy) as (x & Hx & Hfx). exists x. by split; [right|].
Qed.

(** Only a record can pass the filter of the pending-set builder. *)
Lemma pending_filter_true ids v :
  pending_filter ids v = Ok true -> exists o, v = JObj o.
Proof.
  unfold pending_filter. destruct v; simpl; try done. by eexists.
Qed.

Lemma chars_no_record s (o : Obj) : ~ In (JObj o) (chars s).
Proof.
  unfold chars. rewrite in_map_iff. by intros (c & Hc & _).
Qed.

Lemma spread_iter_records body l (o : Obj) :
  spread_iter (plans_of body) = Ok l -> In (JObj o) l ->
  In (JObj o) (fetched_records body).
Proof.
  unfold fetched_records. destruct (plans_of body); simpl; try done.
  - intros [= <-] Hin. by apply chars_no_record in Hin.
  - by intros [= <-].
Qed.

(** Every entry of the pending-set output is the annotation of a record of
    the response. *)
Lemma pendingPlans_entries env w out e :
  (pendingPlans_queryFn env w).1 = Ok out -> In e out ->
  exists data o,
    api_get env "/plans/" (plans_query "SUBMITTED" (userOrgIds (state w))) = Ok data /\
    In (JObj o) (fetched_records data) /\
    e = pending_entry (organizationsMap (state w)) o.
Proof.
  rewrite pendingPlans_queryFn_run.
  destruct (nothing_to_fetch _); simpl; [by intros [= <-] []|].
  destruct (pending_try env (state w)) as [out'|err] eqn:Htry; simpl;
    [|by intros [= <-] []].
  intros [= ->] He. unfold pending_try in Htry.
  destruct (api_get env _ _) as [data|err]; simpl in Htry; [|done].
  destruct (array_method (plans_of data) "plans.filter") as [plans|err] eqn:Hplans;
    simpl in Htry; [|done].
  destruct (filterE _ plans) as [fl|err] eqn:Hfl; simpl in Htry; [|done].
  destruct (mapE_In _ _ _ Htry e He) as (v & Hv & Hentry).
  destruct (filterE_In _ _ _ Hfl v Hv) as [Hin Hkeep].
  apply pending_filter_true in Hkeep as [o ->].
  exists data, o. split; [done|]. split.
  - unfold fetched_records. destruct (plans_of data); try done.
    by injection Hplans as <-.
  - rewrite plansWithNames_entry_obj in Hentry. by injection Hentry.
Qed.

(** Every entry the traversal adds is the annotation of a record of the
    list, with one of its Decision Records. *)
Lemma reviewed_traversal_entries ids orgMap l :
  forall (m m' : JsMap Obj) ke,
    forEachE (reviewed_step ids orgMap) l m = Ok m' -> In ke m' ->
    In ke m \/
    exists (o : Obj) r,
      In (JObj o) l /\ In r (decision_records o) /\
      ke = (field o "id", decided_entry orgMap o r).
Proof.
  induction l as [|v l IH]; simpl; intros m m' ke Hrun Hke.
  { injection Hrun as <-. by left. }
  destruct (reviewed_step ids orgMap m v) as [m1|e] eqn:Hstep; simpl in Hrun; [|done].
  destruct (IH m1 m' ke Hrun Hke) as [Hin|(o & r & Hin & Hr & ->)].
  - apply reviewed_step_cases in Hstep
      as [-> | (o & r & -> & Hr & _ & _ & ->)]; [by left|].
    apply in_app_iff in Hin as [Hin|[<-|[]]]; [by left|].
    right. exists o, r. by split; [left|].
  - right. exists o, r. by split; [right|].
Qed.

Lemma reviewedPlans_entries env w out e :
  (reviewedPlans_queryFn env w).1 = Ok out -> In e out ->
  exists da dr o r,
    api_get env "/plans/" (plans_query "APPROVED" (userOrgIds (state w))) = Ok da /\
    api_get env "/plans/" (plans_query "REJECTED" (userOrgIds (state w))) = Ok dr /\
    In (JObj o) (fetched_records da ++ fetched_records dr) /\
    In r (decision_records o) /\
    e = decided_entry (organizationsMap (state w)) o r.
Proof.
  rewrite reviewedPlans_queryFn_run.
  destruct (nothing_to_fetch _); simpl; [by intros [= <-] []|].
  destruct (reviewed_try env (state w)) as [out'|err] eqn:Htry; simpl;
    [|by intros [= <-] []].
  intros [= ->] He. unfold reviewed_try in Htry.
  destruct (api_get env "/plans/" (plans_query "APPROVED" _)) as [da|err1];
    destruct (api_get env "/plans/" (plans_query "REJECTED" _)) as [dr|err2];
    simpl in Htry; try done.
  destruct (spread_iter (plans_of da)) as [a|err] eqn:Ha; simpl in Htry; [|done].
  destruct (spread_iter (plans_of dr)) as [r|err] eqn:Hr; simpl in Htry; [|done].
  destruct (forEachE _ _ _) as [m|err] eqn:Hrun; simpl in Htry; [|done].
  injection Htry as <-. unfold map_values in He.
  apply in_map_iff in He as (ke & <- & Hke).
  destruct (reviewed_traversal_entries _ _ _ _ _ _ Hrun Hke)
    as [[]|(o & rv & Hin & Hrv & ->)].
  exists da, dr, o, rv. repeat split; try done.
  apply in_app_iff. apply in_app_iff in Hin as [Hin|Hin]; [left|right];
    by eapply spread_iter_records.
Qed.

(** C10 (as amended): an entry of a builder's output is a record of the
    response with annotations set on it: the pending-set builder sets
    [organizationName], the decided-set builder sets [organizationName] and
    [currentEvaluatorReview]; every field of the fetched record under another
    name is in the entry unchanged, and the entry has no further field. *)
Theorem builders_keep_fetched_fields env w :
  (forall out e,
     (pendingPlans_queryFn env w).1 = Ok out -> In e out ->
     exists data o,
       api_get env "/plans/" (plans_query "SUBMITTED" (userOrgIds (state w))) = Ok data /\
       In (JObj o) (fetched_records data) /\
       (forall k, k <> "organizationName" -> e !! k = o !! k) /\
       e !! "organizationName" =
         Some (organizationName_of (organizationsMap (state w)) (field o "organization"))) /\
  (forall out e,
     (reviewedPlans_queryFn env w).1 = Ok out -> In e out ->
     exists da dr o r,
       api_get env "/plans/" (plans_query "APPROVED" (userOrgIds (state w))) = Ok da /\
       api_get env "/plans/" (plans_query "REJECTED" (userOrgIds (state w))) = Ok dr /\
       In (JObj o) (fetched_records da ++ fetched_records dr) /\
       In r (decision_records o) /\
       (forall k, k <> "organizationName" -> k <> "currentEvaluatorReview" ->
                  e !! k = o !! k) /\
       e !! "organizationName" =
         Some (organizationName_of (organizationsMap (state w)) (field o "organization")) /\
       e !! "currentEvaluatorReview" = Some r).
Proof.
  split.
  - intros out e Hrun He.
    destruct (pendingPlans_entries env w out e Hrun He) as (data & o & Hget & Hin & ->).
    exists data, o. repeat split; try done.
    + intros k Hk. by apply pending_entry_other.
    + unfold pending_entry. by rewrite lookup_insert_eq.
  - intros out e Hrun He.
    destruct (reviewedPlans_entries env w out e Hrun He)
      as (da & dr & o & r & Ha & Hr & Hin & Hrec & ->).
    exists da, dr, o, r. repeat split; try done.
    + intros k Hk1 Hk2. by apply decided_entry_other.
    + unfold decided_entry, pending_entry.
      rewrite lookup_insert_ne by done. by rewrite lookup_insert_eq.
    + by apply decided_entry_review.
Qed.

(** Submission 1 of the pending scenarios and submission 6 of the decided
    scenario, in the outputs. *)
Lemma builders_keep_fetched_fields_witness :
  let p1 := Examples.plan 1 2 "SUBMITTED" [Examples.decision 9 "APPROVED" EmptyString] in
  let e1 := pending_entry (organizationsMap Examples.caller) p1 in
  let p5 := Examples.plan 5 2 "APPROVED" [Examples.decision 7 "APPROVED" "ok"] in
  let e5 := decided_entry (organizationsMap Examples.caller) p5
              (Examples.decision 7 "APPROVED" "ok") in
  (exists data o,
     api_get Examples.pending_store "/plans/" (plans_query "SUBMITTED" [2; 3]) = Ok data /\
     In (JObj o) (fetched_records data) /\
     (forall k, k <> "organizationName" -> e1 !! k = o !! k) /\
     e1 !! "organizationName" =
       Some (organizationName_of (organizationsMap Examples.caller)
               (field o "organization"))) /\
  (exists da dr o r,
     api_get Examples.decided_store "/plans/" (plans_query "APPROVED" [2; 3]) = Ok da /\
     api_get Examples.decided_store "/plans/" (plans_query "REJECTED" [2; 3]) = Ok dr /\
     In (JObj o) (fetched_records da ++ fetched_records dr) /\
     In r (decision_records o) /\
     (forall k, k <> "organizationName" -> k <> "currentEvaluatorReview" ->
                e5 !! k = o !! k) /\
     e5 !! "organizationName" =
       Some (organizationName_of (organizationsMap Examples.caller)
               (field o "organization")) /\
     e5 !! "currentEvaluatorReview" = Some r).
Proof.
  intros p1 e1 p5 e5. split.
  - apply (proj1 (builders_keep_fetched_fields Examples.pending_store Examples.start)
             [e1; pending_entry (organizationsMap Examples.caller)
                    (Examples.record [("id", JNum 3); ("organization", JNum 3);
                                      ("status", JStr "SUBMITTED")])]
             e1).
    + reflexivity.
    + left. reflexivity.
  - apply (proj2 (builders_keep_fetched_fields Examples.decided_store Examples.start)
             [e5; decided_entry (organizationsMap Examples.caller)
                    (Examples.plan 6 3 "REJECTED"
                       [Examples.decision 8 "APPROVED" "fine";
                        Examples.decision 7 "REJECTED" "redo"])
                    (Examples.decision 7 "REJECTED" "redo")]
             e5).
    + reflexivity.
    + left. reflexivity.
Defined.


(** C10 as stated fails: a fetched record that has a field named
    [organizationName] comes out with that field overwritten by the
    annotation. *)
Lemma frame_counterexample :
  ~ frame_as_stated Examples.named_store Examples.start.
Proof.
  intros Hframe.
  destruct (Hframe [pending_entry (organizationsMap Examples.caller) Examples.named_plan]
              (pending_entry (organizationsMap Examples.caller) Examples.named_plan))
    as (data & o & Hget & Hin & Hkeep).
  - reflexivity.
  - by left.
  - injection Hget as <-.
    destruct Hin as [[= <-]|[]].
    specialize (Hkeep "organizationName" (JStr "Health Bureau") eq_refl).
    unfold pending_entry in Hkeep. rewrite lookup_insert_eq in Hkeep.
    vm_compute in Hkeep. discriminate.
Qed.

(** ** Envelope shapes *)

Lemma plans_of_envelope body l : envelope_of body l -> plans_of body = JArr l.
Proof.
  unfold plans_of, opt_get.
  intros [-> | (o & -> & Hres)]; simpl; [done|].
  by rewrite Hres.
Qed.

Lemma plans_of_falsy body : truthy body = false -> plans_of body = JArr [].
Proof.
  unfold plans_of, opt_get, or_else.
  destruct body; simpl; try done.
  - by intros ->.
  - by intros ->.
  - by intros ->.
Qed.

(** A truthy body of neither shape does not give an array. *)
Lemma plans_of_other body :
  truthy body = true -> (forall l, ~ envelope_of body l) ->
  forall l, plans_of body <> JArr l.
Proof.
  unfold plans_of, opt_get, or_else, envelope_of.
  destruct body as [| |b|n|s|l'|o|f]; simpl; try done.
  - by intros ->.
  - by intros ->.
  - by intros ->.
  - intros _ Hother l. destruct (Hother l'). by left.
  - intros _ Hother l.
    destruct (o !! "results") as [v|] eqn:Hres; simpl; [|done].
    destruct (truthy v) eqn:Hv; simpl; rewrite ?Hv; [|done].
    intros Hv'. subst v. apply (Hother l). right. by exists o.
Qed.

(** The pending-set builder reads the response only through [plans_of]. *)
Lemma pendingPlans_plans_of env env' w b b' :
  api_get env "/plans/" (plans_query "SUBMITTED" (userOrgIds (state w))) = Ok b ->
  api_get env' "/plans/" (plans_query "SUBMITTED" (userOrgIds (state w))) = Ok b' ->
  plans_of b = plans_of b' ->
  pendingPlans_queryFn env w = pendingPlans_queryFn env' w.
Proof.
  intros Hb Hb' Heq. rewrite !pendingPlans_queryFn_run.
  unfold pending_try. rewrite Hb, Hb'. simpl. by rewrite Heq.
Qed.

Lemma reviewedPlans_plans_of env env' w a a' r r' :
  api_get env "/plans/" (plans_query "APPROVED" (userOrgIds (state w))) = Ok a ->
  api_get env' "/plans/" (plans_query "APPROVED" (userOrgIds (state w))) = Ok a' ->
  api_get env "/plans/" (plans_query "REJECTED" (userOrgIds (state w))) = Ok r ->
  api_get env' "/plans/" (plans_query "REJECTED" (userOrgIds (state w))) = Ok r' ->
  plans_of a = plans_of a' ->
  plans_of r = plans_of r' ->
  reviewedPlans_queryFn env w = reviewedPlans_queryFn env' w.
Proof.
  intros Ha Ha' Hr Hr' Heqa Heqr. rewrite !reviewedPlans_queryFn_run.
  unfold reviewed_try. rewrite Ha, Ha', Hr, Hr'. simpl. by rewrite Heqa, Heqr.
Qed.

Lemma pendingPlans_other_shape env w body :
  userOrgIds (state w) <> [] ->
  currentEvaluatorIds (state w) <> [] ->
  let q := plans_query "SUBMITTED" (userOrgIds (state w)) in
  api_get env "/plans/" q = Ok body ->
  (forall l, plans_of body <> JArr l) ->
  exists e,
    pendingPlans_queryFn env w =
      (Ok [], logged w [ApiGet "/plans/" q;
                        ConsoleError "Error fetching pending reviews:" e]).
Proof.
  intros Horgs Hids q Hget Hother.
  rewrite pendingPlans_queryFn_run.
  destruct (nothing_to_fetch (state w)) eqn:Hguard.
  { apply nothing_to_fetch_iff in Hguard. tauto. }
  simpl. unfold pending_try. fold q. rewrite Hget. simpl.
  destruct (plans_of body) as [| |b|n|s|l|o|f] eqn:Hp; try (by eexists).
  by destruct (Hother l).
Qed.

Lemma reviewedPlans_not_iterable env w a r :
  userOrgIds (state w) <> [] ->
  currentEvaluatorIds (state w) <> [] ->
  let qa := plans_query "APPROVED" (userOrgIds (state w)) in
  let qr := plans_query "REJECTED" (userOrgIds (state w)) in
  api_get env "/plans/" qa = Ok a ->
  api_get env "/plans/" qr = Ok r ->
  iterable (plans_of a) = false \/ iterable (plans_of r) = false ->
  exists e,
    reviewedPlans_queryFn env w =
      (Ok [], logged w [ApiGet "/plans/" qa; ApiGet "/plans/" qr;
                        ConsoleError "Error fetching reviewed plans:" e]).
Proof.
  intros Horgs Hids qa qr Ha Hr Hnot.
  rewrite reviewedPlans_queryFn_run.
  destruct (nothing_to_fetch (state w)) eqn:Hguard.
  { apply nothing_to_fetch_iff in Hguard. tauto. }
  simpl. unfold reviewed_try. fold qa qr. rewrite Ha, Hr. simpl.
  destruct (spread_iter (plans_of a)) as [la|e] eqn:Hsa; simpl; [|by eexists].
  destruct (spread_iter (plans_of r)) as [lr|e] eqn:Hsr; simpl; [|by eexists].
  destruct Hnot as [Hnot|Hnot]; [destruct (plans_of a)|destruct (plans_of r)]; done.
Qed.

(** C8 (as amended): the builders read a response only through the list
    extracted from it, which is the same for an envelope [{results: l}] and
    for the bare array [l], and is the empty list for a falsy body.  A truthy
    body of neither shape is not treated as an empty list: the run of the
    pending-set builder ends in its catch, with an empty result and the error
    logged, and so does the run of the decided-set builder when the
    extracted value is not iterable, whatever the other response holds. *)
Theorem envelope_shapes :
  (forall body l, envelope_of body l -> plans_of body = JArr l) /\
  (forall body, truthy body = false -> plans_of body = JArr []) /\
  (forall env env' w b b',
     api_get env "/plans/" (plans_query "SUBMITTED" (userOrgIds (state w))) = Ok b ->
     api_get env' "/plans/" (plans_query "SUBMITTED" (userOrgIds (state w))) = Ok b' ->
     plans_of b = plans_of b' ->
     pendingPlans_queryFn env w = pendingPlans_queryFn env' w) /\
  (forall env env' w a a' r r',
     api_get env "/plans/" (plans_query "APPROVED" (userOrgIds (state w))) = Ok a ->
     api_get env' "/plans/" (plans_query "APPROVED" (userOrgIds (state w))) = Ok a' ->
     api_get env "/plans/" (plans_query "REJECTED" (userOrgIds (state w))) = Ok r ->
     api_get env' "/plans/" (plans_query "REJECTED" (userOrgIds (state w))) = Ok r' ->
     plans_of a = plans_of a' ->
     plans_of r = plans_of r' ->
     reviewedPlans_queryFn env w = reviewedPlans_queryFn env' w) /\
  (forall env w body,
     userOrgIds (state w) <> [] ->
     currentEvaluatorIds (state w) <> [] ->
     let q := plans_query "SUBMITTED" (userOrgIds (state w)) in
     api_get env "/plans/" q = Ok body ->
     truthy body = true ->
     (forall l, ~ envelope_of body l) ->
     exists e,
       pendingPlans_queryFn env w =
         (Ok [], logged w [ApiGet "/plans/" q;
                           ConsoleError "Error fetching pending reviews:" e])) /\
  (forall env w a r,
     userOrgIds (state w) <> [] ->
     currentEvaluatorIds (state w) <> [] ->
     let qa := plans_query "APPROVED" (userOrgIds (state w)) in
     let qr := plans_query "REJECTED" (userOrgIds (state w)) in
     api_get env "/plans/" qa = Ok a ->
     api_get env "/plans/" qr = Ok r ->
     iterable (plans_of a) = false \/ iterable (plans_of r) = false ->
     exists e,
       reviewedPlans_queryFn env w =
         (Ok [], logged w [ApiGet "/plans/" qa; ApiGet "/plans/" qr;
                           ConsoleError "Error fetching reviewed plans:" e])).
Proof.
  split; [exact plans_of_envelope|].
  split; [exact plans_of_falsy|].
  split; [exact pendingPlans_plans_of|].
  split; [exact reviewedPlans_plans_of|].
  split; [|exact reviewedPlans_not_iterable].
  intros env w body Horgs Hids q Hget Htruthy Hother.
  apply (pendingPlans_other_shape env w body); try done.
  by apply plans_of_other.
Qed.

Lemma error_body_other_shape l : ~ envelope_of Examples.error_body l.
Proof.
  intros [H|(o & H & Hres)]; [discriminate|].
  injection H as <-. vm_compute in Hres. discriminate.
Qed.

(** The scenarios under both shapes, and the error object of neither. *)
Lemma envelope_shapes_witness :
  plans_of (JObj (Examples.record [("count", JNum 2);
                                   ("results", Examples.bodies Examples.rejected_plans)])) =
    JArr (map JObj Examples.rejected_plans) /\
  plans_of JNull = JArr [] /\
  pendingPlans_queryFn Examples.wrapped_pending_store Examples.start =
    pendingPlans_queryFn Examples.pending_store Examples.start /\
  reviewedPlans_queryFn Examples.decided_store Examples.start =
    reviewedPlans_queryFn Examples.bare_decided_store Examples.start /\
  (exists e,
     pendingPlans_queryFn Examples.odd_store Examples.start =
       (Ok [], logged Examples.start
                 [ApiGet "/plans/" (plans_query "SUBMITTED" [2; 3]);
                  ConsoleError "Error fetching pending reviews:" e])) /\
  exists e,
    reviewedPlans_queryFn Examples.odd_store Examples.start =
      (Ok [], logged Examples.start
                [ApiGet "/plans/" (plans_query "APPROVED" [2; 3]);
                 ApiGet "/plans/" (plans_query "REJECTED" [2; 3]);
                 ConsoleError "Error fetching reviewed plans:" e]).
Proof.
  destruct envelope_shapes as (Hshape & Hfalsy & Hpending & Hdecided & Hodd & Hnot).
  split; [|split; [|split; [|split; [|split]]]].
  - apply Hshape. right. eexists. split; reflexivity.
  - apply Hfalsy. reflexivity.
  - apply (Hpending Examples.wrapped_pending_store Examples.pending_store Examples.start
             (JObj (Examples.record [("count", JNum 3);
                                     ("results", Examples.bodies Examples.pending_plans)]))
             (Examples.bodies Examples.pending_plans));
      reflexivity.
  - apply (Hdecided Examples.decided_store Examples.bare_decided_store Examples.start
             (Examples.bodies Examples.approved_plans)
             (Examples.bodies Examples.approved_plans)
             (JObj (Examples.record [("count", JNum 2);
                                     ("results", Examples.bodies Examples.rejected_plans)]))
             (Examples.bodies Examples.rejected_plans));
      reflexivity.
  - apply (Hodd Examples.odd_store Examples.start Examples.error_body);
      [discriminate|discriminate|reflexivity|reflexivity|].
    intros l [H|(o & H & Hres)]; [discriminate|].
    injection H as <-. vm_compute in Hres. discriminate.
  - apply (Hnot Examples.odd_store Examples.start Examples.error_body
             (Examples.bodies Examples.rejected_plans));
      [discriminate|discriminate|reflexivity|reflexivity|].
    left. reflexivity.
Defined.

(** C8 as stated fails for the decided-set builder: with an error object as
    approved response the whole result is empty, although the rejected
    response holds two submissions the caller decided; with an empty list in
    its place they are listed. *)
Lemma other_shape_counterexample : ~ other_shape_as_stated.
Proof.
  intros Hclaim.
  specialize (Hclaim Examples.odd_store Examples.plain_store Examples.start
                Examples.error_body).
  assert (Hsame : (reviewedPlans_queryFn Examples.odd_store Examples.start).1 =
                  (reviewedPlans_queryFn Examples.plain_store Examples.start).1).
  { apply Hclaim; try reflexivity; try discriminate.
    apply error_body_other_shape. }
  apply (f_equal (fun r => match r with
                           | Ok out => length out
                           | Throw _ => 0%nat
                           end)) in Hsame.
  vm_compute in Hsame. discriminate.
Qed.

(** ** Roles *)

Lemma role_included role roles :
  existsb (String.eqb role) roles = true <-> In role roles.
Proof.
  rewrite existsb_exists. split.
  - intros (x & Hx & Heq). apply String.eqb_eq in Heq. by subst.
  - intros Hin. exists role. split; [done|]. apply String.eqb_refl.
Qed.

(** What the flag is computed from: EVALUATOR is among the roles, ADMIN and
    PLANNER are not; no other role is looked at. *)
Lemma isOnlyEvaluator_iff roles :
  isOnlyEvaluator roles = true <->
  In "EVALUATOR" roles /\ ~ In "ADMIN" roles /\ ~ In "PLANNER" roles.
Proof.
  unfold isOnlyEvaluator.
  rewrite !andb_true_iff, !negb_true_iff, <- !not_true_iff_false, !role_included.
  tauto.
Qed.

Lemma isOnlyEvaluator_other_role other :
  other <> "ADMIN" -> other <> "PLANNER" ->
  isOnlyEvaluator ["EVALUATOR"; other] = true.
Proof.
  intros Ha Hp. apply isOnlyEvaluator_iff. simpl.
  split; [by left|]. split; intros [H|[H|[]]]; try discriminate; by subst.
Qed.

(** * Further properties *)

Import Interaction Facts.

(** ** Permission check *)

Lemma add_org_total orgMap org : add_org orgMap org = Ok (cache_org orgMap org).
Proof.
  unfold add_org, cache_org.
  destruct org; simpl; try done.
  by destruct (truthy _).
Qed.

Lemma forEachE_add_org l :
  forall orgMap, forEachE add_org l orgMap = Ok (fold_left cache_org l orgMap).
Proof.
  induction l as [|org l IH]; simpl; intros orgMap; [done|].
  rewrite add_org_total. simpl. apply IH.
Qed.

Lemma prefetch_organizations_run env w :
  prefetch_organizations env w = (Ok tt, after_prefetch env w).
Proof.
  unfold prefetch_organizations, after_prefetch, catalog, logged. run_M.
  destruct (organizations_getAll env) as [orgsResponse|e]; simpl;
    [|by rewrite <- app_assoc].
  destruct (opt_get orgsResponse "data") as [| |b|n|s|l|o|f]; simpl; try done.
  - by destruct b.
  - by destruct (negb _).
  - by destruct (negb _).
  - by rewrite forEachE_add_org.
Qed.

Lemma checkPermissions_run env w :
  checkPermissions env w = (Ok tt, after_mount env w).
Proof.
  unfold checkPermissions, after_mount, try_finally, try_catch.
  unfold mbind at 1, M_bind, await.
  unfold mbind at 1, M_bind, emit, lift. simpl.
  destruct (auth_getCurrentUser env) as [authData|e]; simpl.
  2:{ run_M. by rewrite <- app_assoc. }
  destruct (Auth.isAuthenticated authData); simpl; [|run_M; by rewrite <- app_assoc].
  destruct (isEvaluator env _); simpl; [|by run_M].
  destruct (Auth.userOrganizations authData) as [[|org orgs]|]; simpl; try by run_M.
  unfold mbind, M_bind, setUserOrgIds, setCurrentEvaluatorIds, setIsEvaluatorOnly,
    setIsAuthChecked, setIsInitialLoad, modify. simpl.
  by rewrite prefetch_organizations_run.
Qed.

Lemma with_organizationsMap_same s :
  with_organizationsMap (organizationsMap s) s = s.
Proof. by destruct s. Qed.

(** The pre-fetch touches nothing but the name cache. *)
Lemma after_prefetch_state env w :
  exists orgMap, state (after_prefetch env w) = with_organizationsMap orgMap (state w).
Proof.
  unfold after_prefetch.
  destruct (organizations_getAll env) as [orgsResponse|e]; simpl.
  - destruct (catalog orgsResponse) as [l|]; simpl.
    + by eexists.
    + exists (organizationsMap (state w)). by rewrite with_organizationsMap_same.
  - exists (organizationsMap (state w)). by rewrite with_organizationsMap_same.
Qed.

Lemma accepted_inv env :
  accepted env = true ->
  exists authData,
    auth_getCurrentUser env = Ok authData /\
    Auth.isAuthenticated authData = true /\
    isEvaluator env (Auth.userOrganizations authData) = true.
Proof.
  unfold accepted. destruct (auth_getCurrentUser env) as [authData|e]; [|done].
  intros [H1 H2]%andb_true_iff. by exists authData.
Qed.

(** X1: [checkPermissions] always resolves, whatever the identity and the
    catalog service do; it always clears the initial-load flag and never
    takes back a passed permission check. *)
Theorem checkPermissions_always_settles env w :
  let r := checkPermissions env w in
  r.1 = Ok tt /\
  isInitialLoad (state r.2) = false /\
  (isAuthChecked (state w) = true -> isAuthChecked (state r.2) = true).
Proof.
  rewrite checkPermissions_run. simpl. split; [done|].
  unfold after_mount.
  destruct (auth_getCurrentUser env) as [authData|e]; simpl; [|done].
  destruct (Auth.isAuthenticated authData); simpl; [|done].
  destruct (isEvaluator env _); simpl; [|done].
  by destruct (Auth.userOrganizations authData) as [[|org orgs]|].
Qed.

Lemma checkPermissions_always_settles_witness :
  isAuthChecked
    (state (checkPermissions Examples.failing_store
              {| state := with_isAuthChecked true initial_state; trace := [] |}).2) = true.
Proof.
  apply (checkPermissions_always_settles Examples.failing_store
           {| state := with_isAuthChecked true initial_state; trace := [] |}).
  reflexivity.
Defined.

(** X2: the permission check passes exactly for a caller whom the identity
    service answers for, reports as authenticated, and [isEvaluator]
    accepts. *)
Theorem permission_check_passes_iff env w :
  isAuthChecked (state w) = false ->
  (isAuthChecked (state (checkPermissions env w).2) = true <-> accepted env = true).
Proof.
  intros Hnot. rewrite checkPermissions_run. simpl.
  unfold after_mount, accepted.
  destruct (auth_getCurrentUser env) as [authData|e]; simpl; [|by rewrite Hnot].
  destruct (Auth.isAuthenticated authData); simpl; [|by rewrite Hnot].
  destruct (isEvaluator env _); simpl; [|by rewrite Hnot].
  by destruct (Auth.userOrganizations authData) as [[|org orgs]|].
Qed.

Lemma permission_check_passes_iff_witness :
  isAuthChecked (state (checkPermissions catalog_up mounting).2) = true <->
  accepted catalog_up = true.
Proof. apply (permission_check_passes_iff catalog_up mounting). reflexivity. Defined.

(** X3: for a caller who is not accepted the check fetches no catalog and
    takes in no identity: organization ids, reviewer ids, name cache and
    readiness stay as they were.  A failing identity service is logged and
    reported as 'Failed to verify your permissions'; an unauthenticated
    caller is sent to the login page with the error untouched; an
    authenticated caller without the evaluator role gets the permission
    error and no navigation. *)
Theorem rejected_caller_takes_in_nothing env w :
  accepted env = false ->
  let w' := (checkPermissions env w).2 in
  userOrgIds (state w') = userOrgIds (state w) /\
  currentEvaluatorIds (state w') = currentEvaluatorIds (state w) /\
  organizationsMap (state w') = organizationsMap (state w) /\
  isAuthChecked (state w') = isAuthChecked (state w) /\
  match auth_getCurrentUser env with
  | Throw e =>
      error (state w') = Some "Failed to verify your permissions" /\
      trace w' = (trace w ++ [AuthGetCurrentUser;
                              ConsoleError "Failed to check permissions:" e])%list
  | Ok authData =>
      if Auth.isAuthenticated authData then
        error (state w') =
          Some "You do not have permission to access the evaluator dashboard" /\
        trace w' = (trace w ++ [AuthGetCurrentUser])%list
      else
        error (state w') = error (state w) /\
        trace w' = (trace w ++ [AuthGetCurrentUser; Navigate "/login"])%list
  end.
Proof.
  intros Hrej w'. subst w'. rewrite checkPermissions_run. simpl.
  unfold after_mount, accepted in *.
  destruct (auth_getCurrentUser env) as [authData|e]; simpl; [|done].
  destruct (Auth.isAuthenticated authData); simpl in *; [|done].
  destruct (isEvaluator env _); simpl in *; done.
Qed.

Lemma rejected_caller_takes_in_nothing_witness :
  let w' := (checkPermissions planner_only mounting).2 in
  userOrgIds (state w') = [] /\
  currentEvaluatorIds (state w') = [] /\
  organizationsMap (state w') = ∅ /\
  isAuthChecked (state w') = false /\
  error (state w') =
    Some "You do not have permission to access the evaluator dashboard" /\
  trace w' = [AuthGetCurrentUser].
Proof. apply (rejected_caller_takes_in_nothing planner_only mounting). reflexivity. Defined.

(** X4: right after the check on a freshly mounted component, the screen is
    the dashboard for an accepted caller and the loading screen for everyone
    else: the access-denied panel is not shown, not even for the caller to
    whom the check has just set the permission error. *)
Theorem screen_after_mount env w :
  isAuthChecked (state w) = false ->
  error (state w) = None ->
  render (state (checkPermissions env w).2) =
    if accepted env then DashboardScreen else LoadingScreen.
Proof.
  intros Hnot Herr. rewrite checkPermissions_run. simpl.
  unfold after_mount, accepted, render.
  destruct (auth_getCurrentUser env) as [authData|e]; simpl; [|by rewrite Hnot].
  destruct (Auth.isAuthenticated authData); simpl; [|by rewrite Hnot].
  destruct (isEvaluator env _); simpl; [|by rewrite Hnot].
  destruct (Auth.userOrganizations authData) as [[|org orgs]|]; simpl;
    try by rewrite Herr.
  destruct (after_prefetch_state env
              {| state := with_identity (org :: orgs) (state w);
                 trace := (trace w ++ [AuthGetCurrentUser])%list |}) as [m ->].
  simpl. by rewrite Herr.
Qed.

Lemma screen_after_mount_witness :
  render (state (checkPermissions planner_only mounting).2) = LoadingScreen /\
  error (state (checkPermissions planner_only mounting).2) =
    Some "You do not have permission to access the evaluator dashboard".
Proof.
  split; [|reflexivity].
  apply (screen_after_mount planner_only mounting); reflexivity.
Defined.

(** ** Name cache *)

Lemma assign_lookup (o : Obj) k v key :
  o !! "__proto__" = None ->
  assign o k v !! key =
    if String.eqb k key && negb (String.eqb key "__proto__") then Some v else o !! key.
Proof.
  intros Hproto. unfold assign.
  destruct (String.eqb k key) eqn:Ek; simpl.
  - apply String.eqb_eq in Ek. subst key.
    destruct (String.eqb k "__proto__") eqn:Ep; simpl.
    + apply String.eqb_eq in Ep. subst k. by rewrite Hproto.
    + destruct (o !! k); apply lookup_insert_eq.
  - apply String.eqb_neq in Ek.
    destruct (o !! k); [by rewrite lookup_insert_ne|].
    destruct (String.eqb k "__proto__"); [done|by rewrite lookup_insert_ne].
Qed.

Lemma cache_org_lookup orgMap org key :
  orgMap !! "__proto__" = None ->
  cache_org orgMap org !! key =
    if truthy (opt_get org "id")
       && (String.eqb (to_string (opt_get org "id")) key
           && negb (String.eqb key "__proto__"))
    then Some (opt_get org "name")
    else orgMap !! key.
Proof.
  intros Hproto. unfold cache_org.
  destruct (truthy (opt_get org "id")); simpl; [|done].
  by apply assign_lookup.
Qed.

(** The cache built from a catalog answers a key with the name of the last
    entry that the key stands for, and has no property [__proto__]. *)
Lemma cache_lookup l :
  forall (orgMap : Obj) key,
    orgMap !! "__proto__" = None ->
    fold_left cache_org l orgMap !! key =
      match catalog_entry l key with
      | Some org => Some (opt_get org "name")
      | None => orgMap !! key
      end.
Proof.
  unfold catalog_entry.
  induction l as [|org l IH] using rev_ind; intros orgMap key Hproto; simpl.
  { by destruct (String.eqb key "__proto__"). }
  rewrite fold_left_app, rev_app_distr. simpl.
  rewrite cache_org_lookup.
  2:{ rewrite (IH orgMap "__proto__" Hproto). by simpl. }
  rewrite (IH orgMap key Hproto).
  destruct (String.eqb key "__proto__"); simpl.
  - by rewrite !andb_false_r.
  - rewrite andb_true_r. by destruct (truthy (opt_get org "id") && _).
Qed.

Lemma checkPermissions_cache env w authData org orgs orgsResponse l :
  auth_getCurrentUser env = Ok authData ->
  Auth.isAuthenticated authData = true ->
  isEvaluator env (Auth.userOrganizations authData) = true ->
  Auth.userOrganizations authData = Some (org :: orgs) ->
  organizations_getAll env = Ok orgsResponse ->
  catalog orgsResponse = Some l ->
  organizationsMap (state (checkPermissions env w).2) = fold_left cache_org l ∅.
Proof.
  intros Hauth Hin Heval Horgs Hget Hcat.
  rewrite checkPermissions_run. simpl. unfold after_mount, after_prefetch.
  by rewrite Hauth, Hin, Heval, Horgs, Hget, Hcat.
Qed.

(** X5: after a successful fetch of a catalog of [{ id, name }] records, the
    own properties of the name cache are these: under the string form of its
    id, the name of every entry with a truthy id (the last entry winning when
    an id repeats), except that no property [__proto__] is created; entries
    whose id is 0 or missing and [null] entries are skipped, and what the
    cache held before is gone. *)
Theorem cache_after_catalog_fetch env w authData org orgs orgsResponse l :
  auth_getCurrentUser env = Ok authData ->
  Auth.isAuthenticated authData = true ->
  isEvaluator env (Auth.userOrganizations authData) = true ->
  Auth.userOrganizations authData = Some (org :: orgs) ->
  organizations_getAll env = Ok orgsResponse ->
  catalog orgsResponse = Some l ->
  forallb catalog_record l = true ->
  forall key,
    organizationsMap (state (checkPermissions env w).2) !! key =
      match catalog_entry l key with
      | Some entry => Some (opt_get entry "name")
      | None => None
      end.
Proof.
  intros Hauth Hin Heval Horgs Hget Hcat _ key.
  rewrite (checkPermissions_cache _ _ _ _ _ _ _ Hauth Hin Heval Horgs Hget Hcat).
  rewrite cache_lookup by done. by destruct (catalog_entry l key).
Qed.

Lemma cache_after_catalog_fetch_witness :
  let cache := organizationsMap (state (checkPermissions catalog_up Examples.start).2) in
  cache !! "2" =
    match catalog_entry sample_catalog "2" with
    | Some entry => Some (opt_get entry "name")
    | None => None
    end /\
  cache !! "__proto__" =
    match catalog_entry sample_catalog "__proto__" with
    | Some entry => Some (opt_get entry "name")
    | None => None
    end.
Proof.
  split;
    apply (cache_after_catalog_fetch catalog_up Examples.start Examples.evaluator_7
             {| Auth.id := 7; Auth.organization := 2; Auth.role := "EVALUATOR" |} []
             (JObj (list_to_map [("data", JArr sample_catalog)])) sample_catalog);
    reflexivity.
Defined.

(** The sample catalog, computed: the later name of organization 2, no
    property for the ids 0 and [__proto__], the nameless organization 4 under
    the placeholder, and for the organization ids [constructor] and
    [__proto__] what every object inherits. *)
Example sample_cache :
  let cache := organizationsMap (state (checkPermissions catalog_up Examples.start).2) in
  (cache !! "2", cache !! "0", cache !! "null", cache !! "__proto__",
   organizationName_of cache (JNum 4), organizationName_of cache (JStr "2"),
   organizationName_of cache (JStr "constructor"),
   organizationName_of cache (JStr "__proto__")) =
  (Some (JStr "Acme Health"), None, None, None,
   JStr "Organization 4", JStr "Acme Health",
   JBuiltin "constructor", JBuiltin "__proto__").
Proof. vm_compute. reflexivity. Qed.

(** X6: the name a builder annotates a plan with, after a successful fetch
    of a catalog of [{ id, name }] records, for an organization id that is a
    number, a string or another primitive: the name of the catalog entry that
    the string form of the id stands for when that name is truthy, and the
    placeholder "Organization {id}" when its name is empty or missing; without
    such an entry the placeholder, unless the string form of the id is the
    name of a property that every object inherits ([constructor],
    [toString], ...), in which case the annotation is that built-in. *)
Theorem name_resolution_through_cache env w authData org orgs orgsResponse l :
  auth_getCurrentUser env = Ok authData ->
  Auth.isAuthenticated authData = true ->
  isEvaluator env (Auth.userOrganizations authData) = true ->
  Auth.userOrganizations authData = Some (org :: orgs) ->
  organizations_getAll env = Ok orgsResponse ->
  catalog orgsResponse = Some l ->
  forallb catalog_record l = true ->
  forall plan_organization,
    is_primitive plan_organization = true ->
    organizationName_of (organizationsMap (state (checkPermissions env w).2))
      plan_organization =
      match catalog_entry l (to_string plan_organization) with
      | Some entry =>
          if truthy (opt_get entry "name") then opt_get entry "name"
          else JStr ("Organization " +:+ to_string plan_organization)
      | None =>
          if inherited (to_string plan_organization)
          then JBuiltin (to_string plan_organization)
          else JStr ("Organization " +:+ to_string plan_organization)
      end.
Proof.
  intros Hauth Hin Heval Horgs Hget Hcat _ plan_organization _.
  rewrite (checkPermissions_cache _ _ _ _ _ _ _ Hauth Hin Heval Horgs Hget Hcat).
  unfold organizationName_of, index, or_else.
  rewrite cache_lookup by done.
  destruct (catalog_entry l (to_string plan_organization)); [done|].
  rewrite lookup_empty. by destruct (inherited (to_string plan_organization)).
Qed.

Lemma name_resolution_through_cache_witness :
  organizationName_of
    (organizationsMap (state (checkPermissions catalog_up Examples.start).2)) (JNum 4) =
    match catalog_entry sample_catalog (to_string (JNum 4)) with
    | Some entry =>
        if truthy (opt_get entry "name") then opt_get entry "name"
        else JStr ("Organization " +:+ to_string (JNum 4))
    | None =>
        if inherited (to_string (JNum 4))
        then JBuiltin (to_string (JNum 4))
        else JStr ("Organization " +:+ to_string (JNum 4))
    end.
Proof.
  apply (name_resolution_through_cache catalog_up Examples.start Examples.evaluator_7
           {| Auth.id := 7; Auth.organization := 2; Auth.role := "EVALUATOR" |} []
           (JObj (list_to_map [("data", JArr sample_catalog)])) sample_catalog);
    reflexivity.
Defined.

(** ** Review form *)

Lemma handleReviewSubmit_run env data_status data_feedback w :
  handleReviewSubmit env data_status data_feedback w =
    match selectedPlan (state w) with
    | None => (Ok tt, w)
    | Some plan =>
        let reviewData := submission_of plan data_status data_feedback in
        let url := review_url (field plan "id") data_status (getTime env) in
        let body := review_body reviewData in
        match api_post env url body with
        | Ok response =>
            (Ok tt,
             {| state := with_success (Some "Plan review submitted successfully")
                           (with_selectedPlan None
                              (with_showReviewModal false (state w)));
                trace := (trace w ++
                          [ConsoleLog "Submitting review for plan:";
                           ApiPost url body;
                           InvalidateQueries "evaluator-pending-plans";
                           InvalidateQueries "evaluator-reviewed-plans";
                           SetTimeout ClearSuccess 3000])%list |})
        | Throw e =>
            (Ok tt,
             {| state := with_error (Some (failure_notice e)) (state w);
                trace := (trace w ++
                          [ConsoleLog "Submitting review for plan:";
                           ApiPost url body;
                           ConsoleError "Review submission failed:" e;
                           ConsoleError "Review mutation error:" e;
                           SetTimeout ClearError 5000;
                           ConsoleError "Failed to submit review:" e;
                           SetTimeout ClearError 5000])%list |})
        end
    end.
Proof.
  unfold handleReviewSubmit.
  unfold mbind at 1, M_bind, read. simpl.
  destruct (selectedPlan (state w)) as [plan|] eqn:Hsel; [|done].
  unfold try_catch, console_log.
  unfold mbind at 1, M_bind, emit. simpl.
  unfold mbind at 1, M_bind.
  rewrite reviewMutation_mutateAsync_run. simpl.
  unfold submission_of. simpl.
  destruct (api_post env _ _) as [response|e]; simpl.
  - unfold mret, M_ret. by rewrite <- app_assoc.
  - run_M. unfold failure_notice. rewrite <- !app_assoc. simpl.
    by destruct (state w).
Qed.

(** X7: [handleReviewSubmit] never rejects.  Without a selected plan it does
    nothing at all; with one it sends exactly one request, the POST for that
    plan's id. *)
Theorem handleReviewSubmit_never_rejects env data_status data_feedback w :
  let r := handleReviewSubmit env data_status data_feedback w in
  r.1 = Ok tt /\
  match selectedPlan (state w) with
  | None => r.2 = w
  | Some plan =>
      exists es,
        trace r.2 = (trace w ++ es)%list /\
        List.filter is_remote_call es =
          [ApiPost (review_url (field plan "id") data_status (getTime env))
                   (review_body (submission_of plan data_status data_feedback))]
  end.
Proof.
  rewrite handleReviewSubmit_run.
  destruct (selectedPlan (state w)) as [plan|]; [|done]. simpl.
  destruct (api_post env _ _); simpl; (split; [done|]); eexists; split; reflexivity.
Qed.

(** X8: when the store refuses the decision, nothing is invalidated, the
    modal stays open on the same plan (the decision can be sent again), and
    the error notice is chosen by the status code: 403, 404 and 400 have
    their own texts, anything else shows the message of the error, or
    'Failed to submit review' when it has none.  Two timers of 5000 ms are
    set to clear the notice. *)
Theorem refused_decision_is_reported env data_status data_feedback w plan e :
  selectedPlan (state w) = Some plan ->
  api_post env (review_url (field plan "id") data_status (getTime env))
               (review_body (submission_of plan data_status data_feedback)) = Throw e ->
  let w' := (handleReviewSubmit env data_status data_feedback w).2 in
  error (state w') = Some (failure_notice e) /\
  selectedPlan (state w') = Some plan /\
  showReviewModal (state w') = showReviewModal (state w) /\
  success (state w') = success (state w) /\
  exists es,
    trace w' = (trace w ++ es)%list /\
    (forall key, ~ In (InvalidateQueries key) es) /\
    List.filter (fun ev => match ev with SetTimeout _ _ => true | _ => false end) es =
      [SetTimeout ClearError 5000; SetTimeout ClearError 5000].
Proof.
  intros Hsel Hpost w'. subst w'.
  rewrite handleReviewSubmit_run, Hsel. simpl. rewrite Hpost. simpl.
  repeat split; try done.
  eexists. split; [reflexivity|]. split; [|reflexivity].
  intros key Hin. repeat (destruct Hin as [Hin|Hin]; [discriminate|]). done.
Qed.

Lemma refused_decision_is_reported_witness :
  let w' := (handleReviewSubmit (refusing 404 "Not Found") APPROVED None reviewing).2 in
  error (state w') = Some (failure_notice (HttpError (Some 404) "Not Found")) /\
  selectedPlan (state w') = Some (Examples.plan 3 2 "SUBMITTED" []) /\
  showReviewModal (state w') = true /\
  success (state w') = None /\
  exists es,
    trace w' = (trace reviewing ++ es)%list /\
    (forall key, ~ In (InvalidateQueries key) es) /\
    List.filter (fun ev => match ev with SetTimeout _ _ => true | _ => false end) es =
      [SetTimeout ClearError 5000; SetTimeout ClearError 5000].
Proof.
  apply (refused_decision_is_reported (refusing 404 "Not Found") APPROVED None reviewing
           (Examples.plan 3 2 "SUBMITTED" []) (HttpError (Some 404) "Not Found"));
    reflexivity.
Defined.

Lemma render_ready s :
  is_dashboard (render s) = true -> isAuthChecked s = true.
Proof. unfold render. by destruct (isAuthChecked s). Qed.

(** X9: a decision refused with status 403 takes the dashboard away: the
    notice 'Permission denied...' mentions 'permission', so the component
    renders the access-denied panel in place of the dashboard until a timer
    clears the error.  A decision refused with 404 or 400 leaves the
    dashboard on screen. *)
Theorem forbidden_decision_hides_dashboard env data_status data_feedback w plan e :
  isAuthChecked (state w) = true ->
  selectedPlan (state w) = Some plan ->
  api_post env (review_url (field plan "id") data_status (getTime env))
               (review_body (submission_of plan data_status data_feedback)) = Throw e ->
  let s' := state (handleReviewSubmit env data_status data_feedback w).2 in
  (error_status e = Some 403 ->
   render s' =
     AccessDenied "Permission denied. You may not have evaluator permissions." /\
   render (fire ClearError s') = DashboardScreen) /\
  (error_status e = Some 404 \/ error_status e = Some 400 ->
   render s' = DashboardScreen).
Proof.
  intros Hready Hsel Hpost s'. subst s'.
  rewrite handleReviewSubmit_run, Hsel. simpl. rewrite Hpost. simpl.
  unfold render, failure_notice. simpl. rewrite Hready. simpl.
  split.
  - by intros ->.
  - by intros [-> | ->].
Qed.

Lemma forbidden_decision_hides_dashboard_witness :
  let s' := state (handleReviewSubmit (refusing 403 "Forbidden") REJECTED
                     (Some "needs work") reviewing).2 in
  render (state reviewing) = DashboardScreen /\
  render s' =
    AccessDenied "Permission denied. You may not have evaluator permissions." /\
  render (fire ClearError s') = DashboardScreen.
Proof.
  split; [reflexivity|].
  apply (forbidden_decision_hides_dashboard (refusing 403 "Forbidden") REJECTED
           (Some "needs work") reviewing (Examples.plan 3 2 "SUBMITTED" [])
           (HttpError (Some 403) "Forbidden"));
    reflexivity.
Defined.

(** ** Sessions *)

Lemma handleViewPlan_run plan w :
  handleViewPlan plan w =
    (Ok tt,
     if truthy (field plan "id") then
       {| state := with_error None (state w);
          trace := (trace w ++ [ConsoleLog "Navigating to plan view:";
                                Navigate ("/plans/" +:+ to_string (field plan "id"))])%list |}
     else
       {| state := with_error (Some "Invalid plan data for viewing") (state w);
          trace := trace w |}).
Proof.
  unfold handleViewPlan. destruct (truthy (field plan "id")); simpl; run_M; [|done].
  by rewrite <- app_assoc.
Qed.

Lemma handleReviewPlan_run plan w :
  handleReviewPlan plan w =
    (Ok tt,
     if truthy (field plan "id") then
       {| state := with_showReviewModal true (with_selectedPlan (Some plan) (state w));
          trace := (trace w ++ [ConsoleLog "Opening review modal for plan:"])%list |}
     else
       {| state := with_error (Some "Invalid plan data for review") (state w);
          trace := trace w |}).
Proof.
  unfold handleReviewPlan. destruct (truthy (field plan "id")); simpl; by run_M.
Qed.

Lemma onCancel_run w :
  onCancel w =
    (Ok tt, {| state := with_selectedPlan None (with_showReviewModal false (state w));
               trace := trace w |}).
Proof. unfold onCancel. by run_M. Qed.

(** What the permission check does to a world, in terms of the session. *)
Lemma after_mount_facts env w :
  selectedPlan (state (after_mount env w)) = selectedPlan (state w) /\
  showReviewModal (state (after_mount env w)) = showReviewModal (state w) /\
  isAuthChecked (state (after_mount env w)) = isAuthChecked (state w) || accepted env /\
  exists es, trace (after_mount env w) = (trace w ++ es)%list /\
             forall e, In e es -> is_plan_request e = false.
Proof.
  unfold after_mount, accepted.
  destruct (auth_getCurrentUser env) as [authData|err]; simpl.
  2:{ rewrite orb_false_r. repeat split.
      eexists. split; [reflexivity|]. intros e [<-|[<-|[]]]; done. }
  destruct (Auth.isAuthenticated authData); simpl.
  2:{ rewrite orb_false_r. repeat split.
      eexists. split; [reflexivity|]. intros e [<-|[<-|[]]]; done. }
  destruct (isEvaluator env _); simpl.
  2:{ rewrite orb_false_r. repeat split.
      eexists. split; [reflexivity|]. intros e [<-|[]]; done. }
  rewrite orb_true_r.
  destruct (Auth.userOrganizations authData) as [[|org orgs]|]; simpl.
  - repeat split. eexists. split; [reflexivity|]. intros e [<-|[]]; done.
  - destruct (after_prefetch_state env
                {| state := with_identity (org :: orgs) (state w);
                   trace := (trace w ++ [AuthGetCurrentUser])%list |}) as [m Hm].
    rewrite Hm. simpl. repeat split.
    unfold after_prefetch.
    destruct (organizations_getAll env) as [resp|err]; simpl.
    + destruct (catalog resp); simpl; rewrite <- app_assoc; simpl;
        (eexists; split; [reflexivity|]); intros e [<-|[<-|[]]]; done.
    + rewrite <- app_assoc. simpl.
      eexists. split; [reflexivity|]. intros e [<-|[<-|[<-|[]]]]; done.
  - repeat split. eexists. split; [reflexivity|]. intros e [<-|[]]; done.
Qed.

Lemma pendingPlans_effects env w :
  exists out es,
    pendingPlans_queryFn env w = (Ok out, logged w es) /\
    forall e, In e es ->
      builder_request (state w) e \/ exists label err, e = ConsoleError label err.
Proof.
  rewrite pendingPlans_queryFn_run.
  destruct (nothing_to_fetch (state w)).
  { exists [], []. split; [|by intros ? []].
    unfold logged. rewrite app_nil_r. by destruct w. }
  simpl. destruct (pending_try env (state w)) as [out|err];
    eexists; eexists; (split; [reflexivity|]).
  - intros e [<-|[]]. left. by eexists.
  - intros e [<-|[<-|[]]]; [left; by eexists|right; by eexists; eexists].
Qed.

Lemma reviewedPlans_effects env w :
  exists out es,
    reviewedPlans_queryFn env w = (Ok out, logged w es) /\
    forall e, In e es ->
      builder_request (state w) e \/ exists label err, e = ConsoleError label err.
Proof.
  rewrite reviewedPlans_queryFn_run.
  destruct (nothing_to_fetch (state w)).
  { exists [], []. split; [|by intros ? []].
    unfold logged. rewrite app_nil_r. by destruct w. }
  simpl. destruct (reviewed_try env (state w)) as [out|err];
    eexists; eexists; (split; [reflexivity|]).
  - intros e [<-|[<-|[]]]; left; by eexists.
  - intros e [<-|[<-|[<-|[]]]];
      [left; by eexists|left; by eexists|right; by eexists; eexists].
Qed.

Lemma selection_ok_ext s s' :
  selectedPlan s' = selectedPlan s ->
  showReviewModal s' = showReviewModal s ->
  selection_ok s -> selection_ok s'.
Proof. unfold selection_ok. by intros -> ->. Qed.

Lemma selection_ok_none s :
  selectedPlan s = None -> showReviewModal s = false -> selection_ok s.
Proof. unfold selection_ok. intros -> ->. by split. Qed.

Lemma no_plan_request_post_ok es :
  (forall e, In e es -> is_plan_request e = false) -> List.Forall post_ok es.
Proof.
  intros H. apply List.Forall_forall. intros e He.
  specialize (H e He). by destruct e.
Qed.

Lemma builder_events_post_ok s es :
  (forall e, In e es ->
     builder_request s e \/ exists label err, e = ConsoleError label err) ->
  List.Forall post_ok es.
Proof.
  intros H. apply List.Forall_forall. intros e He.
  destruct (H e He) as [[st ->]|(label & err & ->)]; done.
Qed.

Lemma enabled_ready s : pendingPlans_enabled s = true -> isAuthChecked s = true.
Proof. unfold pendingPlans_enabled. by destruct (isAuthChecked s). Qed.

Lemma reviewed_enabled_ready s : reviewedPlans_enabled s = true -> isAuthChecked s = true.
Proof. unfold reviewedPlans_enabled. by destruct (isAuthChecked s). Qed.

(** One action: it never rejects; it asks the store for plans or posts a
    decision only on a ready dashboard; readiness is gained by the permission
    check of an accepted caller and by nothing else, and never lost; a sound
    selection stays sound, and a decision goes to the selected plan. *)
Lemma perform_step env a w :
  exists w' es,
    perform env a w = (Ok tt, w') /\
    trace w' = (trace w ++ es)%list /\
    (forall e, In e es -> is_plan_request e = true -> isAuthChecked (state w) = true) /\
    (selection_ok (state w) -> List.Forall post_ok es) /\
    (isAuthChecked (state w') = true <->
     isAuthChecked (state w) = true \/ (a = Mount /\ accepted env = true)) /\
    (selection_ok (state w) -> selection_ok (state w')).
Proof.
  unfold perform. unfold mbind at 1, M_bind, read. simpl.
  destruct (available (state w) a) eqn:Hav.
  2:{ exists w, []. rewrite app_nil_r.
      split; [done|]. split; [done|]. split; [by intros e []|].
      split; [by constructor|]. split; [|done].
      split; [by left|]. intros [H|[-> _]]; [done|]. by simpl in Hav. }
  destruct a as [| | | |tab|plan|plan|st fb| |action]; simpl in Hav.
  - (* Mount *)
    rewrite checkPermissions_run.
    destruct (after_mount_facts env w) as (Hsel & Hmodal & Hready & es & Htrace & Hes).
    exists (after_mount env w), es.
    split; [done|]. split; [done|]. split; [|split; [|split]].
    + intros e He Hreq. by rewrite (Hes e He) in Hreq.
    + intros _. by apply no_plan_request_post_ok.
    + rewrite Hready, orb_true_iff. split.
      * intros [H|H]; [by left|right; by split].
      * intros [H|[_ H]]; [by left|by right].
    + by apply selection_ok_ext.
  - (* PendingQuery *)
    destruct (pendingPlans_effects env w) as (out & es & Hrun & Hes).
    unfold mbind, M_bind. rewrite Hrun. simpl.
    exists (logged w es), es.
    split; [done|]. split; [done|]. split; [|split; [|split]].
    + intros e He _. by apply enabled_ready.
    + intros _. by apply (builder_events_post_ok (state w)).
    + simpl. split; [by left|]. by intros [H|[H _]].
    + done.
  - (* ReviewedQuery *)
    destruct (reviewedPlans_effects env w) as (out & es & Hrun & Hes).
    unfold mbind, M_bind. rewrite Hrun. simpl.
    exists (logged w es), es.
    split; [done|]. split; [done|]. split; [|split; [|split]].
    + intros e He _. by apply reviewed_enabled_ready.
    + intros _. by apply (builder_events_post_ok (state w)).
    + simpl. split; [by left|]. by intros [H|[H _]].
    + done.
  - (* Refresh *)
    apply andb_true_iff in Hav as [Hav _]. apply render_ready in Hav.
    destruct (pendingPlans_effects env w) as (out & es & Hrun & Hes).
    unfold mbind, M_bind. rewrite Hrun. simpl.
    exists (logged w es), es.
    split; [done|]. split; [done|]. split; [|split; [|split]].
    + done.
    + intros _. by apply (builder_events_post_ok (state w)).
    + simpl. split; [by left|]. by intros [H|[H _]].
    + done.
  - (* SelectTab *)
    unfold setActiveTab, modify.
    eexists; exists []. rewrite app_nil_r.
    split; [reflexivity|]. simpl.
    split; [done|]. split; [by intros e []|]. split; [by constructor|]. split.
    + split; [by left|]. by intros [H|[H _]].
    + by apply selection_ok_ext.
  - (* ViewPlan *)
    rewrite handleViewPlan_run.
    destruct (truthy (field plan "id")).
    + eexists; eexists. split; [reflexivity|]. simpl.
      split; [reflexivity|]. split; [|split; [|split]].
      * intros e [<-|[<-|[]]]; done.
      * intros _. by repeat constructor.
      * split; [by left|]. by intros [H|[H _]].
      * by apply selection_ok_ext.
    + eexists; exists []. rewrite app_nil_r. split; [reflexivity|]. simpl.
      split; [done|]. split; [by intros e []|]. split; [by constructor|]. split.
      * split; [by left|]. by intros [H|[H _]].
      * by apply selection_ok_ext.
  - (* ReviewPlan *)
    rewrite handleReviewPlan_run.
    destruct (truthy (field plan "id")) eqn:Hid.
    + eexists; eexists. split; [reflexivity|]. simpl.
      split; [reflexivity|]. split; [|split; [|split]].
      * intros e [<-|[]]; done.
      * intros _. by repeat constructor.
      * split; [by left|]. by intros [H|[H _]].
      * intros _. split; simpl; [by intros p [= <-]|done].
    + eexists; exists []. rewrite app_nil_r. split; [reflexivity|]. simpl.
      split; [done|]. split; [by intros e []|]. split; [by constructor|]. split.
      * split; [by left|]. by intros [H|[H _]].
      * by apply selection_ok_ext.
  - (* SubmitReview *)
    apply andb_true_iff in Hav as [Hav _]. apply render_ready in Hav.
    rewrite handleReviewSubmit_run.
    destruct (selectedPlan (state w)) as [plan|] eqn:Hsel.
    2:{ exists w, []. rewrite app_nil_r.
        split; [done|]. split; [done|]. split; [by intros e []|].
        split; [by constructor|]. split; [|done].
        split; [by left|]. by intros [H|[H _]]. }
    simpl. destruct (api_post env _ _) as [response|err].
    + eexists; eexists. split; [reflexivity|]. simpl.
      split; [reflexivity|]. split; [done|]. split; [|split].
      * intros [Hid _]. repeat constructor.
        exists (field plan "id"), (getTime env). by split; [apply Hid|].
      * split; [by left|]. by intros [H|[H _]].
      * intros _. by apply selection_ok_none.
    + eexists; eexists. split; [reflexivity|]. simpl.
      split; [reflexivity|]. split; [done|]. split; [|split].
      * intros [Hid _]. repeat constructor.
        exists (field plan "id"), (getTime env). by split; [apply Hid|].
      * split; [by left|]. by intros [H|[H _]].
      * by apply selection_ok_ext.
  - (* CancelReview *)
    rewrite onCancel_run.
    eexists; exists []. rewrite app_nil_r. split; [reflexivity|]. simpl.
    split; [done|]. split; [by intros e []|]. split; [by constructor|]. split.
    + split; [by left|]. by intros [H|[H _]].
    + intros _. by apply selection_ok_none.
  - (* TimerFires *)
    unfold modify.
    eexists; exists []. rewrite app_nil_r. split; [reflexivity|]. simpl.
    split; [done|]. split; [by intros e []|]. split; [by constructor|]. split.
    + destruct action; simpl; (split; [by left|]); by intros [H|[H _]].
    + destruct action; by apply selection_ok_ext.
Qed.

Lemma session_steps steps :
  forall w,
  exists w' es,
    session steps w = (Ok tt, w') /\
    trace w' = (trace w ++ es)%list /\
    (isAuthChecked (state w) = true -> isAuthChecked (state w') = true) /\
    (isAuthChecked (state w') = true ->
     isAuthChecked (state w) = true \/
     exists env, In (env, Mount) steps /\ accepted env = true) /\
    (forall e, In e es -> is_plan_request e = true -> isAuthChecked (state w') = true) /\
    (selection_ok (state w) -> selection_ok (state w') /\ List.Forall post_ok es).
Proof.
  induction steps as [|[env a] steps IH]; intros w; simpl.
  { exists w, []. rewrite app_nil_r.
    split; [done|]. split; [done|]. split; [done|]. split; [by left|].
    split; [by intros e []|]. intros H. split; [done|constructor]. }
  destruct (perform_step env a w)
    as (w1 & es1 & Hrun1 & Htrace1 & Hreq1 & Hpost1 & Hready1 & Hsel1).
  destruct (IH w1) as (w' & es2 & Hrun2 & Htrace2 & Hmono2 & Hwhy2 & Hreq2 & Hsel2).
  exists w', (es1 ++ es2)%list.
  unfold mbind, M_bind. rewrite Hrun1, Hrun2.
  split; [done|]. split; [by rewrite Htrace2, Htrace1, app_assoc|].
  split; [|split; [|split]].
  - intros H. apply Hmono2, Hready1. by left.
  - intros H. destruct (Hwhy2 H) as [H1|(env' & Hin & Hacc)].
    + apply Hready1 in H1 as [H1|[-> Hacc]]; [by left|].
      right. exists env. split; [by left|done].
    + right. exists env'. split; [by right|done].
  - intros e [He|He]%in_app_iff Hplan.
    + apply Hmono2, Hready1. left. by apply (Hreq1 e).
    + by apply (Hreq2 e).
  - intros Hsel. destruct (Hsel2 (Hsel1 Hsel)) as [Hsel' Hpost2].
    split; [done|]. apply Forall_app. split; [by apply Hpost1|done].
Qed.

(** X10: no sequence of actions makes a handler reject: every failure of a
    collaborator is caught where it occurs. *)
Theorem session_never_rejects steps w : (session steps w).1 = Ok tt.
Proof.
  destruct (session_steps steps w) as (w' & es & Hrun & _). by rewrite Hrun.
Qed.

(** X11: in every session of a freshly mounted component the selection is
    sound: the plan shown in the review modal has a truthy id (a row whose id
    is 0 or missing cannot be opened), and the modal is never switched on
    without a plan. *)
Theorem modal_shows_a_valid_plan steps :
  let s := state (session steps mounting).2 in
  (forall plan, modal s = Some plan -> truthy (field plan "id") = true) /\
  (showReviewModal s = true -> exists plan, modal s = Some plan).
Proof.
  destruct (session_steps steps mounting) as (w' & es & Hrun & _ & _ & _ & _ & Hsel).
  rewrite Hrun. simpl.
  destruct Hsel as [[Hid Hmodal] _]; [by apply selection_ok_none|].
  unfold modal. split.
  - intros plan. destruct (showReviewModal (state w')); [apply Hid|done].
  - intros Hon. rewrite Hon. specialize (Hmodal Hon).
    destruct (selectedPlan (state w')) as [plan|]; [by exists plan|done].
Qed.

Lemma modal_shows_a_valid_plan_witness :
  truthy (field (Examples.plan 3 2 "SUBMITTED" []) "id") = true.
Proof.
  apply (proj1 (modal_shows_a_valid_plan
                  [(catalog_up, Mount);
                   (catalog_up, ReviewPlan (Examples.plan 3 2 "SUBMITTED" []))])).
  reflexivity.
Defined.

(** X12: in every session of a freshly mounted component, plans are asked of
    the store and decisions are posted to it only after a permission check
    that accepted the caller; the same holds for the dashboard leaving the
    loading screen. *)
Theorem store_is_used_only_after_acceptance steps :
  let w' := (session steps mounting).2 in
  (forall e, In e (trace w') -> is_plan_request e = true ->
     exists env, In (env, Mount) steps /\ accepted env = true) /\
  (render (state w') <> LoadingScreen ->
     exists env, In (env, Mount) steps /\ accepted env = true).
Proof.
  destruct (session_steps steps mounting)
    as (w' & es & Hrun & Htrace & _ & Hwhy & Hreq & _).
  rewrite Hrun. simpl. simpl in Htrace. subst es.
  assert (Hready : isAuthChecked (state w') = true ->
                   exists env, In (env, Mount) steps /\ accepted env = true).
  { intros H. by destruct (Hwhy H) as [?|?]. }
  split.
  - intros e He Hplan. apply Hready. by apply (Hreq e).
  - intros Hscreen. apply Hready. unfold render in Hscreen.
    by destruct (isAuthChecked (state w')).
Qed.

Lemma store_is_used_only_after_acceptance_witness :
  exists env, In (env, Mount) working_session /\ accepted env = true.
Proof.
  apply (proj1 (store_is_used_only_after_acceptance working_session)
           (ApiGet "/plans/" (plans_query "SUBMITTED" [2]))).
  - vm_compute. tauto.
  - reflexivity.
Defined.

(** The caller without the evaluator role: five actions, one request, to the
    identity service. *)
Example refused_session_trace :
  trace (session refused_session mounting).2 = [AuthGetCurrentUser].
Proof. reflexivity. Qed.

Lemma decision_for_mono (P Q : Obj -> Prop) es :
  (forall plan, P plan -> Q plan) ->
  List.Forall (decision_for P) es -> List.Forall (decision_for Q) es.
Proof.
  intros HPQ. apply List.Forall_impl. intros [] He; try done.
  destruct He as (plan & timestamp & HP & Hid & Hurl).
  exists plan, timestamp. by split; [apply HPQ|].
Qed.

Lemma no_plan_request_decision_for P es :
  (forall e, In e es -> is_plan_request e = false) -> List.Forall (decision_for P) es.
Proof.
  intros H. apply List.Forall_forall. intros e He.
  specialize (H e He). by destruct e.
Qed.

Lemma builder_events_decision_for P s es :
  (forall e, In e es ->
     builder_request s e \/ exists label err, e = ConsoleError label err) ->
  List.Forall (decision_for P) es.
Proof.
  intros H. apply List.Forall_forall. intros e He.
  destruct (H e He) as [[st ->]|(label & err & ->)]; done.
Qed.

(** One action, as to whose decision it posts: the decision on the selected
    plan; and the plan selected afterwards is the one selected before or the
    one the action opens. *)
Lemma perform_origin (P : Obj -> Prop) env a w :
  (forall plan, selectedPlan (state w) = Some plan ->
     P plan /\ truthy (field plan "id") = true) ->
  exists w' es,
    perform env a w = (Ok tt, w') /\
    trace w' = (trace w ++ es)%list /\
    List.Forall (decision_for P) es /\
    (forall plan, selectedPlan (state w') = Some plan ->
       (P plan \/ a = ReviewPlan plan) /\ truthy (field plan "id") = true).
Proof.
  intros Hsel.
  assert (Hkeep : forall plan, selectedPlan (state w) = Some plan ->
            (P plan \/ a = ReviewPlan plan) /\ truthy (field plan "id") = true).
  { intros plan H. destruct (Hsel plan H). by split; [left|]. }
  unfold perform. unfold mbind at 1, M_bind, read. simpl.
  destruct (available (state w) a) eqn:Hav.
  2:{ exists w, []. rewrite app_nil_r.
      split; [done|]. split; [done|]. split; [constructor|exact Hkeep]. }
  destruct a as [| | | |tab|plan|plan|st fb| |action]; simpl in Hav.
  - (* Mount *)
    rewrite checkPermissions_run.
    destruct (after_mount_facts env w) as (Hsame & _ & _ & es & Htrace & Hes).
    exists (after_mount env w), es.
    split; [done|]. split; [done|]. split.
    + by apply no_plan_request_decision_for.
    + rewrite Hsame. exact Hkeep.
  - (* PendingQuery *)
    destruct (pendingPlans_effects env w) as (out & es & Hrun & Hes).
    unfold mbind, M_bind. rewrite Hrun. simpl.
    exists (logged w es), es.
    split; [done|]. split; [done|]. split; [|exact Hkeep].
    by apply (builder_events_decision_for P (state w)).
  - (* ReviewedQuery *)
    destruct (reviewedPlans_effects env w) as (out & es & Hrun & Hes).
    unfold mbind, M_bind. rewrite Hrun. simpl.
    exists (logged w es), es.
    split; [done|]. split; [done|]. split; [|exact Hkeep].
    by apply (builder_events_decision_for P (state w)).
  - (* Refresh *)
    destruct (pendingPlans_effects env w) as (out & es & Hrun & Hes).
    unfold mbind, M_bind. rewrite Hrun. simpl.
    exists (logged w es), es.
    split; [done|]. split; [done|]. split; [|exact Hkeep].
    by apply (builder_events_decision_for P (state w)).
  - (* SelectTab *)
    unfold setActiveTab, modify.
    eexists; exists []. rewrite app_nil_r.
    split; [reflexivity|]. simpl. split; [done|]. split; [constructor|exact Hkeep].
  - (* ViewPlan *)
    rewrite handleViewPlan_run.
    destruct (truthy (field plan "id")).
    + eexists; eexists. split; [reflexivity|]. simpl.
      split; [reflexivity|]. split; [by repeat constructor|exact Hkeep].
    + eexists; exists []. rewrite app_nil_r. split; [reflexivity|]. simpl.
      split; [done|]. split; [constructor|exact Hkeep].
  - (* ReviewPlan *)
    rewrite handleReviewPlan_run.
    destruct (truthy (field plan "id")) eqn:Hid.
    + eexists; eexists. split; [reflexivity|]. simpl.
      split; [reflexivity|]. split; [by repeat constructor|].
      intros p [= <-]. by split; [right|].
    + eexists; exists []. rewrite app_nil_r. split; [reflexivity|]. simpl.
      split; [done|]. split; [constructor|exact Hkeep].
  - (* SubmitReview *)
    rewrite handleReviewSubmit_run.
    destruct (selectedPlan (state w)) as [plan|] eqn:Hplan.
    2:{ exists w, []. rewrite app_nil_r.
        split; [done|]. split; [done|]. split; [constructor|].
        intros p Hp. rewrite Hplan in Hp. discriminate. }
    destruct (Hsel plan eq_refl) as [HP Hid].
    assert (Hpost : decision_for P
              (ApiPost (review_url (field plan "id") st (getTime env))
                       (review_body (submission_of plan st fb)))).
    { exists plan, (getTime env). by repeat split. }
    simpl. destruct (api_post env _ _) as [response|err].
    + eexists; eexists. split; [reflexivity|]. simpl.
      split; [reflexivity|]. split; [by repeat constructor|done].
    + eexists; eexists. split; [reflexivity|]. simpl.
      split; [reflexivity|]. split; [by repeat constructor|].
      rewrite Hplan. intros p [= <-]. by split; [left|].
  - (* CancelReview *)
    rewrite onCancel_run.
    eexists; exists []. rewrite app_nil_r. split; [reflexivity|]. simpl.
    split; [done|]. split; [constructor|done].
  - (* TimerFires *)
    unfold modify.
    eexists; exists []. rewrite app_nil_r. split; [reflexivity|]. simpl.
    split; [done|]. split; [constructor|]. destruct action; exact Hkeep.
Qed.

Lemma session_origin steps :
  forall (P : Obj -> Prop) w,
    (forall plan, selectedPlan (state w) = Some plan ->
       P plan /\ truthy (field plan "id") = true) ->
    exists w' es,
      session steps w = (Ok tt, w') /\
      trace w' = (trace w ++ es)%list /\
      List.Forall (decision_for (fun plan => P plan \/ opened steps plan)) es.
Proof.
  induction steps as [|[env a] steps IH]; intros P w Hsel; simpl.
  { exists w, []. rewrite app_nil_r. repeat split. constructor. }
  destruct (perform_origin P env a w Hsel) as (w1 & es1 & Hrun1 & Htrace1 & Hpost1 & Hsel1).
  destruct (IH (fun plan => P plan \/ a = ReviewPlan plan) w1 Hsel1)
    as (w' & es2 & Hrun2 & Htrace2 & Hpost2).
  exists w', (es1 ++ es2)%list.
  unfold mbind, M_bind. rewrite Hrun1, Hrun2.
  split; [done|]. split; [by rewrite Htrace2, Htrace1, app_assoc|].
  apply Forall_app. split.
  - apply (decision_for_mono P); [|done]. intros plan HP. by left.
  - apply (decision_for_mono
             (fun plan => (P plan \/ a = ReviewPlan plan) \/ opened steps plan));
      [|done].
    intros plan [[HP| ->]|(env' & Hin)].
    + by left.
    + right. exists env. by left.
    + right. exists env'. by right.
Qed.

(** X13: in every session of a freshly mounted component, every decision
    that is posted is the decision on a plan that [handleReviewPlan] opened
    in that session: the request goes to the approve or the reject endpoint
    of [String(plan.id)] for such a plan, whose id is truthy (not missing,
    [null], 0, the empty string or [false]), and the endpoint is the one of
    the status in the body. *)
Theorem decisions_go_to_opened_plans steps :
  List.Forall (decision_for (opened steps)) (trace (session steps mounting).2).
Proof.
  destruct (session_origin steps (fun _ => False) mounting)
    as (w' & es & Hrun & Htrace & Hpost); [done|].
  rewrite Hrun. simpl. simpl in Htrace. rewrite Htrace.
  apply (decision_for_mono (fun plan => False \/ opened steps plan)); [|done].
  by intros plan [[]|H].
Qed.

(** A truthy id need not be a number: a row whose id is the string "0" can
    be opened, and its decision goes to [/plans/0/approve/]. *)
Example decision_on_a_string_id :
  List.filter (fun e => match e with ApiPost _ _ => true | _ => false end)
    (trace (session
              [ (catalog_up, Mount);
                (catalog_up, ReviewPlan (Examples.record [("id", JStr "0")]));
                (catalog_up, SubmitReview APPROVED None) ] mounting).2) =
    [ ApiPost "/plans/0/approve/?_=1700000000000"
        {| payload_status := APPROVED; payload_feedback := EmptyString |} ].
Proof. vm_compute. reflexivity. Qed.

(** The working session, computed: the requests it sends. *)
Example working_session_requests :
  List.filter is_remote_call (trace (session working_session mounting).2) =
    [ AuthGetCurrentUser; OrganizationsGetAll;
      ApiGet "/plans/" (plans_query "SUBMITTED" [2]);
      ApiPost "/plans/3/approve/?_=1700000000000"
        {| payload_status := APPROVED; payload_feedback := EmptyString |};
      ApiPost "/plans/3/approve/?_=1700000000000"
        {| payload_status := APPROVED; payload_feedback := "ok" |} ].
Proof. vm_compute. reflexivity. Qed.

(** ** Builders, without assumptions on the response *)

(** X14: the builders only read.  Whatever the store answers, a builder
    leaves the state of the component as it is and sends nothing but its
    [GET /plans/] requests for the caller's organizations with limit 50: none
    when the guard stops it, otherwise one (SUBMITTED) for the pending set
    and two (APPROVED, then REJECTED) for the decided set. *)
Theorem builders_only_read env w :
  let p := (pendingPlans_queryFn env w).2 in
  let d := (reviewedPlans_queryFn env w).2 in
  state p = state w /\
  state d = state w /\
  (exists es,
     trace p = (trace w ++ es)%list /\
     List.filter is_remote_call es =
       if nothing_to_fetch (state w) then []
       else [ApiGet "/plans/" (plans_query "SUBMITTED" (userOrgIds (state w)))]) /\
  (exists es,
     trace d = (trace w ++ es)%list /\
     List.filter is_remote_call es =
       if nothing_to_fetch (state w) then []
       else [ApiGet "/plans/" (plans_query "APPROVED" (userOrgIds (state w)));
             ApiGet "/plans/" (plans_query "REJECTED" (userOrgIds (state w)))]).
Proof.
  rewrite pendingPlans_queryFn_run, reviewedPlans_queryFn_run.
  destruct (nothing_to_fetch (state w)); simpl.
  { repeat split; exists []; by rewrite app_nil_r. }
  destruct (pending_try env (state w)), (reviewed_try env (state w)); simpl;
    repeat split; eexists; split; reflexivity.
Qed.

Lemma someE_false {A} (f : A -> Exc bool) l :
  someE f l = Ok false -> forall x, In x l -> f x = Ok false.
Proof.
  induction l as [|a l IH]; simpl; [by intros _ x []|].
  destruct (f a) as [[|]|e] eqn:Ef; simpl; try done.
  intros H x [<-|Hx]; [done|by apply IH].
Qed.

Lemma reviewed_by_false ids r :
  reviewed_by ids r = Ok false -> decided_by ids r = false.
Proof.
  unfold reviewed_by, decided_by, opt_get.
  destruct (get r "evaluator") as [v|e]; simpl; [|done]. by intros [= ->].
Qed.

Lemma reviewed_by_true ids r :
  reviewed_by ids r = Ok true -> decided_by ids r = true.
Proof.
  unfold reviewed_by, decided_by, opt_get.
  destruct (get r "evaluator") as [v|e]; simpl; [|done]. by intros [= ->].
Qed.

(** What passing the filter means for a record, whatever its shape. *)
Lemma pending_filter_kept ids (o : Obj) :
  pending_filter ids (JObj o) = Ok true ->
  has_status o "SUBMITTED" /\
  forall r, In r (decision_records o) -> decided_by ids r = false.
Proof.
  unfold pending_filter, has_status, decision_records. simpl.
  fold (field o "status"). fold (field o "reviews").
  destruct (is_str (field o "status") "SUBMITTED") eqn:Hst; simpl; [|done].
  apply is_str_true in Hst. intros Hkeep. split; [done|].
  destruct (field o "reviews") as [| |b|n|s|l|o'|f] eqn:Er; simpl in *;
    try (by intros r []).
  destruct (someE (reviewed_by ids) l) as [[|]|e] eqn:Hsome; simpl in Hkeep; try done.
  intros r Hr. apply reviewed_by_false. by apply (someE_false _ _ Hsome).
Qed.

Lemma pendingPlans_entries_kept env w out e :
  (pendingPlans_queryFn env w).1 = Ok out -> In e out ->
  exists o,
    e = pending_entry (organizationsMap (state w)) o /\
    pending_filter (currentEvaluatorIds (state w)) (JObj o) = Ok true.
Proof.
  rewrite pendingPlans_queryFn_run.
  destruct (nothing_to_fetch _); simpl; [by intros [= <-] []|].
  destruct (pending_try env (state w)) as [out'|err] eqn:Htry; simpl;
    [|by intros [= <-] []].
  intros [= ->] He. unfold pending_try in Htry.
  destruct (api_get env _ _) as [data|err]; simpl in Htry; [|done].
  destruct (array_method (plans_of data) "plans.filter") as [plans|err];
    simpl in Htry; [|done].
  destruct (filterE _ plans) as [fl|err] eqn:Hfl; simpl in Htry; [|done].
  destruct (mapE_In _ _ _ Htry e He) as (v & Hv & Hentry).
  destruct (filterE_In _ _ _ Hfl v Hv) as [Hin Hkeep].
  destruct (pending_filter_true _ _ Hkeep) as [o ->].
  exists o. split; [|done].
  rewrite plansWithNames_entry_obj in Hentry. by injection Hentry.
Qed.

(** X15: whatever the store answers, every entry of the pending-set output
    has status SUBMITTED and none of its Decision Records carries one of the
    caller's reviewer ids. *)
Theorem pending_output_is_sound env w out e :
  (pendingPlans_queryFn env w).1 = Ok out -> In e out ->
  has_status e "SUBMITTED" /\
  forall r, In r (decision_records e) ->
            decided_by (currentEvaluatorIds (state w)) r = false.
Proof.
  intros Hrun He.
  destruct (pendingPlans_entries_kept env w out e Hrun He) as (o & -> & Hkeep).
  apply pending_filter_kept in Hkeep as [Hst Hnone].
  unfold has_status. rewrite pending_entry_field by done.
  by rewrite pending_entry_decision_records.
Qed.

Lemma pending_output_is_sound_witness :
  let e := pending_entry (organizationsMap Examples.caller)
             (Examples.plan 1 2 "SUBMITTED" [Examples.decision 9 "APPROVED" EmptyString]) in
  has_status e "SUBMITTED" /\
  forall r, In r (decision_records e) -> decided_by [7] r = false.
Proof.
  intros e.
  apply (pending_output_is_sound Examples.pending_store Examples.start
           [e; pending_entry (organizationsMap Examples.caller)
                 (Examples.record [("id", JNum 3); ("organization", JNum 3);
                                   ("status", JStr "SUBMITTED")])]
           e).
  - reflexivity.
  - left. reflexivity.
Defined.

(** X16: on a well-formed response the pending-set output is the fetched list
    itself, filtered and annotated: the order of the store is kept, and a
    submission the store returns twice is listed twice. *)
Theorem pending_output_keeps_store_order env w data (plans : list Obj) :
  userOrgIds (state w) <> [] ->
  currentEvaluatorIds (state w) <> [] ->
  api_get env "/plans/" (plans_query "SUBMITTED" (userOrgIds (state w))) = Ok data ->
  plans_of data = JArr (map JObj plans) ->
  forallb decisions_are_records plans = true ->
  (pendingPlans_queryFn env w).1 =
    Ok (map (pending_entry (organizationsMap (state w)))
          (List.filter (awaits_decision (currentEvaluatorIds (state w))) plans)).
Proof. apply pendingPlans_submissions. Qed.

Lemma pending_output_keeps_store_order_witness :
  (pendingPlans_queryFn repeating_store Examples.start).1 =
    Ok (map (pending_entry (organizationsMap Examples.caller))
          (List.filter (awaits_decision [7])
             [ Examples.plan 1 2 "SUBMITTED" []; Examples.plan 1 2 "SUBMITTED" [] ])).
Proof.
  apply (pending_output_keeps_store_order repeating_store Examples.start
           (Examples.bodies [ Examples.plan 1 2 "SUBMITTED" [];
                              Examples.plan 1 2 "SUBMITTED" [] ])
           [ Examples.plan 1 2 "SUBMITTED" []; Examples.plan 1 2 "SUBMITTED" [] ]).
  - discriminate.
  - discriminate.
  - reflexivity.
  - reflexivity.
  - reflexivity.
Defined.

Lemma findE_first {A} (f : A -> Exc bool) l x :
  findE f l = Ok (Some x) ->
  exists l1 l2,
    l = (l1 ++ x :: l2)%list /\
    (forall y, In y l1 -> f y = Ok false) /\
    f x = Ok true.
Proof.
  induction l as [|a l IH]; simpl; [done|].
  destruct (f a) as [[|]|e] eqn:Ef; simpl; try done.
  - intros [= ->]. exists [], l. by repeat split.
  - intros H. destruct (IH H) as (l1 & l2 & -> & Hl1 & Hx).
    exists (a :: l1), l2. repeat split; [|done].
    intros y [<-|Hy]; [done|by apply Hl1].
Qed.

(** A step that enters a record attributes it to the first of its Decision
    Records that carries one of the caller's ids. *)
Lemma reviewed_step_first ids orgMap (m m' : JsMap Obj) v :
  reviewed_step ids orgMap m v = Ok m' ->
  m' = m \/
  exists (o : Obj) r before after,
    v = JObj o /\
    decision_records o = (before ++ r :: after)%list /\
    (forall y, In y before -> decided_by ids y = false) /\
    decided_by ids r = true /\
    m' = (m ++ [(field o "id", decided_entry orgMap o r)])%list.
Proof.
  unfold reviewed_step.
  destruct v as [| |b|n|s|l|o|f]; simpl; try done;
    try (intros [= <-]; by left).
  fold (field o "reviews"). fold (field o "id"). fold (field o "organization").
  destruct (field o "reviews") as [| |b|n|s|l|o'|f] eqn:Er; simpl;
    try (intros [= <-]; by left).
  - destruct b; simpl; intros [= <-]; by left.
  - destruct (negb (Z.eqb n 0)); simpl; intros [= <-]; by left.
  - destruct (negb (String.eqb s EmptyString)); simpl; intros [= <-]; by left.
  - destruct (findE (reviewed_by ids) l) as [[r|]|e] eqn:Ef; simpl;
      try done; try (intros [= <-]; by left).
    destruct (truthy r); simpl; [|intros [= <-]; by left].
    destruct (map_has m (field o "id")) eqn:Eh; simpl;
      [intros [= <-]; by left|].
    intros [= <-]. right.
    apply findE_first in Ef as (l1 & l2 & -> & Hl1 & Hr).
    exists o, r, l1, l2.
    unfold decision_records. rewrite Er.
    unfold map_set. rewrite Eh.
    repeat split; try done.
    + intros y Hy. apply reviewed_by_false. by apply Hl1.
    + by apply reviewed_by_true.
Qed.

Lemma reviewed_traversal_first ids orgMap l :
  forall (m m' : JsMap Obj) ke,
    forEachE (reviewed_step ids orgMap) l m = Ok m' -> In ke m' ->
    In ke m \/
    exists (o : Obj) r before after,
      decision_records o = (before ++ r :: after)%list /\
      (forall y, In y before -> decided_by ids y = false) /\
      decided_by ids r = true /\
      ke.2 = decided_entry orgMap o r.
Proof.
  induction l as [|v l IH]; simpl; intros m m' ke Hrun Hke.
  { injection Hrun as <-. by left. }
  destruct (reviewed_step ids orgMap m v) as [m1|e] eqn:Hstep; simpl in Hrun; [|done].
  destruct (IH m1 m' ke Hrun Hke) as [Hin|Hent]; [|by right].
  apply reviewed_step_first in Hstep
    as [-> | (o & r & l1 & l2 & -> & Hrec & Hl1 & Hr & ->)]; [by left|].
  apply in_app_iff in Hin as [Hin|[<-|[]]]; [by left|].
  right. by exists o, r, l1, l2.
Qed.

Lemma decided_entry_decision_records orgMap (o : Obj) r :
  decision_records (decided_entry orgMap o r) = decision_records o.
Proof. unfold decision_records. by rewrite decided_entry_field. Qed.

(** X17: whatever the store answers, every entry of the decided-set output
    carries, as [currentEvaluatorReview], one of its own Decision Records:
    the first, in the order of the collection, that carries one of the
    caller's reviewer ids. *)
Theorem decided_output_is_attributed env w out e :
  (reviewedPlans_queryFn env w).1 = Ok out -> In e out ->
  exists r before after,
    e !! "currentEvaluatorReview" = Some r /\
    decision_records e = (before ++ r :: after)%list /\
    (forall y, In y before -> decided_by (currentEvaluatorIds (state w)) y = false) /\
    decided_by (currentEvaluatorIds (state w)) r = true.
Proof.
  rewrite reviewedPlans_queryFn_run.
  destruct (nothing_to_fetch _); simpl; [by intros [= <-] []|].
  destruct (reviewed_try env (state w)) as [out'|err] eqn:Htry; simpl;
    [|by intros [= <-] []].
  intros [= ->] He. unfold reviewed_try in Htry.
  destruct (promise_all _ _) as [res|err]; simpl in Htry; [|done].
  destruct (spread_iter (plans_of res.1)) as [a|err]; simpl in Htry; [|done].
  destruct (spread_iter (plans_of res.2)) as [r|err]; simpl in Htry; [|done].
  destruct (forEachE _ _ _) as [m|err] eqn:Hrun; simpl in Htry; [|done].
  injection Htry as <-. unfold map_values in He.
  apply in_map_iff in He as (ke & <- & Hke).
  destruct (reviewed_traversal_first _ _ _ _ _ _ Hrun Hke)
    as [[]|(o & rv & l1 & l2 & Hrec & Hl1 & Hrv & ->)].
  exists rv, l1, l2.
  rewrite decided_entry_review, decided_entry_decision_records. done.
Qed.

Lemma decided_output_is_attributed_witness :
  let e := decided_entry (organizationsMap Examples.caller)
             (Examples.plan 6 3 "REJECTED"
                [Examples.decision 8 "APPROVED" "fine"; Examples.decision 7 "REJECTED" "redo"])
             (Examples.decision 7 "REJECTED" "redo") in
  exists r before after,
    e !! "currentEvaluatorReview" = Some r /\
    decision_records e = (before ++ r :: after)%list /\
    (forall y, In y before -> decided_by [7] y = false) /\
    decided_by [7] r = true.
Proof.
  intros e.
  apply (decided_output_is_attributed Examples.decided_store Examples.start
           [decided_entry (organizationsMap Examples.caller)
              (Examples.plan 5 2 "APPROVED" [Examples.decision 7 "APPROVED" "ok"])
              (Examples.decision 7 "APPROVED" "ok"); e]
           e).
  - reflexivity.
  - right. left. reflexivity.
Defined.

(** ** The pending badge *)

Lemma count_pending_le (l : list Obj) :
  forall s : JsSet, (length (fold_left count_pending l s) <= length s + length l)%nat.
Proof.
  induction l as [|p l IH]; intros s; simpl; [lia|].
  etransitivity; [apply IH|].
  unfold count_pending, set_add.
  destruct (is_str _ _); [|lia].
  destruct (existsb _ s); [lia|]. rewrite length_app. simpl. lia.
Qed.

Lemma count_pending_distinct (l : list Obj) :
  forall s : JsSet,
    (forall q, In q l -> has_status q "SUBMITTED") ->
    distinct_keys (ids_of l) ->
    (forall q, In q l ->
       existsb (fun x => same_value_zero x (field q "id")) s = false) ->
    (length (fold_left count_pending l s) = length s + length l)%nat.
Proof.
  induction l as [|p l IH]; intros s Hst Hdist Hs; simpl; [lia|].
  destruct Hdist as [Hp Hdist].
  unfold count_pending at 2.
  rewrite (proj2 (is_str_true _ _) (Hst p (or_introl eq_refl))).
  rewrite set_add_fresh by (apply Hs; by left).
  rewrite IH; try done.
  - rewrite length_app. simpl. lia.
  - intros q Hq. apply Hst. by right.
  - apply fresh_after; [|done]. intros q Hq. apply Hs. by right.
Qed.

(** X18: the number on the pending badge counts identifiers, the table lists
    entries.  For every run of the pending-set builder the count is at most
    the number of entries of the output, and it is that number when the
    identifiers of the entries are pairwise distinct. *)
Theorem pending_count_counts_identifiers env w out reviewedPlans :
  (pendingPlans_queryFn env w).1 = Ok out ->
  let n := pendingCount (statistics (Some out) reviewedPlans) in
  (n <= length out)%nat /\
  (distinct_keys (ids_of out) -> n = length out).
Proof.
  intros Hrun n. subst n. unfold statistics. simpl.
  destruct (fold_left count_reviewed _ _) as [[R A] J]. simpl. unfold set_size.
  split.
  - apply (count_pending_le out []).
  - intros Hdist.
    apply (count_pending_distinct out []); [|done|done].
    intros q Hq.
    destruct (pendingPlans_entries_kept env w out q Hrun Hq) as (o & -> & Hkeep).
    apply pending_filter_kept in Hkeep as [Hst _].
    unfold has_status. by rewrite pending_entry_field.
Qed.

Lemma pending_count_counts_identifiers_witness :
  let out := map (pending_entry (organizationsMap Examples.caller))
               [ Examples.plan 1 2 "SUBMITTED" [Examples.decision 9 "APPROVED" EmptyString];
                 Examples.record [("id", JNum 3); ("organization", JNum 3);
                                  ("status", JStr "SUBMITTED")] ] in
  let n := pendingCount (statistics (Some out) None) in
  (n <= length out)%nat /\
  (distinct_keys (ids_of out) -> n = length out).
Proof.
  intros out.
  apply (pending_count_counts_identifiers Examples.pending_store Examples.start out None).
  reflexivity.
Defined.

(** A store that returns a submission twice: two rows, and 1 on the badge. *)
Example repeated_submission_counts_once :
  match useQuery_data (pendingPlans_queryFn repeating_store Examples.start) with
  | Some out => (length out, pendingCount (statistics (Some out) None))
  | None => (0, 0)%nat
  end = (2, 1)%nat.
Proof. reflexivity. Qed.

(** ** Names on the rows *)

Lemma organizationName_of_truthy orgMap org :
  truthy (organizationName_of orgMap org) = true.
Proof.
  unfold organizationName_of, or_else.
  by destruct (truthy (index orgMap (to_string org))) eqn:E.
Qed.

(** X19: [getOrganizationName] never returns a blank: whatever the plan and
    the cache are, the value it returns is truthy. *)
Theorem shown_name_is_never_blank shown (plan : Obj) :
  truthy (getOrganizationName shown plan) = true.
Proof.
  unfold getOrganizationName.
  destruct (truthy (field plan "organizationName")) eqn:E1; simpl.
  - destruct (is_str (field plan "organizationName") "Unknown Organization"); simpl;
      [|done].
    destruct (truthy (field plan "organization_name")) eqn:E2; [done|].
    by destruct (truthy (index shown _)) eqn:E3.
  - destruct (truthy (field plan "organization_name")) eqn:E2; [done|].
    by destruct (truthy (index shown _)) eqn:E3.
Qed.

(** X20: the name on a row is the one the builder annotated, whatever the
    cache holds when the row is shown: for every entry of the output of
    either builder the annotation is truthy, and unless it is the literal
    'Unknown Organization' it is what [getOrganizationName] returns. *)
Theorem row_name_is_the_annotation env w shown out e :
  (pendingPlans_queryFn env w).1 = Ok out \/ (reviewedPlans_queryFn env w).1 = Ok out ->
  In e out ->
  truthy (field e "organizationName") = true /\
  (field e "organizationName" <> JStr "Unknown Organization" ->
   getOrganizationName shown e = field e "organizationName").
Proof.
  intros Hrun He.
  assert (Hname : exists org,
             field e "organizationName" =
               organizationName_of (organizationsMap (state w)) org).
  { destruct Hrun as [Hrun|Hrun].
    - destruct (pendingPlans_entries env w out e Hrun He) as (data & o & _ & _ & ->).
      eexists. apply pending_entry_name.
    - destruct (reviewedPlans_entries env w out e Hrun He)
        as (da & dr & o & r & _ & _ & _ & _ & ->).
      eexists. apply decided_entry_name. }
  destruct Hname as [org Hname].
  assert (Ht : truthy (field e "organizationName") = true)
    by (rewrite Hname; apply organizationName_of_truthy).
  split; [done|]. intros Hne.
  apply getOrganizationName_own; [done|].
  apply not_true_iff_false. intros H. by apply is_str_true in H.
Qed.

Lemma row_name_is_the_annotation_witness :
  let e := pending_entry (organizationsMap Examples.caller)
             (Examples.plan 1 2 "SUBMITTED" [Examples.decision 9 "APPROVED" EmptyString]) in
  truthy (field e "organizationName") = true /\
  (field e "organizationName" <> JStr "Unknown Organization" ->
   getOrganizationName ∅ e = field e "organizationName").
Proof.
  intros e.
  apply (row_name_is_the_annotation Examples.pending_store Examples.start ∅
           [e; pending_entry (organizationsMap Examples.caller)
                 (Examples.record [("id", JNum 3); ("organization", JNum 3);
                                   ("status", JStr "SUBMITTED")])]
           e).
  - left. reflexivity.
  - left. reflexivity.
Defined.




(** The placeholder of a number, computed. *)
Example placeholder_of_5 :
  organizationName_of ∅ (JNum 5) = JStr "Organization 5".
Proof. vm_compute. reflexivity. Qed.

(** ** When the queries run *)

Lemma evaluator_ids_nonempty (orgs : list Auth.UserOrganization) :
  (0 <? length (map Auth.id (filter (fun org => Auth.role org = "EVALUATOR") orgs)))%nat
    = true <->
  exists r, In r orgs /\ Auth.role r = "EVALUATOR".
Proof.
  induction orgs as [|org orgs IH]; simpl.
  { split; [done|]. by intros (r & [] & _). }
  rewrite filter_cons. destruct (decide (Auth.role org = "EVALUATOR")) as [Hr|Hr]; simpl.
  - split; [|done]. intros _. exists org. by split; [left|].
  - rewrite IH. split.
    + intros (r & Hin & Hrole). exists r. by split; [right|].
    + intros (r & [<-|Hin] & Hrole); [done|]. by exists r.
Qed.

(** X21: which queries a freshly mounted component runs.  After the
    permission check the pending-plans query is enabled exactly when the
    caller was accepted and holds a role-record with the role EVALUATOR; the
    reviewed-plans query is not enabled (the pending tab is the active one);
    and a caller found to be evaluator-only always has the pending-plans
    query enabled. *)
Theorem queries_after_mount env w :
  state w = initial_state ->
  let s := state (checkPermissions env w).2 in
  (pendingPlans_enabled s = true <->
   accepted env = true /\
   exists r, In r (role_records env) /\ Auth.role r = "EVALUATOR") /\
  reviewedPlans_enabled s = false /\
  (isEvaluatorOnly s = true -> pendingPlans_enabled s = true).
Proof.
  intros Hw s. subst s. rewrite checkPermissions_run. simpl.
  unfold after_mount, accepted, role_records, pendingPlans_enabled,
    reviewedPlans_enabled.
  rewrite Hw.
  assert (Hnone : forall P : Prop,
            (false = true <-> P /\ exists r : Auth.UserOrganization,
                                     In r [] /\ Auth.role r = "EVALUATOR")).
  { intros P. split; [done|]. by intros (_ & r & [] & _). }
  destruct (auth_getCurrentUser env) as [authData|err]; simpl.
  2:{ repeat split; try done. by intros (? & _). }
  destruct (Auth.isAuthenticated authData); simpl.
  2:{ repeat split; try done. by intros (? & _). }
  destruct (isEvaluator env (Auth.userOrganizations authData)); simpl.
  2:{ repeat split; try done. by intros (? & _). }
  destruct (Auth.userOrganizations authData) as [[|org orgs]|]; simpl;
    try (split; [apply Hnone|by split]).
  destruct (after_prefetch_state env
              {| state := with_identity (org :: orgs) initial_state;
                 trace := (trace w ++ [AuthGetCurrentUser])%list |}) as [orgMap ->].
  simpl.
  pose proof (evaluator_ids_nonempty (org :: orgs)) as Hids. simpl in Hids.
  split; [|split; [done|]].
  - rewrite Hids. split; [by split|by intros [_ H]].
  - intros Honly. apply Hids.
    unfold isOnlyEvaluator in Honly.
    apply andb_true_iff in Honly as [Honly _].
    apply andb_true_iff in Honly as [Honly _].
    apply existsb_exists in Honly as (role & Hin & Heq).
    apply String.eqb_eq in Heq. subst role.
    apply (in_map_iff Auth.role (org :: orgs)) in Hin as (r & Hrole & Hin).
    by exists r.
Qed.

Lemma queries_after_mount_witness :
  let s := state (checkPermissions Examples.two_roles_env mounting).2 in
  (pendingPlans_enabled s = true <->
   accepted Examples.two_roles_env = true /\
   exists r, In r (role_records Examples.two_roles_env) /\ Auth.role r = "EVALUATOR") /\
  reviewedPlans_enabled s = false /\
  (isEvaluatorOnly s = true -> pendingPlans_enabled s = true).
Proof.
  apply (queries_after_mount Examples.two_roles_env mounting).
  reflexivity.
Defined.

(** C9: the evaluator-only flag is true if and only if the caller's roles
    contain EVALUATOR and none of the other roles the page knows as
    privileged, ADMIN and PLANNER: for every list of roles, and in the state
    the permission check leaves behind, where the flag is set for an accepted
    caller only.  A role beyond these three does not change the flag. *)
Theorem evaluator_only_flag :
  (forall roles,
     isOnlyEvaluator roles = true <->
     In "EVALUATOR" roles /\
     forall role, In role roles -> role <> "ADMIN" /\ role <> "PLANNER") /\
  (forall env w,
     isEvaluatorOnly (state w) = false ->
     let roles := map Auth.role (role_records env) in
     isEvaluatorOnly (state (checkPermissions env w).2) = true <->
     accepted env = true /\
     In "EVALUATOR" roles /\
     forall role, In role roles -> role <> "ADMIN" /\ role <> "PLANNER") /\
  (forall roles other,
     other <> "EVALUATOR" -> other <> "ADMIN" -> other <> "PLANNER" ->
     isOnlyEvaluator (other :: roles) = isOnlyEvaluator roles).
Proof.
  assert (Hroles : forall roles,
            isOnlyEvaluator roles = true <->
            In "EVALUATOR" roles /\
            forall role, In role roles -> role <> "ADMIN" /\ role <> "PLANNER").
  { intros roles. rewrite isOnlyEvaluator_iff. split.
    - intros (He & Ha & Hp). split; [done|].
      intros role Hin. split; intros Heq; subst role; [by apply Ha|by apply Hp].
    - intros (He & Hno). split; [done|].
      split; intros Hin; destruct (Hno _ Hin); congruence. }
  split; [exact Hroles|]. split.
  - intros env w Hflag roles. subst roles.
    rewrite checkPermissions_run. simpl.
    unfold after_mount, accepted, role_records.
    assert (Hnone : forall P : Prop,
              false = true <-> P /\ In "EVALUATOR" [] /\
                forall role : string, In role [] -> role <> "ADMIN" /\ role <> "PLANNER").
    { intros P. split; [done|]. by intros (_ & [] & _). }
    destruct (auth_getCurrentUser env) as [authData|err]; simpl.
    2:{ rewrite Hflag. split; [done|]. by intros (? & _). }
    destruct (Auth.isAuthenticated authData); simpl.
    2:{ rewrite Hflag. split; [done|]. by intros (? & _). }
    destruct (isEvaluator env (Auth.userOrganizations authData)); simpl.
    2:{ rewrite Hflag. split; [done|]. by intros (? & _). }
    destruct (Auth.userOrganizations authData) as [[|org orgs]|]; simpl;
      try (rewrite Hflag; apply Hnone).
    destruct (after_prefetch_state env
                {| state := with_identity (org :: orgs) (state w);
                   trace := (trace w ++ [AuthGetCurrentUser])%list |}) as [orgMap ->].
    simpl. split.
    + intros H. split; [done|].
      by apply (Hroles (Auth.role org :: map Auth.role orgs)).
    + intros [_ H]. by apply (Hroles (Auth.role org :: map Auth.role orgs)).
  - intros roles other He Ha Hp. unfold isOnlyEvaluator. cbn [existsb].
    assert (H1 : String.eqb "EVALUATOR" other = false)
      by (apply String.eqb_neq; congruence).
    assert (H2 : String.eqb "ADMIN" other = false)
      by (apply String.eqb_neq; congruence).
    assert (H3 : String.eqb "PLANNER" other = false)
      by (apply String.eqb_neq; congruence).
    by rewrite H1, H2, H3.
Qed.

(** A caller who holds EVALUATOR and a role beyond the three is flagged. *)
Lemma evaluator_only_flag_witness :
  isEvaluatorOnly (state (checkPermissions Examples.two_roles_env Examples.idle).2) = true <->
  accepted Examples.two_roles_env = true /\
  In "EVALUATOR" (map Auth.role (role_records Examples.two_roles_env)) /\
  forall role, In role (map Auth.role (role_records Examples.two_roles_env)) ->
               role <> "ADMIN" /\ role <> "PLANNER".
Proof.
  apply (proj1 (proj2 evaluator_only_flag) Examples.two_roles_env Examples.idle).
  reflexivity.
Defined.

Example evaluator_with_another_role :
  isEvaluatorOnly (state (checkPermissions Examples.two_roles_env Examples.idle).2) = true.
Proof. reflexivity. Qed.

(** X22: the guard of a builder never stops an enabled query: when its query
    is enabled the run sends its request to the store (the pending-plans
    query one, the reviewed-plans query two). *)
Theorem enabled_query_reaches_the_store env w :
  (pendingPlans_enabled (state w) = true ->
   exists es,
     trace (pendingPlans_queryFn env w).2 =
       (trace w ++
        ApiGet "/plans/" (plans_query "SUBMITTED" (userOrgIds (state w))) :: es)%list) /\
  (reviewedPlans_enabled (state w) = true ->
   exists es,
     trace (reviewedPlans_queryFn env w).2 =
       (trace w ++
        ApiGet "/plans/" (plans_query "APPROVED" (userOrgIds (state w))) ::
        ApiGet "/plans/" (plans_query "REJECTED" (userOrgIds (state w))) :: es)%list).
Proof.
  assert (Hguard : forall s,
            (0 <? length (userOrgIds s))%nat && (0 <? length (currentEvaluatorIds s))%nat
              = true ->
            nothing_to_fetch s = false).
  { intros s [H1 H2]%andb_true_iff. unfold nothing_to_fetch.
    apply Nat.ltb_lt in H1, H2.
    apply orb_false_iff. split; apply Nat.eqb_neq; lia. }
  split; intros Hen.
  - rewrite pendingPlans_queryFn_run, Hguard.
    + destruct (pending_try env (state w)); simpl; by eexists.
    + unfold pendingPlans_enabled in Hen.
      apply andb_true_iff in Hen as [Hen H2].
      apply andb_true_iff in Hen as [_ H1]. by rewrite H1, H2.
  - rewrite reviewedPlans_queryFn_run, Hguard.
    + destruct (reviewed_try env (state w)); simpl; by eexists.
    + unfold reviewedPlans_enabled in Hen.
      apply andb_true_iff in Hen as [Hen H2].
      apply andb_true_iff in Hen as [_ H1]. by rewrite H1, H2.
Qed.

Lemma enabled_query_reaches_the_store_witness :
  let w := {| state := with_isAuthChecked true Examples.caller; trace := [] |} in
  exists es,
    trace (pendingPlans_queryFn Examples.pending_store w).2 =
      (trace w ++
       ApiGet "/plans/" (plans_query "SUBMITTED" (userOrgIds (state w))) :: es)%list.
Proof.
  intros w.
  apply (proj1 (enabled_query_reaches_the_store Examples.pending_store w)).
  reflexivity.
Defined.
